(** * Swap service (server.js): a shallow embedding of the POST /swap handler

    The handler of [src/server.js] is an [async] function that threads a log
    bag through a sequence of external round trips (the pricing service, the
    ERC-20 contract, the transaction-build service, the chain).  It is
    embedded here as a function in a small state-and-exception monad:

    - JSON data is the inductive type [value], with JavaScript truthiness,
      [||], optional-chaining property reads and the coercions the handler
      uses ([String], [Number], [Array.prototype.join], [toFixed]), which
      throw a [TypeError] on an object that has no primitive value;
      numbers are IEEE-754 doubles ([PrimFloat]);
    - the state holds the log bag of [mkLogBag] and a ghost list of the
      external calls issued so far, in order;
    - a computation ends with a value, with an early [return res...json(..)]
      or with a thrown JavaScript value, which the handler's [catch] turns
      into a response;
    - the outside world (services and chain) is an oracle record [World]
      that answers each external call with a result or a thrown value. *)

From Stdlib Require Import ZArith List String Ascii Bool Lia.
From Stdlib Require Import Floats Uint63 DecimalString.
Import ListNotations.
Local Open Scope string_scope.
Local Open Scope Z_scope.

(** ** JavaScript values *)

#[local] Set Warnings "-register-all".

Inductive value : Type :=
| JUndefined
| JNull
| JBool (b : bool)
| JNum (x : float)
| JStr (s : string)
| JArr (items : list value)
| JObj (props : list (string * value)).

(** A fallible builtin or external call: it returns, or it throws a value. *)
Inductive result (A : Type) : Type :=
| Ok (a : A)
| Throw (e : value).
Arguments Ok {A} a.
Arguments Throw {A} e.

(** [ToBoolean]: undefined, null, false, 0, -0, NaN and the empty string are
    falsy; everything else (objects and arrays included) is truthy. *)
Definition truthy (v : value) : bool :=
  match v with
  | JUndefined | JNull => false
  | JBool b => b
  | JNum x => negb (PrimFloat.eqb x 0 || PrimFloat.is_nan x)
  | JStr s => negb (s =? "")%string
  | JArr _ | JObj _ => true
  end.

(** [a || b] on values. *)
Definition or_ (a b : value) : value := if truthy a then a else b.

Fixpoint assoc (k : string) (props : list (string * value)) : option value :=
  match props with
  | [] => None
  | (k', v) :: rest => if (k =? k')%string then Some v else assoc k rest
  end.

(** A property read [v?.k] (and [v.k], [v[k]] on an object): an own property
    of an object, [undefined] otherwise.  None of the keys the handler reads
    is inherited from a prototype. *)
Definition get (v : value) (k : string) : value :=
  match v with
  | JObj props => match assoc k props with Some x => x | None => JUndefined end
  | _ => JUndefined
  end.

Definition has_key (v : value) (k : string) : bool :=
  match v with
  | JObj props => match assoc k props with Some _ => true | None => false end
  | _ => false
  end.

Fixpoint join (sep : string) (l : list string) : string :=
  match l with
  | [] => ""
  | [s] => s
  | s :: rest => s ++ sep ++ join sep rest
  end.

(** The results of a list of conversions made from left to right: all of
    them, or the value thrown by the first that throws. *)
Fixpoint all_ok {A} (l : list (result A)) : result (list A) :=
  match l with
  | [] => Ok []
  | Ok a :: rest =>
      match all_ok rest with
      | Ok r => Ok (a :: r)
      | Throw e => Throw e
      end
  | Throw e :: _ => Throw e
  end.

(** Induction on a value, with the property at hand for the items of an
    array. *)
Section ValueInduction.

Variable P : value -> Prop.
Hypothesis P_undefined : P JUndefined.
Hypothesis P_null : P JNull.
Hypothesis P_bool : forall b, P (JBool b).
Hypothesis P_num : forall x, P (JNum x).
Hypothesis P_str : forall s, P (JStr s).
Hypothesis P_arr : forall items, Forall P items -> P (JArr items).
Hypothesis P_obj : forall props, P (JObj props).

Fixpoint value_items_ind (v : value) : P v :=
  match v with
  | JUndefined => P_undefined
  | JNull => P_null
  | JBool b => P_bool b
  | JNum x => P_num x
  | JStr s => P_str s
  | JArr items =>
      P_arr items
        ((fix all (l : list value) : Forall P l :=
            match l with
            | [] => Forall_nil P
            | x :: rest => Forall_cons x (value_items_ind x) (all rest)
            end) items)
  | JObj props => P_obj props
  end.

End ValueInduction.

(** The [TypeError] thrown when an object has no primitive value (the
    message is the one of V8, the engine of Node.js). *)
Definition cannot_convert : value :=
  JObj [("message", JStr "Cannot convert object to primitive value")].

(** ** Digits, lower case, fixed-point formatting *)

Definition is_digit (c : ascii) : bool :=
  let n := nat_of_ascii c in (48 <=? n)%nat && (n <=? 57)%nat.

Fixpoint all_digits (s : string) : bool :=
  match s with
  | EmptyString => true
  | String c rest => is_digit c && all_digits rest
  end.

(** [/^\d+$/.test(s)] *)
Definition test_digits (s : string) : bool :=
  negb (s =? "")%string && all_digits s.

Definition lower_ascii (c : ascii) : ascii :=
  let n := nat_of_ascii c in
  if (65 <=? n)%nat && (n <=? 90)%nat then ascii_of_nat (n + 32) else c.

(** [toLowerCase] on the ASCII letters, which is all an address string has. *)
Fixpoint toLowerCase (s : string) : string :=
  match s with
  | EmptyString => EmptyString
  | String c rest => String (lower_ascii c) (toLowerCase rest)
  end.

Definition dec_of_N (n : N) : string := NilZero.string_of_uint (N.to_uint n).

(** [BigInt.prototype.toString()] *)
Definition dec_of_Z (z : Z) : string :=
  if z <? 0 then "-" ++ dec_of_N (Z.to_N (- z)) else dec_of_N (Z.to_N z).

Fixpoint zeros (n : nat) : string :=
  match n with O => "" | S k => String "0" (zeros k) end.

Fixpoint split_at (n : nat) (s : string) : string * string :=
  match n, s with
  | O, _ => ("", s)
  | S k, String c rest => let (a, b) := split_at k rest in (String c a, b)
  | S _, EmptyString => ("", "")
  end.

(** The digits of [n] with a point before the last [f] of them. *)
Definition fixed_digits (n : N) (f : nat) : string :=
  let d := dec_of_N n in
  let d := zeros (S f - String.length d) ++ d in
  let (int_part, frac_part) := split_at (String.length d - f) d in
  match f with O => int_part | _ => int_part ++ "." ++ frac_part end.

(** The integer [n] for which [n / 10^f] is closest to [m * 2^e], the larger
    one on a tie. *)
Definition round_scaled (m : positive) (e : Z) (f : nat) : N :=
  let scaled := Z.pos m * 10 ^ Z.of_nat f in
  if 0 <=? e then Z.to_N (scaled * 2 ^ e)
  else let d := 2 ^ (- e) in Z.to_N ((2 * scaled + d) / (2 * d)).

Definition MaxUint256 : Z := 2 ^ 256 - 1.

(** ** Builtins, configuration and the outside world *)

(** The library functions the handler calls and this file does not define:
    [ethers.getAddress] ([None] when it throws), the string-to-number
    conversion inside [Number], [Number.prototype.toString],
    [JSON.stringify] and [BigInt]. *)
Record Builtins : Type := {
  getAddress : value -> option string;
  StringToNumber : string -> float;
  Number_toString : float -> string;
  JSON_stringify : value -> string;
  BigInt : value -> result Z
}.

(** The process configuration read at start-up: [CHAIN_ID],
    [process.env.PARASWAP_PARTNER], and the address of [signer] when a
    provider and a private key are configured. *)
Record Config : Type := {
  CHAIN_ID : float;
  PARASWAP_PARTNER : option string;
  signer : option string
}.

(** A transaction response ([tx.hash]) and a receipt ([rc.blockNumber],
    [rc.status]). *)
Record TxResponse : Type := { hash : value }.
Record Receipt : Type := { blockNumber : value; rc_status : value }.

(** The argument of [signer.sendTransaction]. *)
Record TxRequest : Type := {
  tx_to : value;
  tx_data : value;
  tx_value : Z;
  tx_gasLimit : option Z
}.

(** The answers of the external collaborators.  [mined] is what the chain
    has for a submitted transaction once it is confirmed: its receipt, or
    the error the wait for it ends with.  [revert_message] is the message
    of the error that ethers makes for a receipt of a reverted
    transaction. *)
Record World : Type := {
  prices_get : value -> result value;
  transactions_post : value -> result value;
  erc20_allowance : string -> string -> value -> result Z;
  erc20_approve : string -> value -> Z -> result TxResponse;
  mined : TxResponse -> result Receipt;
  revert_message : Receipt -> string;
  sendTransaction : TxRequest -> result TxResponse
}.

(** [receipt.status === 0]: the transaction reverted. *)
Definition is_reverted (rc : Receipt) : bool :=
  match rc_status rc with
  | JNum x => PrimFloat.eqb x 0
  | _ => false
  end.

(** The error of ethers for a reverted transaction, as far as the handler
    reads it: a [message] and the code [CALL_EXCEPTION], no [response] and
    no [status]. *)
Definition call_exception (message : string) : value :=
  JObj [("code", JStr "CALL_EXCEPTION"); ("message", JStr message)].

(** [tx.wait()] of ethers v6: the receipt of the confirmed transaction,
    unless its status is 0; the promise is then rejected with a
    [CALL_EXCEPTION] error. *)
Definition tx_wait (w : World) (tx : TxResponse) : result Receipt :=
  match mined w tx with
  | Ok rc =>
      if is_reverted rc then Throw (call_exception (revert_message w rc))
      else Ok rc
  | Throw e => Throw e
  end.
Arguments tx_wait : simpl never.

(** The external calls, as the ghost trace records them. *)
Inductive Call : Type :=
| PricesGet (params : value)
| AllowanceRead (token owner : string) (spender : value)
| ApproveSend (token : string) (spender : value) (amount : Z)
| TxWait (tx : TxResponse)
| TransactionsPost (body : value)
| SendTransaction (req : TxRequest).

(** The calls that submit a transaction to the chain. *)
Definition is_write (c : Call) : bool :=
  match c with
  | ApproveSend _ _ _ | SendTransaction _ => true
  | _ => false
  end.

(** The quote, allowance and build calls. *)
Definition is_quote (c : Call) : bool :=
  match c with PricesGet _ => true | _ => false end.

Definition is_allowance (c : Call) : bool :=
  match c with
  | AllowanceRead _ _ _ | ApproveSend _ _ _ => true
  | _ => false
  end.

Definition is_build (c : Call) : bool :=
  match c with TransactionsPost _ => true | _ => false end.

Definition is_wait (c : Call) : bool :=
  match c with TxWait _ => true | _ => false end.

Definition is_send (c : Call) : bool :=
  match c with SendTransaction _ => true | _ => false end.

(** What the allowance step may call, and what the broadcast step may. *)
Definition allowance_call (c : Call) : bool := is_allowance c || is_wait c.
Definition broadcast_call (c : Call) : bool := is_send c || is_wait c.

(** The parameters of the quote calls in a trace. *)
Definition quote_params_sent (l : list Call) : list value :=
  flat_map (fun c => match c with PricesGet p => [p] | _ => [] end) l.

(** ** The handler's monad *)

Record Response : Type := { status : value; body : value }.

Record state : Type := { logs : list string; calls : list Call }.

Definition init : state := {| logs := []; calls := [] |}.

Inductive outcome (A : Type) : Type :=
| Val (a : A)
| Ret (r : Response)
| Thr (e : value).
Arguments Val {A} a.
Arguments Ret {A} r.
Arguments Thr {A} e.

Definition M (A : Type) : Type := state -> outcome A * state.

Definition ret {A} (a : A) : M A := fun s => (Val a, s).

Definition bind {A B} (m : M A) (k : A -> M B) : M B :=
  fun s =>
    match m s with
    | (Val a, s') => k a s'
    | (Ret r, s') => (Ret r, s')
    | (Thr e, s') => (Thr e, s')
    end.

Definition throw {A} (e : value) : M A := fun s => (Thr e, s).

(** [return res.status(code).json(body)], the body built from the log bag. *)
Definition respond {A} (code : float) (mk : list string -> value) : M A :=
  fun s => (Ret {| status := JNum code; body := mk (logs s) |}, s).

Definition lift {A} (r : result A) : M A :=
  match r with Ok a => ret a | Throw e => throw e end.

(** An external call: recorded, then answered by the world. *)
Definition call {A} (c : Call) (answer : result A) : M A :=
  fun s =>
    let s' := {| logs := logs s; calls := calls s ++ [c] |} in
    match answer with
    | Ok a => (Val a, s')
    | Throw e => (Thr e, s')
    end.

Notation "x <- m ;; k" := (bind m (fun x => k))
  (at level 61, m at next level, right associativity).
Notation "m ;;; k" := (bind m (fun _ => k))
  (at level 61, right associativity).

(** The [logs] array as it is copied into a response. *)
Definition logs_value (l : list string) : value := JArr (map JStr l).

Section Server.

Context (js : Builtins) (cfg : Config) (w : World).

(** [String(v)], which is also the conversion of [v] inside a template
    literal.  An object parsed from JSON has no callable property of its
    own: with an own [toString] key neither that property nor the inherited
    [valueOf] yields a primitive value and the conversion throws; without
    one the inherited [toString] answers.  An array is joined with commas,
    so it throws when the conversion of an element does. *)
Fixpoint ToString (v : value) : result string :=
  match v with
  | JUndefined => Ok "undefined"
  | JNull => Ok "null"
  | JBool true => Ok "true"
  | JBool false => Ok "false"
  | JNum x => Ok (Number_toString js x)
  | JStr s => Ok s
  | JArr items =>
      match all_ok (map (fun x => match x with
                                  | JUndefined | JNull => Ok ""
                                  | _ => ToString x
                                  end) items) with
      | Ok strings => Ok (join "," strings)
      | Throw e => Throw e
      end
  | JObj props =>
      match assoc "toString" props with
      | Some _ => Throw cannot_convert
      | None => Ok "[object Object]"
      end
  end.

(** [items.join(sep)] *)
Definition array_join (sep : string) (items : list value) : result string :=
  match all_ok (map (fun x => match x with
                              | JUndefined | JNull => Ok ""
                              | _ => ToString x
                              end) items) with
  | Ok strings => Ok (join sep strings)
  | Throw e => Throw e
  end.

(** [Number(v)]: an object or an array is converted to a string first. *)
Definition ToNumber (v : value) : result float :=
  match v with
  | JUndefined => Ok PrimFloat.nan
  | JNull => Ok 0%float
  | JBool true => Ok 1%float
  | JBool false => Ok 0%float
  | JNum x => Ok x
  | JStr s => Ok (StringToNumber js s)
  | JArr _ | JObj _ =>
      match ToString v with
      | Ok s => Ok (StringToNumber js s)
      | Throw e => Throw e
      end
  end.

(** [x.toFixed(f)]: exact below 1e21, [String(x)] from there on and for
    NaN and the infinities. *)
Definition toFixed (x : float) (f : nat) : string :=
  match Prim2SF x with
  | S754_zero _ => fixed_digits 0 f
  | S754_finite neg m e =>
      if PrimFloat.ltb (PrimFloat.abs x) 1e21 then
        (if neg then "-" else "") ++ fixed_digits (round_scaled m e f) f
      else Number_toString js x
  | _ => Number_toString js x
  end.

(** [mkLogBag().push] *)
Definition push (tag : string) (obj : value) : M unit :=
  fun s =>
    (Val tt, {| logs := logs s ++ [tag ++ " | " ++ JSON_stringify js obj];
                calls := calls s |}).

(** [badRequest(message)]: an [Error] with [status] 400. *)
Definition badRequest (message : string) : value :=
  JObj [("message", JStr message); ("status", JNum 400)].

(** [assertAddr(a, name)] *)
Definition assertAddr (a : value) (name : string) : M string :=
  match getAddress js a with
  | Some checksummed => ret checksummed
  | None =>
      shown <- lift (ToString a) ;;
      throw (badRequest ("Endereço inválido em " ++ name ++ ": " ++ shown))
  end.

(** [ensureAllowance({token, owner, spender, neededWei, log, useSigner})],
    with [log] the [push] of the request and [useSigner] the configured
    signer, as its one caller passes them.  The result is the [approved]
    field of the returned object. *)
Definition ensureAllowance (token owner : string) (spender : value)
    (neededWei : string) : M bool :=
  allowance <- call (AllowanceRead token owner spender)
                    (erc20_allowance w token owner spender) ;;
  push "ALLOWANCE"
       (JObj [("spender", spender);
              ("allowance", JStr (dec_of_Z allowance));
              ("neededWei", JStr neededWei)]) ;;;
  needed <- lift (BigInt js (JStr neededWei)) ;;
  if needed <=? allowance then ret false
  else
    push "APPROVING" (JObj [("spender", spender); ("amount", JStr "MaxUint256")]) ;;;
    tx <- call (ApproveSend token spender MaxUint256)
               (erc20_approve w token spender MaxUint256) ;;
    push "APPROVE_SENT" (JObj [("hash", hash tx)]) ;;;
    rc <- call (TxWait tx) (tx_wait w tx) ;;
    push "APPROVE_CONFIRMED" (JObj [("block", blockNumber rc)]) ;;;
    ret true.

(** *** The POST /swap handler *)

(** The request fields after coercion (lines 173-179). *)
Record Request : Type := {
  wallet : string;
  tokenFrom : string;
  tokenTo : string;
  amountWei : string;
  slippageBps : float;
  excludeDexs : list value;
  unsignedOnly : bool
}.

Definition requiredFields : list string :=
  ["wallet"; "tokenFrom"; "tokenTo"; "amountWei"; "slippageBps"].

(** [v === undefined || v === null || v === ""] *)
Definition is_missing (v : value) : bool :=
  match v with
  | JUndefined | JNull => true
  | JStr s => (s =? "")%string
  | _ => false
  end.

(** [typeof v === "object"] and [Array.isArray(v)] *)
Definition typeof_object (v : value) : bool :=
  match v with JNull | JArr _ | JObj _ => true | _ => false end.

Definition isArray (v : value) : bool :=
  match v with JArr _ => true | _ => false end.

(** [!slippageBps || slippageBps < 1 || slippageBps > 2000] *)
Definition slippage_rejected (x : float) : bool :=
  negb (truthy (JNum x)) || PrimFloat.ltb x 1 || PrimFloat.ltb 2000 x.

(** [!amountWei || !/^\d+$/.test(amountWei)] *)
Definition amount_rejected (s : string) : bool :=
  negb (truthy (JStr s)) || negb (test_digits s).

Definition request_value (rq : Request) : value :=
  JObj [("wallet", JStr (wallet rq));
        ("tokenFrom", JStr (tokenFrom rq));
        ("tokenTo", JStr (tokenTo rq));
        ("amountWei", JStr (amountWei rq));
        ("slippageBps", JNum (slippageBps rq));
        ("excludeDexs", JArr (excludeDexs rq));
        ("unsignedOnly", JBool (unsignedOnly rq))].

Definition failure (error : string) (extra : list (string * value))
    (l : list string) : value :=
  JObj ([("ok", JBool false); ("error", JStr error)] ++ extra
        ++ [("logs", logs_value l)]).

(** Lines 163-188: body shape, required fields, coercions, the WALLET log
    entry, amount and slippage checks. *)
Definition parse_request (reqbody : value) : M Request :=
  if negb (truthy reqbody) || negb (typeof_object reqbody) || isArray reqbody
  then throw (badRequest
    "Body inválido. Envie JSON com wallet, tokenFrom, tokenTo, amountWei e slippageBps.")
  else
    let missing := filter (fun k => is_missing (get reqbody k)) requiredFields in
    if (0 <? List.length missing)%nat
    then throw (badRequest ("Campos obrigatórios ausentes: " ++ join ", " missing))
    else
      wallet <- assertAddr (get reqbody "wallet") "wallet" ;;
      tokenFrom <- assertAddr (get reqbody "tokenFrom") "tokenFrom" ;;
      tokenTo <- assertAddr (get reqbody "tokenTo") "tokenTo" ;;
      amountWei <- lift (ToString (or_ (get reqbody "amountWei") (JStr ""))) ;;
      slippageBps <- lift (ToNumber (or_ (get reqbody "slippageBps") (JNum 0))) ;;
      let rq :=
        {| wallet := wallet;
           tokenFrom := tokenFrom;
           tokenTo := tokenTo;
           amountWei := amountWei;
           slippageBps := slippageBps;
           excludeDexs := match get reqbody "excludeDexs" with
                          | JArr items => items
                          | _ => []
                          end;
           unsignedOnly := truthy (get reqbody "unsignedOnly") |} in
      push "WALLET" (request_value rq) ;;;
      if amount_rejected amountWei
      then respond 400 (failure "amountWei inválido (use string numérica)." [])
      else if slippage_rejected slippageBps
      then respond 400 (failure "slippageBps inválido (1..2000)." [])
      else ret rq.

(** Lines 191-207: in signed mode the server needs a signer, and its address
    has to be the request's wallet up to letter case. *)
Definition check_signer (rq : Request) : M unit :=
  if negb (unsignedOnly rq) then
    match signer cfg with
    | None =>
        respond 400 (failure
          "PRIVATE_KEY não configurada no servidor. Use unsignedOnly=true ou configure PRIVATE_KEY."
          [])
    | Some signerAddr =>
        if negb (toLowerCase signerAddr =? toLowerCase (wallet rq))%string
        then respond 400 (failure
               ("wallet (" ++ wallet rq ++ ") não bate com o signer do servidor ("
                ++ signerAddr ++ ").") [])
        else ret tt
    end
  else ret tt.

(** [(slippageBps / 100).toFixed(4)] *)
Definition slippage_percent (rq : Request) : string :=
  toFixed (PrimFloat.div (slippageBps rq) 100) 4.

(** Lines 210-222, with [joined] the string of [excludeDexs.join(",")], the
    one part of the object that can throw.  A parameter bound to
    [undefined] is one axios leaves out of the query string. *)
Definition pricesParams (rq : Request) (joined : string) : value :=
  JObj [("srcToken", JStr (tokenFrom rq));
        ("destToken", JStr (tokenTo rq));
        ("amount", JStr (amountWei rq));
        ("side", JStr "SELL");
        ("network", JNum (CHAIN_ID cfg));
        ("userAddress", JStr (wallet rq));
        ("excludeDEXS", or_ (JStr joined) JUndefined);
        ("slippage", JStr (slippage_percent rq))].

(** Lines 232-236: the two fields read from the quote response. *)
Definition quote_field (priceRoute : value) (k : string) : value :=
  or_ (get (get priceRoute "priceRoute") k) (get priceRoute k).

Definition no_route_error : string :=
  "ParaSwap não retornou destAmount/tokenTransferProxy. Sem rota/sem liquidez.".

(** A quote response lacks a field when it has it neither under the
    [priceRoute] wrapper nor at the top level. *)
Definition lacks (d : value) (k : string) : Prop :=
  get (get d "priceRoute") k = JUndefined /\ get d k = JUndefined.

(** Lines 210-247: the quote.  It yields the response body, the destination
    amount and the transfer proxy. *)
Definition quote (rq : Request) : M (value * value * value) :=
  joined <- lift (array_join "," (excludeDexs rq)) ;;
  let params := pricesParams rq joined in
  push "PARASWAP_PRICES" params ;;;
  priceRoute <- call (PricesGet params) (prices_get w params) ;;
  let destAmount := quote_field priceRoute "destAmount" in
  let tokenTransferProxy := quote_field priceRoute "tokenTransferProxy" in
  if negb (truthy destAmount) || negb (truthy tokenTransferProxy)
  then respond 400 (failure no_route_error [("raw", priceRoute)])
  else
    shown <- lift (ToString destAmount) ;;
    push "PRICE_OK"
         (JObj [("destAmount", JStr shown);
                ("tokenTransferProxy", tokenTransferProxy)]) ;;;
    ret (priceRoute, destAmount, tokenTransferProxy).

(** Lines 250-259. *)
Definition approve_step (rq : Request) (tokenTransferProxy : value) : M unit :=
  if negb (unsignedOnly rq) then
    ensureAllowance (tokenFrom rq) (wallet rq) tokenTransferProxy (amountWei rq) ;;;
    ret tt
  else ret tt.

(** [process.env.PARASWAP_PARTNER || undefined] *)
Definition partner : value :=
  or_ (match PARASWAP_PARTNER cfg with Some s => JStr s | None => JUndefined end)
      JUndefined.

(** Lines 269-281.  [Number] is applied to the string of [toFixed]. *)
Definition txBody (rq : Request) (priceRoute : value) : value :=
  JObj [("priceRoute", or_ (get priceRoute "priceRoute") priceRoute);
        ("srcToken", JStr (tokenFrom rq));
        ("destToken", JStr (tokenTo rq));
        ("srcAmount", JStr (amountWei rq));
        ("userAddress", JStr (wallet rq));
        ("slippage", JNum (StringToNumber js (slippage_percent rq)));
        ("partner", partner)].

(** Lines 269-294: the transaction build. *)
Definition build (rq : Request) (priceRoute : value) : M value :=
  let body := txBody rq priceRoute in
  push "PARASWAP_TX_BODY"
       (JObj [("userAddress", JStr (wallet rq)); ("slippage", get body "slippage")]) ;;;
  txData <- call (TransactionsPost body) (transactions_post w body) ;;
  if negb (truthy (get txData "to")) || negb (truthy (get txData "data"))
  then respond 400 (failure "ParaSwap não retornou tx completa." [("raw", txData)])
  else
    shown <- lift (ToString (or_ (get txData "value") (JStr "0"))) ;;
    push "TX_OK"
         (JObj [("to", get txData "to");
                ("value", JStr shown);
                ("gasPrice", get txData "gasPrice");
                ("gas", get txData "gas")]) ;;;
    ret txData.

(** The two success bodies (lines 298 and 315-322), with [shown] the string
    of [String(destAmount)]. *)
Definition unsigned_response (txData : value) (shown : string) (l : list string)
  : value :=
  JObj [("ok", JBool true);
        ("mode", JStr "unsignedOnly");
        ("txData", txData);
        ("destAmount", JStr shown);
        ("logs", logs_value l)].

Definition signed_response (tx : TxResponse) (rc : Receipt) (shown : string)
    (l : list string) : value :=
  JObj [("ok", JBool true);
        ("hash", hash tx);
        ("block", blockNumber rc);
        ("status", rc_status rc);
        ("destAmount", JStr shown);
        ("logs", logs_value l)].

(** Lines 297-322: hand the transaction back, or sign, send and wait. *)
Definition execute (rq : Request) (txData destAmount : value) : M Response :=
  if unsignedOnly rq then
    shown <- lift (ToString destAmount) ;;
    respond 200 (unsigned_response txData shown)
  else
    value <- lift (BigInt js (or_ (get txData "value") (JStr "0"))) ;;
    gasLimit <- (if truthy (get txData "gas")
                 then g <- lift (BigInt js (get txData "gas")) ;; ret (Some g)
                 else ret None) ;;
    let req := {| tx_to := get txData "to";
                  tx_data := get txData "data";
                  tx_value := value;
                  tx_gasLimit := gasLimit |} in
    tx <- call (SendTransaction req) (sendTransaction w req) ;;
    push "SENT" (JObj [("hash", hash tx)]) ;;;
    rc <- call (TxWait tx) (tx_wait w tx) ;;
    push "CONFIRMED" (JObj [("block", blockNumber rc); ("status", rc_status rc)]) ;;;
    shown <- lift (ToString destAmount) ;;
    respond 200 (signed_response tx rc shown).

(** Lines 269-322 as one computation. *)
Definition build_and_execute (rq : Request) (d : value) : M Response :=
  txData <- build rq d ;;
  execute rq txData (quote_field d "destAmount").

(** The [try] block, lines 162-322. *)
Definition swap_try (reqbody : value) : M Response :=
  rq <- parse_request reqbody ;;
  check_signer rq ;;;
  q <- quote rq ;;
  let '(priceRoute, destAmount, tokenTransferProxy) := q in
  approve_step rq tokenTransferProxy ;;;
  txData <- build rq priceRoute ;;
  execute rq txData destAmount.

(** The [catch] block, lines 324-332. *)
Definition catch_handler (e : value) : Response :=
  let msg := or_ (or_ (get (get (get e "response") "data") "error") (get e "message"))
                 (JStr "Erro") in
  let code := or_ (or_ (get (get e "response") "status") (get e "status"))
                  (JNum 500) in
  {| status := code;
     body := JObj [("ok", JBool false);
                   ("error", msg);
                   ("details", or_ (get (get e "response") "data") JNull)] |}.

(** [app.post("/swap", ...)]: the response sent, with the final log bag and
    the external calls issued. *)
Definition swap (reqbody : value) : Response * state :=
  match swap_try reqbody init with
  | (Val r, s) | (Ret r, s) => (r, s)
  | (Thr e, s) => (catch_handler e, s)
  end.

End Server.

(** ** A concrete instance of the builtins

    An executable stand-in for the library functions of [Builtins], used to
    run the handler on concrete requests.  Each function says where it
    agrees with the JavaScript original; the examples stay inside that
    range. *)
Module Fixture.

Definition W_ADDR : string := "0x4682beffFE9d3BCDa67cC6a8aDBb437Dcc46219F".
Definition USDT : string := "0xFd086bC7CD5C481DCC9C85ebE478A1C0b69FCbb9".
Definition WBTC : string := "0x2f2a2543B76A4166549F7aaB2e75Bef0aefC5B0f".
Definition OTHER_ADDR : string := "0xd8dA6BF26964aF9D7eEd9e03E53415D37aA96045".
Definition PROXY : string := "0x216B4B4Ba9F3e719726886d34a177484278Bfcae".

Definition known_addresses : list string := [W_ADDR; USDT; WBTC; OTHER_ADDR].

(** [ethers.getAddress] on the four addresses above, given in checksum form
    or in lower case; every other argument is refused. *)
Definition getAddress (v : value) : option string :=
  match v with
  | JStr s =>
      find (fun a => (s =? a)%string || (s =? toLowerCase a)%string)
           known_addresses
  | _ => None
  end.

Fixpoint parse_dec_from (acc : Z) (s : string) : Z :=
  match s with
  | EmptyString => acc
  | String c rest =>
      parse_dec_from (10 * acc + Z.of_nat (nat_of_ascii c - 48)) rest
  end.

Definition parse_dec (s : string) : Z := parse_dec_from 0 s.

Fixpoint split_point (s : string) : string * option string :=
  match s with
  | EmptyString => ("", None)
  | String c rest =>
      if (c =? ".")%char then ("", Some rest)
      else let (a, b) := split_point rest in (String c a, b)
  end.

Definition float_of_Z (z : Z) : float := PrimFloat.of_uint63 (Uint63.of_Z z).

(** [Number(s)] on the empty string and on unsigned decimal literals of at
    most fifteen digits (one correctly rounded division of two exact
    doubles); NaN on any other string. *)
Definition StringToNumber (s : string) : float :=
  if (s =? "")%string then 0%float
  else
    match split_point s with
    | (i, None) =>
        if all_digits i then float_of_Z (parse_dec i) else PrimFloat.nan
    | (i, Some f) =>
        if all_digits i && all_digits f && negb ((i ++ f) =? "")%string
        then PrimFloat.div (float_of_Z (parse_dec (i ++ f)))
                           (float_of_Z (10 ^ Z.of_nat (String.length f)))
        else PrimFloat.nan
    end.

Fixpoint strip_zeros_rev (s : list ascii) : list ascii :=
  match s with
  | c :: rest => if (c =? "0")%char then strip_zeros_rev rest else s
  | [] => []
  end.

(** Drop the trailing zeros of a fraction, and the point when none is left. *)
Definition strip_fraction (s : string) : string :=
  let r := strip_zeros_rev (rev (list_ascii_of_string s)) in
  let r := match r with
           | c :: rest => if (c =? ".")%char then rest else r
           | [] => []
           end in
  string_of_list_ascii (rev r).

(** [String(x)] for the doubles nearest to a decimal with at most four
    fractional digits and magnitude below 1e11, for NaN and the infinities. *)
Definition Number_toString (x : float) : string :=
  match Prim2SF x with
  | S754_zero _ => "0"
  | S754_nan => "NaN"
  | S754_infinity neg => if neg then "-Infinity" else "Infinity"
  | S754_finite neg m e =>
      (if neg then "-" else "")
      ++ strip_fraction (fixed_digits (round_scaled m e 4) 4)
  end.

(** The double quote character. *)
Definition dquote : ascii := ascii_of_nat 34.

Fixpoint escape (s : string) : string :=
  match s with
  | EmptyString => EmptyString
  | String c rest =>
      if (c =? dquote)%char || (c =? "\")%char
      then String "\" (String c (escape rest))
      else String c (escape rest)
  end.

Definition quoted (s : string) : string :=
  String dquote (escape s ++ String dquote EmptyString).

Definition is_finite (x : float) : bool :=
  match Prim2SF x with
  | S754_zero _ | S754_finite _ _ _ => true
  | _ => false
  end.

(** [JSON.stringify] without a result for [undefined]: properties bound to
    [undefined] are dropped, array holes and non-finite numbers print as
    [null].  Control characters are not escaped. *)
Fixpoint stringify (v : value) : option string :=
  match v with
  | JUndefined => None
  | JNull => Some "null"
  | JBool b => Some (if b then "true" else "false")
  | JNum x => Some (if is_finite x then Number_toString x else "null")
  | JStr s => Some (quoted s)
  | JArr items =>
      Some ("[" ++ join ","
                    (map (fun x => match stringify x with
                                   | Some t => t
                                   | None => "null"
                                   end) items) ++ "]")
  | JObj props =>
      Some ("{" ++ join ","
                    (flat_map (fun kv =>
                                 match kv with
                                 | (k, x) =>
                                     match stringify x with
                                     | Some t => [quoted k ++ ":" ++ t]
                                     | None => []
                                     end
                                 end) props) ++ "}")
  end.

Definition JSON_stringify (v : value) : string :=
  match stringify v with Some s => s | None => "undefined" end.

Definition error (name message : string) : value :=
  JObj [("name", JStr name); ("message", JStr message)].

(** [BigInt] on strings of decimal digits (the empty one is zero), on
    doubles and on booleans; it throws on the rest. *)
Definition BigInt (v : value) : result Z :=
  match v with
  | JStr s =>
      if all_digits s then Ok (parse_dec s)
      else Throw (error "SyntaxError" ("Cannot convert " ++ s ++ " to a BigInt"))
  | JBool b => Ok (if b then 1 else 0)
  | JNum x =>
      match Prim2SF x with
      | S754_zero _ => Ok 0
      | S754_finite neg m e =>
          let sign := if neg then -1 else 1 in
          if 0 <=? e then Ok (sign * (Z.pos m * 2 ^ e))
          else if Z.pos m mod 2 ^ (- e) =? 0 then Ok (sign * (Z.pos m / 2 ^ (- e)))
          else Throw (error "RangeError" "The number cannot be converted to a BigInt")
      | _ => Throw (error "RangeError" "The number cannot be converted to a BigInt")
      end
  | _ => Throw (error "TypeError" "Cannot convert value to a BigInt")
  end.

Definition js : Builtins :=
  Build_Builtins getAddress StringToNumber Number_toString JSON_stringify BigInt.

End Fixture.

(** ** Concrete requests *)

Module Examples.

Import Fixture.

Definition AUGUSTUS : string := "0xDEF171Fe48CF0115B1d80b88dc8eAB59176FEe57".

(** Configurations: no signer, the request's wallet as signer, another
    address as signer. *)
Definition cfg_of (s : option string) : Config :=
  {| CHAIN_ID := 42161; PARASWAP_PARTNER := None; signer := s |}.

(** The request of the API document, with a slippage and an exclusion list
    to choose. *)
Definition request (slippage : value) (exclude : list value) (unsigned : bool)
  : value :=
  JObj [("wallet", JStr W_ADDR);
        ("tokenFrom", JStr USDT);
        ("tokenTo", JStr WBTC);
        ("amountWei", JStr "18703660");
        ("slippageBps", slippage);
        ("excludeDexs", JArr exclude);
        ("unsignedOnly", JBool unsigned)].

(** The same request after coercion. *)
Definition coerced (slippage : float) (exclude : list value) (unsigned : bool)
  : Request :=
  {| wallet := W_ADDR;
     tokenFrom := USDT;
     tokenTo := WBTC;
     amountWei := "18703660";
     slippageBps := slippage;
     excludeDexs := exclude;
     unsignedOnly := unsigned |}.

Definition route : value :=
  JObj [("priceRoute",
         JObj [("destAmount", JStr "27480");
               ("tokenTransferProxy", JStr PROXY)])].

Definition built_tx : value :=
  JObj [("to", JStr AUGUSTUS);
        ("data", JStr "0x54e3f31b");
        ("value", JStr "0");
        ("gas", JStr "450000")].

Definition approve_tx : TxResponse := {| hash := JStr "0xa1" |}.
Definition swap_tx : TxResponse := {| hash := JStr "0xb2" |}.

(** A world where every collaborator answers: the quote is [quoted], the
    current allowance is [allowance], and the receipts carry
    [receipt_status]. *)
Definition world (quoted : result value) (allowance : Z)
    (receipt_status : value) : World :=
  {| prices_get := fun _ => quoted;
     transactions_post := fun _ => Ok built_tx;
     erc20_allowance := fun _ _ _ => Ok allowance;
     erc20_approve := fun _ _ _ => Ok approve_tx;
     mined := fun _ => Ok {| blockNumber := JNum 1234;
                             rc_status := receipt_status |};
     revert_message := fun _ => "transaction execution reverted";
     sendTransaction := fun _ => Ok swap_tx |}.


(** An axios error with no response at all. *)
Definition network_error : value :=
  JObj [("message", JStr "connect ECONNREFUSED")].

(** A quote response that carries both fields under the wrapper and, with
    other values, at the top level. *)
Definition two_level_route : value :=
  JObj [("priceRoute",
         JObj [("destAmount", JStr "27480");
               ("tokenTransferProxy", JStr PROXY)]);
        ("destAmount", JStr "999");
        ("tokenTransferProxy", JStr OTHER_ADDR)].

(** A quote response whose wrapper holds a zero destination amount and a
    proxy, next to a top-level amount and another top-level proxy. *)
Definition skewed_route : value :=
  JObj [("priceRoute",
         JObj [("destAmount", JNum 0);
               ("tokenTransferProxy", JStr PROXY)]);
        ("destAmount", JStr "27480");
        ("tokenTransferProxy", JStr OTHER_ADDR)].

End Examples.

(** ** Start-up: the port to listen on (lines 16, 336-364) *)

(** The equality of [Set] members: numbers equal as doubles, NaN equal to
    itself. *)
Definition same_value_zero (x y : float) : bool :=
  PrimFloat.eqb x y || (PrimFloat.is_nan x && PrimFloat.is_nan y).

Fixpoint uniq (seen l : list float) : list float :=
  match l with
  | [] => []
  | x :: rest =>
      if existsb (same_value_zero x) seen then uniq seen rest
      else x :: uniq (seen ++ [x]) rest
  end.

(** [[...new Set(l)]]: the members in insertion order, each once. *)
Definition Set_spread (l : list float) : list float := uniq [] l.

(** [Number(process.env.PORT || 8080)], the variable unset being [None]:
    the number of its string when it is set and not empty, 8080
    otherwise. *)
Definition PORT (js : Builtins) (env_PORT : option string) : float :=
  match env_PORT with
  | Some s => if truthy (JStr s) then StringToNumber js s else 8080%float
  | None => 8080%float
  end.

(** [Number.isFinite(PORT) && PORT > 0 ? PORT : 8080] *)
Definition preferred (js : Builtins) (env_PORT : option string) : float :=
  let port := PORT js env_PORT in
  if PrimFloat.is_finite port && PrimFloat.ltb 0 port then port else 8080%float.

Definition candidates (js : Builtins) (env_PORT : option string) : list float :=
  Set_spread [preferred js env_PORT; 8080%float; 3000%float].

(** What [app.listen(port)] leads to: the listening callback, an [error]
    event with its error object, or an exception thrown by the call. *)
Inductive ListenResult : Type :=
| Listening
| ListenError (err : value)
| ListenThrows (e : value).

(** How start-up ends: serving on a port, [process.exit(code)], or an
    uncaught exception. *)
Inductive Startup : Type :=
| Serving (port : float)
| Exited (code : Z)
| Crashed (e : value).

(** [err?.code === "EADDRINUSE"] *)
Definition is_addr_in_use (err : value) : bool :=
  match get err "code" with
  | JStr s => (s =? "EADDRINUSE")%string
  | _ => false
  end.

(** [tryListen(index)], on the candidates from [index] on, up to the first
    listening callback or exit.  The result is the list of ports passed to
    [app.listen], in order, and how start-up ended. *)
Fixpoint tryListen (listen : float -> ListenResult) (rest : list float)
  : list float * Startup :=
  match rest with
  | [] => ([], Exited 1)
  | port :: later =>
      if negb (truthy (JNum port)) then ([], Exited 1)
      else
        match listen port with
        | Listening => ([port], Serving port)
        | ListenError err =>
            if is_addr_in_use err
            then let (tried, result) := tryListen listen later in
                 (port :: tried, result)
            else ([port], Exited 1)
        | ListenThrows e => ([port], Crashed e)
        end
  end.

Definition startServerWithFallback (js : Builtins) (env_PORT : option string)
    (listen : float -> ListenResult) : list float * Startup :=
  tryListen listen (candidates js env_PORT).

(** ** Vocabulary of the trace properties *)

(** The stage a call belongs to; a confirmation wait has none of its own. *)
Definition stage_rank (c : Call) : nat :=
  match c with
  | PricesGet _ => 0
  | AllowanceRead _ _ _ => 1
  | ApproveSend _ _ _ => 2
  | TransactionsPost _ => 3
  | SendTransaction _ => 4
  | TxWait _ => 5
  end.

Fixpoint increasing (l : list nat) : bool :=
  match l with
  | a :: (b :: _) as rest => (a <? b)%nat && increasing rest
  | _ => true
  end.

(** The world's answer to a call is the thrown value [e]. *)
Definition thrown_by (w : World) (c : Call) (e : value) : Prop :=
  match c with
  | PricesGet p => prices_get w p = Throw e
  | AllowanceRead token owner spender =>
      erc20_allowance w token owner spender = Throw e
  | ApproveSend token spender amount =>
      erc20_approve w token spender amount = Throw e
  | TxWait tx => tx_wait w tx = Throw e
  | TransactionsPost b => transactions_post w b = Throw e
  | SendTransaction req => sendTransaction w req = Throw e
  end.

(** The world answers the call with a result. *)
Definition answered (w : World) (c : Call) : Prop :=
  match c with
  | PricesGet p => exists d, prices_get w p = Ok d
  | AllowanceRead token owner spender =>
      exists a, erc20_allowance w token owner spender = Ok a
  | ApproveSend token spender amount =>
      exists tx, erc20_approve w token spender amount = Ok tx
  | TxWait tx => exists rc, tx_wait w tx = Ok rc
  | TransactionsPost b => exists d, transactions_post w b = Ok d
  | SendTransaction req => exists tx, sendTransaction w req = Ok tx
  end.

(** A stage that ends a request, with a response or a thrown value, ends
    whatever computation it is part of in the same way. *)
Definition stopped {A B} (o : outcome A) (r : outcome B) : Prop :=
  (exists x, o = Ret x /\ r = Ret x) \/ (exists e, o = Thr e /\ r = Thr e).

(** [txData.gas ? BigInt(txData.gas) : undefined] (line 307), the absent
    limit being [None]. *)
Definition gasLimit_of (js : Builtins) (txData : value) : result (option Z) :=
  if truthy (get txData "gas")
  then match BigInt js (get txData "gas") with
       | Ok g => Ok (Some g)
       | Throw e => Throw e
       end
  else Ok None.

(** Every call of [l] but the last was answered, and the last one threw
    [e], which is how the computation ended. *)
Definition failed_at_last_call (w : World) {A} (r : outcome A)
    (l : list Call) : Prop :=
  exists l0 c e,
    l = (l0 ++ [c])%list
    /\ Forall (answered w) l0
    /\ thrown_by w c e
    /\ r = Thr e.

(** ** More concrete requests and start-ups *)

Module Scenarios.

Import Fixture Examples.

(** A world with each answer to choose. *)
Definition world_with (quoted built : result value) (allowance : Z)
    (approved : result TxResponse) (confirmed : TxResponse -> result Receipt)
    (sent : result TxResponse) : World :=
  {| prices_get := fun _ => quoted;
     transactions_post := fun _ => built;
     erc20_allowance := fun _ _ _ => Ok allowance;
     erc20_approve := fun _ _ _ => approved;
     mined := confirmed;
     revert_message := fun _ => "transaction execution reverted";
     sendTransaction := fun _ => sent |}.

Definition receipt : Receipt :=
  {| blockNumber := JNum 1234; rc_status := JNum 1 |}.

(** The approval goes through and the broadcast is refused. *)
Definition broadcast_refused : World :=
  world_with (Ok route) (Ok built_tx) 0 (Ok approve_tx) (fun _ => Ok receipt)
             (Throw (JObj [("message", JStr "insufficient funds")])).

(** The build service answers without call data. *)
Definition build_incomplete : World :=
  world_with (Ok route) (Ok (JObj [("to", JStr AUGUSTUS)])) 0 (Ok approve_tx)
             (fun _ => Ok receipt) (Ok swap_tx).

(** The transaction request made from [built_tx]. *)
Definition swap_request : TxRequest :=
  {| tx_to := JStr AUGUSTUS;
     tx_data := JStr "0x54e3f31b";
     tx_value := 0;
     tx_gasLimit := Some 450000 |}.

(** An object with a [toString] key of its own, as JSON can carry it: it
    has no primitive value. *)
Definition no_primitive : value := JObj [("toString", JNum 1)].

Definition in_use : value := JObj [("code", JStr "EADDRINUSE")].

(** Port 8080 is taken, every other port is free. *)
Definition only_8080_taken (port : float) : ListenResult :=
  if PrimFloat.eqb port 8080 then ListenError in_use else Listening.

(** Every port is taken. *)
Definition all_taken (port : float) : ListenResult := ListenError in_use.

End Scenarios.

(** * Properties *)

(** ** The monad *)

Lemma bind_inv {A B} (m : M A) (k : A -> M B) s r s' :
  bind m k s = (r, s') ->
  (exists a s1, m s = (Val a, s1) /\ k a s1 = (r, s'))
  \/ (exists x, m s = (Ret x, s') /\ r = Ret x)
  \/ (exists e, m s = (Thr e, s') /\ r = Thr e).
Proof.
  unfold bind. destruct (m s) as [[a | x | e] s1] eqn:E; intros H.
  - left. eauto.
  - right. left. inversion H; subst. eauto.
  - right. right. inversion H; subst. eauto.
Qed.

Ltac run_step :=
  unfold bind, ret, throw, respond, call, lift, push in *; simpl in *.

(** ** ensureAllowance *)

Section EnsureAllowance.

Context (js : Builtins) (w : World).
Variables (token owner : string) (spender : value) (neededWei : string).

(** The calls one invocation can add to the trace. *)
Lemma ensureAllowance_calls s r s' :
  ensureAllowance js w token owner spender neededWei s = (r, s') ->
  exists new,
    calls s' = (calls s ++ new)%list
    /\ forallb allowance_call new = true
    /\ new <> [].
Proof.
  unfold ensureAllowance. run_step.
  destruct (erc20_allowance w token owner spender) as [a | e]; run_step.
  2: { intros H; inversion H; subst; simpl.
       exists [AllowanceRead token owner spender]. repeat split; discriminate. }
  destruct (BigInt js (JStr neededWei)) as [n | e]; run_step.
  2: { intros H; inversion H; subst; simpl.
       exists [AllowanceRead token owner spender]. repeat split; discriminate. }
  destruct (n <=? a); run_step.
  { intros H; inversion H; subst; simpl.
    exists [AllowanceRead token owner spender]. repeat split; discriminate. }
  destruct (erc20_approve w token spender MaxUint256) as [tx | e]; run_step.
  2: { intros H; inversion H; subst; simpl. rewrite <- app_assoc.
       exists [AllowanceRead token owner spender;
               ApproveSend token spender MaxUint256].
       repeat split; discriminate. }
  destruct (tx_wait w tx) as [rc | e]; run_step;
    intros H; inversion H; subst; simpl; rewrite <- !app_assoc;
    exists [AllowanceRead token owner spender;
            ApproveSend token spender MaxUint256; TxWait tx];
    repeat split; discriminate.
Qed.

(** C2. Given the allowance [a] read from the chain and the needed amount
    [n]: when [a >= n] the call returns [approved = false] after the
    allowance read alone, with no chain write; when [a < n] the one chain
    write it issues is an approval of [MaxUint256] for the spender, and it
    returns [approved = true] exactly when that approval was sent and its
    confirmation wait returned, the wait being the last call before the
    return. *)
Theorem ensureAllowance_spec (s : state) (a n : Z) :
  erc20_allowance w token owner spender = Ok a ->
  BigInt js (JStr neededWei) = Ok n ->
  let run := ensureAllowance js w token owner spender neededWei s in
  exists new,
    calls (snd run) = (calls s ++ new)%list
    /\ (n <= a ->
        fst run = Val false
        /\ new = [AllowanceRead token owner spender]
        /\ filter is_write new = [])
    /\ (a < n ->
        filter is_write new = [ApproveSend token spender MaxUint256]
        /\ (fst run = Val true <->
            exists tx rc,
              erc20_approve w token spender MaxUint256 = Ok tx
              /\ tx_wait w tx = Ok rc)
        /\ (fst run = Val true ->
            exists tx,
              new = [AllowanceRead token owner spender;
                     ApproveSend token spender MaxUint256;
                     TxWait tx])).
Proof.
  intros Ha Hn run. subst run. unfold ensureAllowance. run_step.
  rewrite Ha, Hn. run_step.
  destruct (n <=? a) eqn:Hle; run_step.
  - apply Z.leb_le in Hle.
    exists [AllowanceRead token owner spender].
    split; [reflexivity | split]; [ auto | lia ].
  - apply Z.leb_gt in Hle.
    destruct (erc20_approve w token spender MaxUint256) as [tx | e] eqn:Hap;
      run_step.
    + destruct (tx_wait w tx) as [rc | e] eqn:Hw; run_step;
        exists [AllowanceRead token owner spender;
                ApproveSend token spender MaxUint256; TxWait tx];
        (split; [ now rewrite <- !app_assoc | split; [ lia | intros _ ] ]).
      * split; [reflexivity | split]; [ | eauto ].
        split; [ intros _; exists tx, rc; auto | reflexivity ].
      * split; [reflexivity | split]; [ | discriminate ].
        split; [ discriminate | ].
        intros (tx' & rc' & Htx & Hrc). inversion Htx; subst tx'. congruence.
    + exists [AllowanceRead token owner spender;
              ApproveSend token spender MaxUint256].
      split; [ now rewrite <- !app_assoc | split; [ lia | intros _ ] ].
      split; [reflexivity | split]; [ | discriminate ].
      split; [ discriminate | ].
      intros (tx' & rc' & Htx & _). discriminate.
Qed.

End EnsureAllowance.

(** ** The coercions *)

Section Coercions.

Context (js : Builtins).

(** The conversions of the items of an array throw what the conversion of
    an item throws. *)
Lemma items_throw (P : value -> Prop) items e :
  Forall (fun x => ToString js x = Throw e -> P x) items ->
  all_ok (map (fun x => match x with
                        | JUndefined | JNull => Ok ""
                        | _ => ToString js x
                        end) items) = Throw e ->
  exists x, In x items /\ ToString js x = Throw e /\ P x.
Proof.
  induction 1 as [ | x rest Hx Hrest IH]; simpl; [ discriminate | ].
  destruct (match x with JUndefined | JNull => Ok "" | _ => ToString js x end)
    as [t | e'] eqn:Ex.
  - destruct (all_ok _) as [l | e'] eqn:Hall; [ discriminate | ].
    intros H; inversion H; subst e'.
    destruct (IH eq_refl) as (y & Hy & Ey & Py). exists y. auto.
  - intros H; inversion H; subst e'. exists x.
    assert (Ex' : ToString js x = Throw e) by (destruct x; try discriminate; exact Ex).
    auto.
Qed.

(** The one value the string conversion throws. *)
Lemma ToString_throws v : forall e,
  ToString js v = Throw e -> e = cannot_convert.
Proof.
  induction v as [ | | b | x | s | items IH | props] using value_items_ind;
    intros e; simpl; try discriminate.
  - destruct b; discriminate.
  - destruct (all_ok _) as [l | e'] eqn:Hall; [ discriminate | ].
    intros H; inversion H; subst e'.
    apply (items_throw (fun _ => e = cannot_convert)) in Hall
      as (x & _ & _ & Hx); [ exact Hx | ].
    eapply Forall_impl; [ | exact IH ]. intros a Ha. apply Ha.
  - destruct (assoc "toString" props); [ | discriminate ].
    intros H; now inversion H.
Qed.

Lemma array_join_throws sep items e :
  array_join js sep items = Throw e -> e = cannot_convert.
Proof.
  unfold array_join.
  destruct (all_ok _) as [l | e'] eqn:Hall; [ discriminate | ].
  intros H; inversion H; subst e'.
  apply (items_throw (fun _ => True)) in Hall as (x & _ & Hx & _).
  - now apply ToString_throws in Hx.
  - apply Forall_forall. auto.
Qed.

Lemma ToNumber_throws v e : ToNumber js v = Throw e -> e = cannot_convert.
Proof.
  destruct v as [ | | [ | ] | x | s | items | props]; simpl; try discriminate.
  - destruct (all_ok _) as [l | e'] eqn:Hall; [ discriminate | ].
    intros H; inversion H; subst e'.
    apply (ToString_throws (JArr items)). simpl. now rewrite Hall.
  - destruct (assoc "toString" props); [ | discriminate ].
    intros H; now inversion H.
Qed.

(** [String] of a string is that string, and the empty string when the
    amount is the empty string. *)
Lemma ToString_amount s : ToString js (or_ (JStr s) (JStr "")) = Ok s.
Proof.
  unfold or_. simpl. destruct (s =? "")%string eqn:E; simpl; [ | reflexivity ].
  apply String.eqb_eq in E. now subst.
Qed.

(** What the [catch] block answers to the conversion error. *)
Lemma catch_cannot_convert :
  catch_handler cannot_convert
  = {| status := JNum 500;
       body := JObj [("ok", JBool false);
                     ("error", JStr "Cannot convert object to primitive value");
                     ("details", JNull)] |}.
Proof. reflexivity. Qed.

End Coercions.

(** ** The stages of the handler *)

Section Stages.

Context (js : Builtins) (cfg : Config) (w : World).

Ltac ends H := intros H; inversion H; subst.

Lemma assertAddr_inv a name s r s' :
  assertAddr js a name s = (r, s') ->
  s' = s
  /\ ((exists addr, getAddress js a = Some addr /\ r = Val addr)
      \/ (getAddress js a = None
          /\ match ToString js a with
             | Ok shown =>
                 r = Thr (badRequest
                            ("Endereço inválido em " ++ name ++ ": " ++ shown))
             | Throw e => r = Thr e
             end)).
Proof.
  unfold assertAddr. destruct (getAddress js a) as [addr | ]; run_step.
  - ends H. split; eauto.
  - destruct (ToString js a); run_step; ends H; split; auto.
Qed.

Lemma assertAddr_cases a name s r s' :
  assertAddr js a name s = (r, s') ->
  s' = s
  /\ ((exists addr, getAddress js a = Some addr /\ r = Val addr)
      \/ (exists e, r = Thr e
                    /\ ((exists m, e = badRequest m) \/ e = cannot_convert))).
Proof.
  intros H. apply assertAddr_inv in H as (-> & [H | (_ & H)]);
    (split; [ reflexivity | ]); [ now left | right ].
  destruct (ToString js a) as [shown | e] eqn:E; subst r; eexists;
    (split; [ reflexivity | ]); [ left; eauto | right ].
  now apply ToString_throws in E.
Qed.

Lemma assertAddr_accepted a name s addr :
  getAddress js a = Some addr -> assertAddr js a name s = (Val addr, s).
Proof. unfold assertAddr. now intros ->. Qed.

(** What [assertAddr] throws for a value that is not an address: the
    [badRequest] that shows it, or the error of showing it. *)
Lemma assertAddr_refused a name s :
  getAddress js a = None ->
  assertAddr js a name s
  = (Thr match ToString js a with
         | Ok shown =>
             badRequest ("Endereço inválido em " ++ name ++ ": " ++ shown)
         | Throw _ => cannot_convert
         end, s).
Proof.
  unfold assertAddr. intros ->. run_step.
  destruct (ToString js a) as [shown | e] eqn:E; simpl; [ reflexivity | ].
  apply ToString_throws in E. now subst e.
Qed.

(** Validation issues no external call, and a request that passes it holds
    the coerced fields of the body. *)
Lemma parse_request_inv reqbody s r s' :
  parse_request js reqbody s = (r, s') ->
  calls s' = calls s
  /\ forall rq, r = Val rq ->
       getAddress js (get reqbody "wallet") = Some (wallet rq)
       /\ ToNumber js (or_ (get reqbody "slippageBps") (JNum 0))
          = Ok (slippageBps rq)
       /\ excludeDexs rq = match get reqbody "excludeDexs" with
                           | JArr items => items
                           | _ => []
                           end
       /\ unsignedOnly rq = truthy (get reqbody "unsignedOnly")
       /\ amount_rejected (amountWei rq) = false
       /\ slippage_rejected (slippageBps rq) = false.
Proof.
  unfold parse_request.
  destruct (negb (truthy reqbody) || negb (typeof_object reqbody) || isArray reqbody).
  { run_step. ends H. split; [reflexivity | discriminate]. }
  destruct (0 <? _)%nat.
  { run_step. ends H. split; [reflexivity | discriminate]. }
  intros H.
  apply bind_inv in H as [(wa & s1 & Hw & H) | [(x & Hw & ->) | (e & Hw & ->)]];
    apply assertAddr_cases in Hw as (-> & [(a1 & Ha1 & Hr1) | (e1 & Hr1 & _)]);
    try discriminate; try (split; [reflexivity | discriminate]).
  inversion Hr1; subst a1; clear Hr1.
  apply bind_inv in H as [(tf & s2 & Hf & H) | [(x & Hf & ->) | (e & Hf & ->)]];
    apply assertAddr_cases in Hf as (-> & [(a2 & Ha2 & Hr2) | (e2 & Hr2 & _)]);
    try discriminate; try (split; [reflexivity | discriminate]).
  apply bind_inv in H as [(tt_ & s3 & Ht & H) | [(x & Ht & ->) | (e & Ht & ->)]];
    apply assertAddr_cases in Ht as (-> & [(a3 & Ha3 & Hr3) | (e3 & Hr3 & _)]);
    try discriminate; try (split; [reflexivity | discriminate]).
  run_step.
  destruct (ToString js _) as [am | e]; run_step.
  2: { inversion H; subst. split; [reflexivity | discriminate]. }
  destruct (ToNumber js _) as [bps | e] eqn:Hbps; run_step.
  2: { inversion H; subst. split; [reflexivity | discriminate]. }
  destruct (amount_rejected _) eqn:Ham.
  { inversion H; subst. split; [reflexivity | discriminate]. }
  destruct (slippage_rejected _) eqn:Hsl.
  { inversion H; subst. split; [reflexivity | discriminate]. }
  inversion H; subst. split; [reflexivity | ].
  intros rq Hrq. inversion Hrq; subst rq; simpl. auto 10.
Qed.

(** How validation ends a request: an explicit 400 response with the log
    bag, or a thrown value with the state untouched, which is a
    [badRequest] or the error of a conversion. *)
Lemma parse_request_stop reqbody s r s' :
  parse_request js reqbody s = (r, s') ->
  match r with
  | Val _ => True
  | Ret x =>
      status x = JNum 400
      /\ get (body x) "ok" = JBool false
      /\ get (body x) "logs" = logs_value (logs s')
  | Thr e => s' = s /\ ((exists m, e = badRequest m) \/ e = cannot_convert)
  end.
Proof.
  unfold parse_request.
  destruct (negb (truthy reqbody) || negb (typeof_object reqbody) || isArray reqbody).
  { run_step. ends H. eauto. }
  destruct (0 <? _)%nat.
  { run_step. ends H. eauto. }
  intros H.
  apply bind_inv in H as [(wa & s1 & Hw & H) | [(x & Hw & ->) | (e & Hw & ->)]];
    apply assertAddr_cases in Hw as (-> & [(a1 & Ha1 & Hr1) | (e1 & Hr1 & He1)]);
    try discriminate; try (inversion Hr1; subst; auto; fail).
  apply bind_inv in H as [(tf & s2 & Hf & H) | [(x & Hf & ->) | (e & Hf & ->)]];
    apply assertAddr_cases in Hf as (-> & [(a2 & Ha2 & Hr2) | (e2 & Hr2 & He2)]);
    try discriminate; try (inversion Hr2; subst; auto; fail).
  apply bind_inv in H as [(tt_ & s3 & Ht & H) | [(x & Ht & ->) | (e & Ht & ->)]];
    apply assertAddr_cases in Ht as (-> & [(a3 & Ha3 & Hr3) | (e3 & Hr3 & He3)]);
    try discriminate; try (inversion Hr3; subst; auto; fail).
  run_step.
  destruct (ToString js _) as [am | e] eqn:Eam; run_step.
  2: { inversion H; subst. apply ToString_throws in Eam. auto. }
  destruct (ToNumber js _) as [bps | e] eqn:Ebps; run_step.
  2: { inversion H; subst. apply ToNumber_throws in Ebps. auto. }
  destruct (amount_rejected _).
  { inversion H; subst. repeat split. }
  destruct (slippage_rejected _);
    inversion H; subst; repeat split.
Qed.

(** The addresses and the amount of a request that passes validation. *)
Lemma parse_request_fields reqbody s rq s' :
  parse_request js reqbody s = (Val rq, s') ->
  getAddress js (get reqbody "wallet") = Some (wallet rq)
  /\ getAddress js (get reqbody "tokenFrom") = Some (tokenFrom rq)
  /\ getAddress js (get reqbody "tokenTo") = Some (tokenTo rq)
  /\ ToString js (or_ (get reqbody "amountWei") (JStr "")) = Ok (amountWei rq)
  /\ test_digits (amountWei rq) = true.
Proof.
  unfold parse_request.
  destruct (negb (truthy reqbody) || negb (typeof_object reqbody) || isArray reqbody).
  { run_step. discriminate. }
  destruct (0 <? _)%nat.
  { run_step. discriminate. }
  intros H.
  apply bind_inv in H as [(wa & s1 & Hw & H) | [(x & Hw & Hx) | (e & Hw & Hx)]];
    try discriminate.
  apply assertAddr_cases in Hw as (-> & [(a1 & Ha1 & Hr1) | (e1 & Hr1 & _)]);
    try discriminate.
  inversion Hr1; subst a1; clear Hr1.
  apply bind_inv in H as [(tf & s2 & Hf & H) | [(x & Hf & Hx) | (e & Hf & Hx)]];
    try discriminate.
  apply assertAddr_cases in Hf as (-> & [(a2 & Ha2 & Hr2) | (e2 & Hr2 & _)]);
    try discriminate.
  inversion Hr2; subst a2; clear Hr2.
  apply bind_inv in H as [(tt_ & s3 & Ht & H) | [(x & Ht & Hx) | (e & Ht & Hx)]];
    try discriminate.
  apply assertAddr_cases in Ht as (-> & [(a3 & Ha3 & Hr3) | (e3 & Hr3 & _)]);
    try discriminate.
  inversion Hr3; subst a3; clear Hr3.
  run_step.
  destruct (ToString js _) as [am | e] eqn:Eam; run_step; [ | discriminate ].
  destruct (ToNumber js _) as [bps | e]; run_step; [ | discriminate ].
  destruct (amount_rejected _) eqn:Ha; [ discriminate | ].
  destruct (slippage_rejected _); [ discriminate | ].
  inversion H; subst; simpl. repeat split; auto.
  unfold amount_rejected in Ha. apply orb_false_elim in Ha as (_ & Ha).
  now apply negb_false_iff in Ha.
Qed.

(** The signer check issues no call and leaves the state alone; it either
    lets the request through or answers it. *)
Lemma check_signer_inv rq s r s' :
  check_signer cfg rq s = (r, s') ->
  s' = s /\ (r = Val tt \/ exists resp, r = Ret resp).
Proof.
  unfold check_signer.
  destruct (negb (unsignedOnly rq));
    [ destruct (signer cfg) as [a | ];
      [ destruct (negb (toLowerCase a =? toLowerCase (wallet rq))%string) | ] | ];
    run_step; intros H; inversion H; subst; split; eauto.
Qed.

(** The signer check: it lets through unsigned requests and signed ones
    whose wallet is the signer's address, and answers the others 400. *)
Lemma check_signer_spec rq s r s' :
  check_signer cfg rq s = (r, s') ->
  s' = s
  /\ match r with
     | Val _ =>
         unsignedOnly rq = true
         \/ exists a, signer cfg = Some a
                      /\ toLowerCase a = toLowerCase (wallet rq)
     | Ret x =>
         unsignedOnly rq = false
         /\ status x = JNum 400
         /\ get (body x) "ok" = JBool false
         /\ get (body x) "logs" = logs_value (logs s)
     | Thr _ => False
     end.
Proof.
  unfold check_signer. destruct (unsignedOnly rq); simpl.
  { run_step. intros H; inversion H; subst. auto. }
  destruct (signer cfg) as [a | ].
  - destruct (toLowerCase a =? toLowerCase (wallet rq))%string eqn:E; simpl;
      run_step; intros H; inversion H; subst; simpl; split; auto.
    right. exists a. split; [ reflexivity | now apply String.eqb_eq ].
  - run_step. intros H; inversion H; subst; simpl. auto.
Qed.

(** The quote: the exclusion list is joined, which can throw before
    anything is logged or called; then one call, and the thrown error, the
    400 no-route response, the error of [String(destAmount)] or the
    response body with its two fields. *)
Lemma quote_spec rq s r s' :
  quote js cfg w rq s = (r, s') ->
  match array_join js "," (excludeDexs rq) with
  | Throw e => r = Thr e /\ s' = s
  | Ok joined =>
      calls s' = (calls s ++ [PricesGet (pricesParams js cfg rq joined)])%list
      /\ match prices_get w (pricesParams js cfg rq joined) with
         | Throw e => r = Thr e
         | Ok d =>
             if negb (truthy (quote_field d "destAmount"))
                || negb (truthy (quote_field d "tokenTransferProxy"))
             then r = Ret {| status := JNum 400;
                             body := failure no_route_error [("raw", d)]
                                             (logs s') |}
             else
               match ToString js (quote_field d "destAmount") with
               | Throw e => r = Thr e
               | Ok _ => r = Val (d, quote_field d "destAmount",
                                  quote_field d "tokenTransferProxy")
               end
         end
  end.
Proof.
  unfold quote. run_step.
  destruct (array_join js "," (excludeDexs rq)) as [joined | e]; run_step.
  2: { ends H. split; reflexivity. }
  destruct (prices_get w (pricesParams js cfg rq joined)) as [d | e]; run_step.
  - destruct (negb (truthy (quote_field d "destAmount"))
              || negb (truthy (quote_field d "tokenTransferProxy")));
      run_step; [ ends H; split; reflexivity | ].
    destruct (ToString js (quote_field d "destAmount")); run_step;
      ends H; split; reflexivity.
  - ends H. split; reflexivity.
Qed.

(** Every way [ensureAllowance] can run, with the calls it adds. *)
Lemma ensureAllowance_outcome token owner spender neededWei s r s' :
  ensureAllowance js w token owner spender neededWei s = (r, s') ->
  match erc20_allowance w token owner spender with
  | Throw e =>
      r = Thr e
      /\ calls s' = (calls s ++ [AllowanceRead token owner spender])%list
  | Ok a =>
      match BigInt js (JStr neededWei) with
      | Throw e =>
          r = Thr e
          /\ calls s' = (calls s ++ [AllowanceRead token owner spender])%list
      | Ok n =>
          if n <=? a
          then r = Val false
               /\ calls s' = (calls s ++ [AllowanceRead token owner spender])%list
          else
            match erc20_approve w token spender MaxUint256 with
            | Throw e =>
                r = Thr e
                /\ calls s'
                   = (calls s ++ [AllowanceRead token owner spender;
                                  ApproveSend token spender MaxUint256])%list
            | Ok tx =>
                calls s'
                = (calls s ++ [AllowanceRead token owner spender;
                               ApproveSend token spender MaxUint256;
                               TxWait tx])%list
                /\ match tx_wait w tx with
                   | Throw e => r = Thr e
                   | Ok _ => r = Val true
                   end
            end
      end
  end.
Proof.
  unfold ensureAllowance. run_step.
  destruct (erc20_allowance w token owner spender) as [a | e]; run_step;
    [ | intros H; inversion H; subst; split; reflexivity ].
  destruct (BigInt js (JStr neededWei)) as [n | e]; run_step;
    [ | intros H; inversion H; subst; split; reflexivity ].
  destruct (n <=? a); run_step;
    [ intros H; inversion H; subst; split; reflexivity | ].
  destruct (erc20_approve w token spender MaxUint256) as [tx | e]; run_step;
    [ | intros H; inversion H; subst; simpl; rewrite <- app_assoc;
        split; reflexivity ].
  destruct (tx_wait w tx) as [rc | e]; run_step;
    intros H; inversion H; subst; simpl; rewrite <- !app_assoc;
    split; reflexivity.
Qed.

(** The allowance step: nothing in unsigned mode, [ensureAllowance] on the
    source token, the wallet and the quoted proxy otherwise. *)
Lemma approve_step_spec rq proxy s r s' :
  approve_step js w rq proxy s = (r, s') ->
  if unsignedOnly rq then r = Val tt /\ s' = s
  else exists r0,
         ensureAllowance js w (tokenFrom rq) (wallet rq) proxy (amountWei rq) s
         = (r0, s')
         /\ match r0 with
            | Val _ => r = Val tt
            | Ret x => r = Ret x
            | Thr e => r = Thr e
            end.
Proof.
  unfold approve_step. destruct (unsignedOnly rq); simpl.
  - run_step. intros H; inversion H; subst. auto.
  - unfold bind.
    destruct (ensureAllowance js w (tokenFrom rq) (wallet rq) proxy
                (amountWei rq) s) as [[b | x | e] s0];
      run_step; intros H; inversion H; subst; eexists; split; reflexivity.
Qed.

Lemma approve_step_calls rq proxy s r s' :
  approve_step js w rq proxy s = (r, s') ->
  exists new,
    calls s' = (calls s ++ new)%list
    /\ forallb allowance_call new = true.
Proof.
  unfold approve_step. destruct (negb (unsignedOnly rq)).
  - intros H.
    apply bind_inv in H as [(b & s1 & He & H) | [(x & He & ->) | (e & He & ->)]];
      apply ensureAllowance_calls in He as (new & Hc & Hall & _);
      exists new; split; auto.
    run_step. inversion H; subst. assumption.
  - run_step. intros H; inversion H; subst. exists []. now rewrite app_nil_r.
Qed.

Lemma approve_step_no_ret rq proxy s x s' :
  approve_step js w rq proxy s = (Ret x, s') -> False.
Proof.
  intros H. apply approve_step_spec in H.
  destruct (unsignedOnly rq); [ destruct H; discriminate | ].
  destruct H as (r0 & He & Hr).
  apply ensureAllowance_outcome in He.
  destruct r0 as [b | y | e]; try discriminate.
  destruct (erc20_allowance w _ _ _); [ | destruct He; discriminate ].
  destruct (BigInt js _); [ | destruct He; discriminate ].
  destruct (_ <=? _); [ destruct He; discriminate | ].
  destruct (erc20_approve w _ _ _) as [tx | ]; [ | destruct He; discriminate ].
  destruct He as (_ & He). destruct (tx_wait w tx); discriminate.
Qed.

(** The calls of the allowance step. *)
Lemma approve_step_trace rq proxy s r s' :
  approve_step js w rq proxy s = (r, s') ->
  exists A,
    calls s' = (calls s ++ A)%list
    /\ (A = []
        \/ (unsignedOnly rq = false
            /\ let ar := AllowanceRead (tokenFrom rq) (wallet rq) proxy in
               let ap := ApproveSend (tokenFrom rq) proxy MaxUint256 in
               A = [ar] \/ A = [ar; ap] \/ exists tx, A = [ar; ap; TxWait tx])).
Proof.
  intros H. apply approve_step_spec in H.
  destruct (unsignedOnly rq).
  { destruct H as (_ & ->). exists []. rewrite app_nil_r. auto. }
  destruct H as (r0 & He & _). apply ensureAllowance_outcome in He.
  destruct (erc20_allowance w _ _ _);
    [ | destruct He as (_ & ->); eexists; split; [ reflexivity | auto ] ].
  destruct (BigInt js _);
    [ | destruct He as (_ & ->); eexists; split; [ reflexivity | auto ] ].
  destruct (_ <=? _);
    [ destruct He as (_ & ->); eexists; split; [ reflexivity | auto ] | ].
  destruct (erc20_approve w _ _ _) as [tx | ];
    [ | destruct He as (_ & ->); eexists; split; [ reflexivity | auto ] ].
  destruct He as (-> & _). eexists; split; [ reflexivity | ].
  right. split; [ reflexivity | ]. right; right. eauto.
Qed.

(** The build: one call, then the thrown error, the 400 incomplete
    transaction response, the error of [String(txData.value || "0")] or the
    built transaction. *)
Lemma build_spec rq d s r s' :
  build js cfg w rq d s = (r, s') ->
  calls s' = (calls s ++ [TransactionsPost (txBody js cfg rq d)])%list
  /\ match transactions_post w (txBody js cfg rq d) with
     | Throw e => r = Thr e
     | Ok txData =>
         if negb (truthy (get txData "to")) || negb (truthy (get txData "data"))
         then r = Ret {| status := JNum 400;
                         body := failure "ParaSwap não retornou tx completa."
                                         [("raw", txData)] (logs s') |}
         else
           match ToString js (or_ (get txData "value") (JStr "0")) with
           | Throw e => r = Thr e
           | Ok _ => r = Val txData
           end
     end.
Proof.
  unfold build. run_step.
  destruct (transactions_post w (txBody js cfg rq d)) as [t | e]; run_step.
  - destruct (negb (truthy (get t "to")) || negb (truthy (get t "data")));
      run_step; [ ends H; split; reflexivity | ].
    destruct (ToString js _); run_step; ends H; split; reflexivity.
  - ends H. split; reflexivity.
Qed.

Lemma build_calls rq priceRoute s r s' :
  build js cfg w rq priceRoute s = (r, s') ->
  calls s' = (calls s ++ [TransactionsPost (txBody js cfg rq priceRoute)])%list.
Proof. intros H. now apply build_spec in H. Qed.

(** The execution: the unsigned response with no call at all, or the
    conversions, the broadcast and the confirmation wait. *)
Lemma execute_spec rq txData destAmount s r s' :
  execute js w rq txData destAmount s = (r, s') ->
  if unsignedOnly rq
  then s' = s
       /\ match ToString js destAmount with
          | Throw e => r = Thr e
          | Ok shown =>
              r = Ret {| status := JNum 200;
                         body := unsigned_response txData shown (logs s) |}
          end
  else
    match BigInt js (or_ (get txData "value") (JStr "0")) with
    | Throw e => r = Thr e /\ calls s' = calls s
    | Ok v =>
        match gasLimit_of js txData with
        | Throw e => r = Thr e /\ calls s' = calls s
        | Ok limit =>
            let req := {| tx_to := get txData "to";
                          tx_data := get txData "data";
                          tx_value := v;
                          tx_gasLimit := limit |} in
            match sendTransaction w req with
            | Throw e =>
                r = Thr e
                /\ calls s' = (calls s ++ [SendTransaction req])%list
            | Ok tx =>
                calls s' = (calls s ++ [SendTransaction req; TxWait tx])%list
                /\ match tx_wait w tx with
                   | Throw e => r = Thr e
                   | Ok rc =>
                       match ToString js destAmount with
                       | Throw e => r = Thr e
                       | Ok shown =>
                           r = Ret {| status := JNum 200;
                                      body := signed_response tx rc shown
                                                              (logs s') |}
                       end
                   end
            end
        end
    end.
Proof.
  unfold execute, gasLimit_of. destruct (unsignedOnly rq); run_step.
  { destruct (ToString js destAmount); run_step;
      ends H; destruct s'; split; reflexivity. }
  destruct (BigInt js (or_ (get txData "value") (JStr "0"))) as [v | e]; run_step;
    [ | ends H; split; reflexivity ].
  destruct (truthy (get txData "gas")); run_step.
  1: destruct (BigInt js (get txData "gas")) as [g | e]; run_step;
     [ | ends H; split; reflexivity ].
  all: match goal with
       | |- context [sendTransaction w ?req] =>
           destruct (sendTransaction w req) as [tx | e]; run_step;
           [ destruct (tx_wait w tx) as [rc | e]; run_step;
             [ destruct (ToString js destAmount); run_step | ] | ]
       end;
       ends H; simpl; rewrite <- ?app_assoc;
       split; reflexivity.
Qed.

Lemma execute_calls rq txData destAmount s r s' :
  execute js w rq txData destAmount s = (r, s') ->
  exists new,
    calls s' = (calls s ++ new)%list
    /\ forallb broadcast_call new = true.
Proof.
  intros H. apply execute_spec in H.
  destruct (unsignedOnly rq).
  { destruct H as (-> & _). exists []. now rewrite app_nil_r. }
  destruct (BigInt js _);
    [ | destruct H as (_ & ->); exists []; now rewrite app_nil_r ].
  destruct (gasLimit_of js txData);
    [ | destruct H as (_ & ->); exists []; now rewrite app_nil_r ].
  cbv zeta in H.
  destruct (sendTransaction w _) as [tx | ].
  - destruct H as (-> & _). eexists; split; reflexivity.
  - destruct H as (_ & ->). eexists; split; reflexivity.
Qed.

(** The calls of the execution. *)
Lemma execute_trace rq txData destAmount s r s' :
  execute js w rq txData destAmount s = (r, s') ->
  exists E,
    calls s' = (calls s ++ E)%list
    /\ (E = []
        \/ (unsignedOnly rq = false
            /\ exists req,
                 E = [SendTransaction req]
                 \/ exists tx, E = [SendTransaction req; TxWait tx])).
Proof.
  intros H. apply execute_spec in H.
  destruct (unsignedOnly rq).
  { destruct H as (-> & _). exists []. rewrite app_nil_r. auto. }
  destruct (BigInt js _);
    [ | destruct H as (_ & ->); exists []; rewrite app_nil_r; auto ].
  destruct (gasLimit_of js txData);
    [ | destruct H as (_ & ->); exists []; rewrite app_nil_r; auto ].
  cbv zeta in H.
  destruct (sendTransaction w _) as [tx | ].
  - destruct H as (-> & _). eexists; split; [ reflexivity | ].
    right. split; [ reflexivity | ]. eexists. right. eauto.
  - destruct H as (_ & ->). eexists; split; [ reflexivity | ].
    right. split; [ reflexivity | ]. eexists. left. reflexivity.
Qed.

End Stages.

(** ** The handler *)

Section Handler.

Context (js : Builtins) (cfg : Config) (w : World).

Lemma swap_state reqbody :
  snd (swap js cfg w reqbody) = snd (swap_try js cfg w reqbody init).
Proof.
  unfold swap. destruct (swap_try js cfg w reqbody init) as [[r | r | e] s];
    reflexivity.
Qed.

(** The response of a run of the [try] block. *)
Lemma swap_unfold reqbody r sf :
  swap_try js cfg w reqbody init = (r, sf) ->
  swap js cfg w reqbody
  = (match r with
     | Val x | Ret x => x
     | Thr e => catch_handler e
     end, sf).
Proof. unfold swap. intros ->. destruct r; reflexivity. Qed.

Lemma forallb_In {A} (P : A -> bool) l x :
  forallb P l = true -> In x l -> P x = true.
Proof. intros H Hin. rewrite forallb_forall in H. auto. Qed.


Lemma or_falsy a b : truthy a = false -> or_ a b = b.
Proof. unfold or_. now intros ->. Qed.

(** The value the handler takes for a field of the quote response. *)
Lemma quote_field_used d k :
  quote_field d k
  = if truthy (get (get d "priceRoute") k)
    then get (get d "priceRoute") k
    else get d k.
Proof. reflexivity. Qed.

Ltac stage H a s1 Hm :=
  apply bind_inv in H as [(a & s1 & Hm & H) | [(? & Hm & ->) | (? & Hm & ->)]].

(** Where a request can end: in validation, at the signer check, at the
    quote, in the allowance step, at the build, or in the execution. *)
Lemma swap_try_cases reqbody r sf :
  swap_try js cfg w reqbody init = (r, sf) ->
  (exists o, parse_request js reqbody init = (o, sf) /\ stopped o r)
  \/ exists rq s1,
       parse_request js reqbody init = (Val rq, s1)
       /\ calls s1 = []
       /\ ((exists x, check_signer cfg rq s1 = (Ret x, sf) /\ r = Ret x)
           \/ (check_signer cfg rq s1 = (Val tt, s1)
               /\ ((exists o, quote js cfg w rq s1 = (o, sf) /\ stopped o r)
                   \/ exists joined d s2 shown,
                        array_join js "," (excludeDexs rq) = Ok joined
                        /\ quote js cfg w rq s1
                           = (Val (d, quote_field d "destAmount",
                                   quote_field d "tokenTransferProxy"), s2)
                        /\ prices_get w (pricesParams js cfg rq joined) = Ok d
                        /\ truthy (quote_field d "destAmount") = true
                        /\ truthy (quote_field d "tokenTransferProxy") = true
                        /\ ToString js (quote_field d "destAmount") = Ok shown
                        /\ calls s2 = [PricesGet (pricesParams js cfg rq joined)]
                        /\ ((exists e,
                               approve_step js w rq
                                 (quote_field d "tokenTransferProxy") s2
                               = (Thr e, sf) /\ r = Thr e)
                            \/ exists s3,
                                 approve_step js w rq
                                   (quote_field d "tokenTransferProxy") s2
                                 = (Val tt, s3)
                                 /\ ((exists o, build js cfg w rq d s3 = (o, sf)
                                                /\ stopped o r)
                                     \/ exists txData s4,
                                          build js cfg w rq d s3 = (Val txData, s4)
                                          /\ execute js w rq txData
                                               (quote_field d "destAmount") s4
                                             = (r, sf)))))).
Proof.
  unfold swap_try, stopped. intros H.
  stage H rq s1 Hp; [ | left; eauto 8 | left; eauto 8 ].
  right. exists rq, s1. split; [ assumption | ].
  pose proof Hp as Hc1. apply parse_request_inv in Hc1 as (Hc1 & _).
  simpl in Hc1. split; [ assumption | ].
  stage H u s1' Hs;
    pose proof Hs as Hs'; apply check_signer_spec in Hs' as (-> & Hr);
    [ | left; eauto | destruct Hr ].
  destruct u. right. split; [ assumption | ].
  stage H q s2 Hq; [ | left; eauto 8 | left; eauto 8 ].
  right. destruct q as ((d & da) & px).
  pose proof Hq as Hqs. apply quote_spec in Hqs.
  destruct (array_join js "," (excludeDexs rq)) as [joined | e] eqn:Hj;
    [ | destruct Hqs; discriminate ].
  destruct Hqs as (Hc2 & Hqr). rewrite Hc1 in Hc2; simpl in Hc2.
  destruct (prices_get w (pricesParams js cfg rq joined)) as [d' | e] eqn:Hd;
    [ | discriminate ].
  destruct (negb (truthy (quote_field d' "destAmount"))
            || negb (truthy (quote_field d' "tokenTransferProxy"))) eqn:Hno;
    [ discriminate | ].
  destruct (ToString js (quote_field d' "destAmount")) as [shown | e] eqn:Hshown;
    [ | discriminate ].
  inversion Hqr; subst d' da px.
  apply orb_false_elim in Hno as (Hda & Hpx).
  apply negb_false_iff in Hda, Hpx.
  exists joined, d, s2, shown.
  repeat (split; [ first [ assumption | reflexivity ] | ]).
  stage H u s3 Ha;
    [ | exfalso; eapply approve_step_no_ret; eassumption | left; eauto ].
  destruct u. right. exists s3. split; [ assumption | ].
  stage H txData s4 Hb; [ | left; eauto 8 | left; eauto 8 ].
  right. eauto.
Qed.

(** The call trace of a request, call by call: nothing; or the quote, then
    in signed mode the allowance read, the approval and its wait as far as
    they went, then the build, then in signed mode the broadcast and its
    wait. *)
Lemma swap_trace_shape reqbody r sf :
  swap_try js cfg w reqbody init = (r, sf) ->
  calls sf = []
  \/ exists rq s1 joined A B,
       parse_request js reqbody init = (Val rq, s1)
       /\ check_signer cfg rq s1 = (Val tt, s1)
       /\ array_join js "," (excludeDexs rq) = Ok joined
       /\ calls sf = (PricesGet (pricesParams js cfg rq joined) :: A ++ B)%list
       /\ (A = []
           \/ exists d,
                prices_get w (pricesParams js cfg rq joined) = Ok d
                /\ unsignedOnly rq = false
                /\ let proxy := quote_field d "tokenTransferProxy" in
                   let ar := AllowanceRead (tokenFrom rq) (wallet rq) proxy in
                   let ap := ApproveSend (tokenFrom rq) proxy MaxUint256 in
                   A = [ar] \/ A = [ar; ap] \/ exists tx, A = [ar; ap; TxWait tx])
       /\ (B = []
           \/ exists d E,
                prices_get w (pricesParams js cfg rq joined) = Ok d
                /\ B = TransactionsPost (txBody js cfg rq d) :: E
                /\ (E = []
                    \/ (unsignedOnly rq = false
                        /\ exists req,
                             E = [SendTransaction req]
                             \/ exists tx, E = [SendTransaction req; TxWait tx]))).
Proof.
  intros H.
  apply swap_try_cases in H
    as [(o & Hp & _) | (rq & s1 & Hp & Hc1 & [(x & Hs & _) | (Hs & H)])].
  - left. apply parse_request_inv in Hp as (-> & _). reflexivity.
  - left. apply check_signer_spec in Hs as (-> & _). assumption.
  - destruct H as [(o & Hq & _)
                   | (joined & d & s2 & shown & Hj & Hq & Hd & _ & _ & _ & Hc2 & H)].
    { apply quote_spec in Hq.
      destruct (array_join js "," (excludeDexs rq)) as [joined | e] eqn:Hj.
      - destruct Hq as (Hq & _). rewrite Hc1 in Hq.
        right. exists rq, s1, joined, [], []. repeat split; auto.
      - destruct Hq as (_ & ->). now left. }
    right. exists rq, s1, joined.
    destruct H as [(e & Ha & _) | (s3 & Ha & H)].
    { apply approve_step_trace in Ha as (A & Hc3 & HA). rewrite Hc2 in Hc3.
      exists A, []. rewrite app_nil_r. repeat split; auto.
      destruct HA as [-> | (Hu & HA)]; [ auto | right; exists d; auto ]. }
    apply approve_step_trace in Ha as (A & Hc3 & HA). rewrite Hc2 in Hc3.
    assert (HA' : A = []
                  \/ exists d0,
                       prices_get w (pricesParams js cfg rq joined) = Ok d0
                       /\ unsignedOnly rq = false
                       /\ let proxy := quote_field d0 "tokenTransferProxy" in
                          let ar := AllowanceRead (tokenFrom rq) (wallet rq) proxy in
                          let ap := ApproveSend (tokenFrom rq) proxy MaxUint256 in
                          A = [ar] \/ A = [ar; ap]
                          \/ exists tx, A = [ar; ap; TxWait tx]).
    { destruct HA as [-> | (Hu & HA)]; [ auto | right; exists d; auto ]. }
    destruct H as [(o & Hb & _) | (txData & s4 & Hb & He)].
    { apply build_calls in Hb. rewrite Hc3 in Hb. simpl in Hb.
      exists A, [TransactionsPost (txBody js cfg rq d)].
      repeat split; auto. right. exists d, []. auto. }
    apply build_calls in Hb. rewrite Hc3 in Hb. simpl in Hb.
    apply execute_trace in He as (E & Hc5 & HE). rewrite Hb in Hc5.
    simpl in Hc5. rewrite <- app_assoc in Hc5. simpl in Hc5.
    exists A, (TransactionsPost (txBody js cfg rq d) :: E).
    repeat split; auto. right. exists d, E. auto.
Qed.

(** The quote call of a run carries the parameters built from the
    validated request, with the exclusion list joined. *)
Lemma trace_quote_params reqbody r sf p :
  swap_try js cfg w reqbody init = (r, sf) ->
  In (PricesGet p) (calls sf) ->
  exists rq s1 joined,
    parse_request js reqbody init = (Val rq, s1)
    /\ calls s1 = []
    /\ check_signer cfg rq s1 = (Val tt, s1)
    /\ array_join js "," (excludeDexs rq) = Ok joined
    /\ p = pricesParams js cfg rq joined.
Proof.
  intros E Hin.
  apply swap_trace_shape in E
    as [Hnil | (rq & s1 & joined & A & B & Hp & Hs & Hj & Hc & HA & HB)].
  { rewrite Hnil in Hin. destruct Hin. }
  exists rq, s1, joined.
  pose proof Hp as Hc1. apply parse_request_inv in Hc1 as (Hc1 & _).
  simpl in Hc1. repeat (split; [ assumption | ]).
  rewrite Hc in Hin.
  destruct Hin as [Hin | Hin]; [ now inversion Hin | exfalso ].
  apply in_app_or in Hin as [Hin | Hin].
  - destruct HA as [-> | (d & _ & _ & HA)]; [ destruct Hin | ].
    cbv zeta in HA.
    destruct HA as [-> | [-> | (tx & ->)]]; simpl in Hin;
      repeat (destruct Hin as [Hin | Hin]; try discriminate); destruct Hin.
  - destruct HB as [-> | (d & E & _ & -> & HE)]; [ destruct Hin | ].
    destruct Hin as [Hin | Hin]; [ discriminate | ].
    destruct HE as [-> | (_ & req & [-> | (tx & ->)])]; simpl in Hin;
      repeat (destruct Hin as [Hin | Hin]; try discriminate); destruct Hin.
Qed.

Lemma swap_quote_params reqbody p :
  In (PricesGet p) (calls (snd (swap js cfg w reqbody))) ->
  exists rq s1 joined,
    parse_request js reqbody init = (Val rq, s1)
    /\ calls s1 = []
    /\ check_signer cfg rq s1 = (Val tt, s1)
    /\ array_join js "," (excludeDexs rq) = Ok joined
    /\ p = pricesParams js cfg rq joined.
Proof.
  rewrite swap_state.
  destruct (swap_try js cfg w reqbody init) as [r sf] eqn:E. simpl.
  now apply trace_quote_params with (r := r).
Qed.

(** A build or broadcast call in the trace: validation, the signer check,
    the quote and the allowance step went through, and the run ended at the
    build or in the execution. *)
Lemma reached_build reqbody r sf c :
  swap_try js cfg w reqbody init = (r, sf) ->
  In c (calls sf) ->
  is_build c || is_send c = true ->
  exists rq s1 joined d shown s2 s3 A,
    parse_request js reqbody init = (Val rq, s1)
    /\ array_join js "," (excludeDexs rq) = Ok joined
    /\ prices_get w (pricesParams js cfg rq joined) = Ok d
    /\ truthy (quote_field d "destAmount") = true
    /\ truthy (quote_field d "tokenTransferProxy") = true
    /\ ToString js (quote_field d "destAmount") = Ok shown
    /\ calls s2 = [PricesGet (pricesParams js cfg rq joined)]
    /\ approve_step js w rq (quote_field d "tokenTransferProxy") s2 = (Val tt, s3)
    /\ calls s3 = PricesGet (pricesParams js cfg rq joined) :: A
    /\ forallb allowance_call A = true
    /\ ((exists o, build js cfg w rq d s3 = (o, sf) /\ stopped o r)
        \/ exists txData s4,
             build js cfg w rq d s3 = (Val txData, s4)
             /\ execute js w rq txData (quote_field d "destAmount") s4 = (r, sf)).
Proof.
  intros H Hin Hk.
  apply swap_try_cases in H
    as [(o & Hp & _) | (rq & s1 & Hp & Hc1 & [(x & Hs & _) | (Hs & H)])].
  - apply parse_request_inv in Hp as (Hc & _). rewrite Hc in Hin. destruct Hin.
  - apply check_signer_spec in Hs as (-> & _). rewrite Hc1 in Hin. destruct Hin.
  - destruct H as [(o & Hq & _)
                   | (joined & d & s2 & shown & Hj & Hq & Hd & Hda & Hpx & Hsh
                      & Hc2 & H)].
    { apply quote_spec in Hq.
      destruct (array_join js "," (excludeDexs rq)) as [joined | e].
      - destruct Hq as (Hq & _). rewrite Hq, Hc1 in Hin.
        destruct Hin as [<- | []]. discriminate.
      - destruct Hq as (_ & ->). rewrite Hc1 in Hin. destruct Hin. }
    destruct H as [(e & Ha & _) | (s3 & Ha & H)].
    { apply approve_step_calls in Ha as (A & Hc3 & HA).
      rewrite Hc3, Hc2 in Hin. destruct Hin as [<- | Hin]; [ discriminate | ].
      apply (forallb_In _ _ _ HA) in Hin.
      destruct c; simpl in *; discriminate. }
    pose proof Ha as Ha'. apply approve_step_calls in Ha' as (A & Hc3 & HA).
    rewrite Hc2 in Hc3. simpl in Hc3.
    exists rq, s1, joined, d, shown, s2, s3, A. auto 15.
Qed.

(** The build call of a run carries the body built from the validated
    request and the quote response. *)
Lemma trace_build_body reqbody r sf b :
  swap_try js cfg w reqbody init = (r, sf) ->
  In (TransactionsPost b) (calls sf) ->
  exists rq s1 joined d,
    parse_request js reqbody init = (Val rq, s1)
    /\ array_join js "," (excludeDexs rq) = Ok joined
    /\ prices_get w (pricesParams js cfg rq joined) = Ok d
    /\ b = txBody js cfg rq d.
Proof.
  intros E Hin.
  destruct (reached_build _ _ _ _ E Hin eq_refl)
    as (rq & s1 & joined & d & shown & s2 & s3 & A & Hp & Hj & Hd & _ & _ & _
        & Hc2 & Ha & Hc3 & HA & Hrest).
  exists rq, s1, joined, d. repeat (split; [ assumption | ]).
  assert (Hpre : forall l, In (TransactionsPost b) (calls s3 ++ l) ->
                           In (TransactionsPost b) l).
  { intros l Hl. rewrite Hc3 in Hl. simpl in Hl.
    destruct Hl as [Hl | Hl]; [ discriminate | ].
    apply in_app_or in Hl as [Hl | Hl]; [ | assumption ].
    apply (forallb_In _ _ _ HA) in Hl. discriminate. }
  destruct Hrest as [(o & Hb & _) | (txData & s4 & Hb & He)];
    apply build_calls in Hb.
  - rewrite Hb in Hin. apply Hpre in Hin.
    destruct Hin as [Hin | []]. now inversion Hin.
  - apply execute_trace in He as (E' & Hc5 & HE). rewrite Hc5, Hb in Hin.
    rewrite <- app_assoc in Hin. apply Hpre in Hin. simpl in Hin.
    destruct Hin as [Hin | Hin]; [ now inversion Hin | exfalso ].
    destruct HE as [-> | (_ & req & [-> | (tx & ->)])]; simpl in Hin;
      repeat (destruct Hin as [Hin | Hin]; try discriminate); destruct Hin.
Qed.

Lemma swap_build_body reqbody b :
  In (TransactionsPost b) (calls (snd (swap js cfg w reqbody))) ->
  exists rq s1 joined d,
    parse_request js reqbody init = (Val rq, s1)
    /\ array_join js "," (excludeDexs rq) = Ok joined
    /\ prices_get w (pricesParams js cfg rq joined) = Ok d
    /\ b = txBody js cfg rq d.
Proof.
  rewrite swap_state.
  destruct (swap_try js cfg w reqbody init) as [r sf] eqn:E. simpl.
  now apply trace_build_body with (r := r).
Qed.

(** C5. Whenever the build service is called, the body sent binds
    [slippage] to the request's basis points divided by 100 (through
    [toFixed(4)] and back to a number) and has no [destAmount] property. *)
Theorem build_body_slippage_without_destAmount reqbody b :
  In (TransactionsPost b) (calls (snd (swap js cfg w reqbody))) ->
  exists bps,
    ToNumber js (or_ (get reqbody "slippageBps") (JNum 0)) = Ok bps
    /\ has_key b "slippage" = true
    /\ get b "slippage"
       = JNum (StringToNumber js (toFixed js (PrimFloat.div bps 100) 4))
    /\ has_key b "destAmount" = false.
Proof.
  intros Hin.
  apply swap_build_body in Hin as (rq & s1 & joined & d & Hp & _ & _ & ->).
  apply parse_request_inv in Hp as (_ & Hrq).
  destruct (Hrq rq eq_refl) as (_ & Hbps & _).
  exists (slippageBps rq). split; [ assumption | ].
  simpl. unfold slippage_percent. auto.
Qed.

Lemma lacks_falsy d k : lacks d k -> truthy (quote_field d k) = false.
Proof. intros [Hn Ht]. unfold quote_field, or_. now rewrite Hn, Ht. Qed.

(** The run of a request whose quote is answered without a usable
    destination amount or transfer proxy. *)
Lemma no_route_run reqbody p d :
  In (PricesGet p) (calls (snd (swap js cfg w reqbody))) ->
  prices_get w p = Ok d ->
  negb (truthy (quote_field d "destAmount"))
  || negb (truthy (quote_field d "tokenTransferProxy")) = true ->
  fst (swap js cfg w reqbody)
  = {| status := JNum 400;
       body := failure no_route_error [("raw", d)]
                       (logs (snd (swap js cfg w reqbody))) |}
  /\ calls (snd (swap js cfg w reqbody)) = [PricesGet p].
Proof.
  intros Hin Hd Hno.
  destruct (swap_quote_params _ _ Hin)
    as (rq & s1 & joined & Hp & Hc1 & Hs & Hj & ->).
  clear Hin. unfold swap, swap_try, bind. rewrite Hp, Hs.
  unfold quote. run_step. rewrite Hj. run_step. rewrite Hd. run_step.
  rewrite Hno. simpl. rewrite Hc1. split; reflexivity.
Qed.

(** C3. When the quote response lacks the destination amount or the
    transfer proxy, the response is the 400 "no route" failure with the raw
    quote response and the log bag, and the quote is the only external call
    of the request: no allowance call and no build call is issued. *)
Theorem no_route_is_400_and_stops reqbody p d :
  In (PricesGet p) (calls (snd (swap js cfg w reqbody))) ->
  prices_get w p = Ok d ->
  lacks d "destAmount" \/ lacks d "tokenTransferProxy" ->
  fst (swap js cfg w reqbody)
  = {| status := JNum 400;
       body := failure no_route_error [("raw", d)]
                       (logs (snd (swap js cfg w reqbody))) |}
  /\ calls (snd (swap js cfg w reqbody)) = [PricesGet p]
  /\ forallb (fun c => negb (is_allowance c) && negb (is_build c))
             (calls (snd (swap js cfg w reqbody))) = true.
Proof.
  intros Hin Hd Hl.
  assert (Hno : negb (truthy (quote_field d "destAmount"))
                || negb (truthy (quote_field d "tokenTransferProxy")) = true).
  { destruct Hl as [Hl | Hl]; apply lacks_falsy in Hl; rewrite Hl;
      [ reflexivity | apply orb_true_r ]. }
  destruct (no_route_run _ _ _ Hin Hd Hno) as (Hr & Hc).
  split; [ assumption | ]. split; [ assumption | ].
  rewrite Hc. reflexivity.
Qed.

(** C4. In signed mode with a configured signer whose address differs,
    letter case aside, from the request's wallet, the request issues no
    external call at all; and once the body passes validation the response
    is the 400 wallet/signer mismatch failure with the log bag. *)
Theorem signer_mismatch_stops_early reqbody wallet0 signerAddr :
  truthy (get reqbody "unsignedOnly") = false ->
  signer cfg = Some signerAddr ->
  getAddress js (get reqbody "wallet") = Some wallet0 ->
  toLowerCase signerAddr <> toLowerCase wallet0 ->
  calls (snd (swap js cfg w reqbody)) = []
  /\ forall rq s1,
       parse_request js reqbody init = (Val rq, s1) ->
       swap js cfg w reqbody
       = ({| status := JNum 400;
             body := failure
                       ("wallet (" ++ wallet0
                        ++ ") não bate com o signer do servidor ("
                        ++ signerAddr ++ ").") [] (logs s1) |}, s1).
Proof.
  intros Hu Hsig Hw Hneq.
  unfold swap, swap_try, bind.
  destruct (parse_request js reqbody init) as [[rq | x | e] s1] eqn:Hp;
    destruct (parse_request_inv _ _ _ _ _ Hp) as (Hc1 & Hrq); simpl in Hc1;
    simpl; try (split; [ assumption | discriminate ]).
  destruct (Hrq rq eq_refl) as (Hwa & _ & _ & Huo & _).
  rewrite Hw in Hwa. inversion Hwa; subst wallet0. rewrite Hu in Huo.
  unfold check_signer. rewrite Huo, Hsig. simpl.
  apply String.eqb_neq in Hneq. rewrite Hneq. run_step.
  split; [ assumption | ].
  intros rq' s1' H'. inversion H'; subst. reflexivity.
Qed.

(** C8 (amended). The quote parameters bind [excludeDEXS] to the
    comma-joined exclusion list when that string is not empty, and to
    [undefined], which leaves the parameter out of the query, when it is
    empty; the empty list is one such case, and an empty string is never
    sent. *)
Theorem exclusion_parameter reqbody p :
  In (PricesGet p) (calls (snd (swap js cfg w reqbody))) ->
  let excl := match get reqbody "excludeDexs" with
              | JArr items => items
              | _ => []
              end in
  exists joined,
    array_join js "," excl = Ok joined
    /\ (joined <> "" -> get p "excludeDEXS" = JStr joined)
    /\ (joined = "" -> get p "excludeDEXS" = JUndefined)
    /\ (excl = [] -> get p "excludeDEXS" = JUndefined)
    /\ get p "excludeDEXS" <> JStr "".
Proof.
  intros Hin.
  apply swap_quote_params in Hin as (rq & s1 & joined & Hp & _ & _ & Hj & ->).
  apply parse_request_inv in Hp as (_ & Hrq).
  destruct (Hrq rq eq_refl) as (_ & _ & Hex & _).
  simpl. rewrite <- Hex. exists joined. split; [ assumption | ].
  unfold or_. simpl.
  destruct (joined =? "")%string eqn:E; simpl.
  - apply String.eqb_eq in E. repeat split; try discriminate; try congruence.
  - apply String.eqb_neq in E. repeat split; try congruence.
    intros Hnil. rewrite Hnil in Hj. inversion Hj. congruence.
Qed.

(** *** Failures that reach the catch block *)


(** The [catch] block never copies the log bag into its response, and its
    response is never a success. *)
Lemma catch_handler_no_logs e :
  has_key (body (catch_handler e)) "logs" = false.
Proof. reflexivity. Qed.

Lemma catch_handler_not_ok e :
  get (body (catch_handler e)) "ok" = JBool false.
Proof. reflexivity. Qed.


(** *** The quoted fields and the success responses *)

(** The allowance calls of a run are for the request's source token and
    wallet and for the transfer proxy taken from the quote. *)
Lemma trace_allowance_calls reqbody r sf c :
  swap_try js cfg w reqbody init = (r, sf) ->
  In c (calls sf) ->
  is_allowance c = true ->
  exists rq s1 joined d,
    parse_request js reqbody init = (Val rq, s1)
    /\ array_join js "," (excludeDexs rq) = Ok joined
    /\ prices_get w (pricesParams js cfg rq joined) = Ok d
    /\ (c = AllowanceRead (tokenFrom rq) (wallet rq)
              (quote_field d "tokenTransferProxy")
        \/ c = ApproveSend (tokenFrom rq) (quote_field d "tokenTransferProxy")
                 MaxUint256).
Proof.
  intros E Hin Hk.
  apply swap_trace_shape in E
    as [Hnil | (rq & s1 & joined & A & B & Hp & _ & Hj & Hc & HA & HB)].
  { rewrite Hnil in Hin. destruct Hin. }
  exists rq, s1, joined. rewrite Hc in Hin.
  destruct Hin as [<- | Hin]; [ discriminate | ].
  apply in_app_or in Hin as [Hin | Hin].
  - destruct HA as [-> | (d & Hd & _ & HA)]; [ destruct Hin | ].
    exists d. repeat (split; [ assumption | ]).
    cbv zeta in HA.
    destruct HA as [-> | [-> | (tx & ->)]]; simpl in Hin;
      repeat (destruct Hin as [<- | Hin]; auto; try discriminate);
      destruct Hin.
  - exfalso.
    destruct HB as [-> | (d & E & _ & -> & HE)]; [ destruct Hin | ].
    destruct Hin as [<- | Hin]; [ discriminate | ].
    destruct HE as [-> | (_ & req & [-> | (tx & ->)])]; simpl in Hin;
      repeat (destruct Hin as [<- | Hin]; try discriminate);
      destruct Hin.
Qed.

(** A response with [ok = true] is one of the two success responses at the
    end of the [try] block, sent after the quote, the allowance step and
    the build went through. *)
Lemma success_response reqbody r sf :
  swap_try js cfg w reqbody init = (r, sf) ->
  get (body (fst (swap js cfg w reqbody))) "ok" = JBool true ->
  exists rq s1 joined d shown txData,
    parse_request js reqbody init = (Val rq, s1)
    /\ array_join js "," (excludeDexs rq) = Ok joined
    /\ prices_get w (pricesParams js cfg rq joined) = Ok d
    /\ ToString js (quote_field d "destAmount") = Ok shown
    /\ In (TransactionsPost (txBody js cfg rq d)) (calls sf)
    /\ transactions_post w (txBody js cfg rq d) = Ok txData
    /\ ((unsignedOnly rq = true
         /\ fst (swap js cfg w reqbody)
            = {| status := JNum 200;
                 body := unsigned_response txData shown (logs sf) |})
        \/ (unsignedOnly rq = false
            /\ exists tx rc,
                 tx_wait w tx = Ok rc
                 /\ fst (swap js cfg w reqbody)
                    = {| status := JNum 200;
                         body := signed_response tx rc shown (logs sf) |})).
Proof.
  intros E. rewrite (swap_unfold _ _ _ E). simpl. intros Hok.
  apply swap_try_cases in E
    as [(o & Hp & Hst) | (rq & s1 & Hp & Hc1 & [(x & Hs & ->) | (Hs & H)])].
  - exfalso. destruct Hst as [(x & -> & ->) | (e & -> & ->)].
    + apply parse_request_stop in Hp as (_ & Hf & _). congruence.
    + rewrite catch_handler_not_ok in Hok. discriminate.
  - exfalso. apply check_signer_spec in Hs as (_ & _ & _ & Hf & _). congruence.
  - destruct H as [(o & Hq & Hst)
                   | (joined & d & s2 & shown & Hj & Hq & Hd & _ & _ & Hsh
                      & Hc2 & H)].
    { exfalso. destruct Hst as [(x & -> & ->) | (e & -> & ->)].
      - apply quote_spec in Hq.
        destruct (array_join js "," (excludeDexs rq));
          [ | destruct Hq; discriminate ].
        destruct Hq as (_ & Hq).
        destruct (prices_get w _); [ | discriminate ].
        destruct (_ || _);
          [ | destruct (ToString js _); discriminate ].
        inversion Hq; subst x. discriminate.
      - rewrite catch_handler_not_ok in Hok. discriminate. }
    destruct H as [(e & _ & ->) | (s3 & Ha & H)].
    { exfalso. rewrite catch_handler_not_ok in Hok. discriminate. }
    destruct H as [(o & Hb & Hst) | (txData & s4 & Hb & He)].
    { exfalso. destruct Hst as [(x & -> & ->) | (e & -> & ->)].
      - apply build_spec in Hb as (_ & Hb).
        destruct (transactions_post w _); [ | discriminate ].
        destruct (_ || _);
          [ | destruct (ToString js (or_ _ _)); discriminate ].
        inversion Hb; subst x. discriminate.
      - rewrite catch_handler_not_ok in Hok. discriminate. }
    exists rq, s1, joined, d, shown, txData.
    repeat (split; [ assumption | ]).
    apply build_spec in Hb as (Hc4 & Hb).
    destruct (transactions_post w (txBody js cfg rq d)) as [t | e];
      [ | discriminate ].
    destruct (_ || _); [ discriminate | ].
    destruct (ToString js (or_ (get t "value") (JStr "0"))); [ | discriminate ].
    inversion Hb; subst t.
    pose proof He as Hc5. apply execute_calls in Hc5 as (E' & Hc5 & _).
    split.
    { rewrite Hc5, Hc4. apply in_or_app. left. apply in_or_app. right.
      now left. }
    split; [ reflexivity | ].
    apply execute_spec in He. rewrite Hsh in He.
    destruct (unsignedOnly rq).
    { destruct He as (-> & ->). left. split; reflexivity. }
    right. split; [ reflexivity | ].
    destruct (BigInt js _);
      [ | destruct He as (-> & _); rewrite catch_handler_not_ok in Hok;
          discriminate ].
    destruct (gasLimit_of js txData);
      [ | destruct He as (-> & _); rewrite catch_handler_not_ok in Hok;
          discriminate ].
    cbv zeta in He.
    destruct (sendTransaction w _) as [tx | ];
      [ | destruct He as (-> & _); rewrite catch_handler_not_ok in Hok;
          discriminate ].
    destruct He as (_ & He).
    destruct (tx_wait w tx) as [rc | ] eqn:Hw;
      [ | subst r; rewrite catch_handler_not_ok in Hok; discriminate ].
    subst r. exists tx, rc. split; [ assumption | reflexivity ].
Qed.

(** C9 (amended). For the destination amount and the transfer proxy of the
    quote response, the value nested under the [priceRoute] wrapper is the
    one the handler uses whenever it is truthy, and the top-level value
    when the nested one is absent or falsy (null, false, 0, NaN, the empty
    string).  The value so chosen decides whether the request stops as
    "no route"; the chosen proxy is the spender of every allowance call,
    and the chosen amount is the one a success response reports.  The
    payload sent to the build service follows the same rule: the wrapper
    when it is truthy, the whole response otherwise. *)
Theorem quote_field_precedence reqbody p d :
  In (PricesGet p) (calls (snd (swap js cfg w reqbody))) ->
  prices_get w p = Ok d ->
  let used k := if truthy (get (get d "priceRoute") k)
                then get (get d "priceRoute") k
                else get d k in
  let run := swap js cfg w reqbody in
  (truthy (used "destAmount") = false
   \/ truthy (used "tokenTransferProxy") = false ->
   fst run
   = {| status := JNum 400;
        body := JObj [("ok", JBool false);
                      ("error", JStr no_route_error);
                      ("raw", d);
                      ("logs", logs_value (logs (snd run)))] |}
   /\ calls (snd run) = [PricesGet p])
  /\ (forall c, In c (calls (snd run)) -> is_allowance c = true ->
        exists token owner,
          c = AllowanceRead token owner (used "tokenTransferProxy")
          \/ c = ApproveSend token (used "tokenTransferProxy") MaxUint256)
  /\ (forall b, In (TransactionsPost b) (calls (snd run)) ->
        truthy (used "destAmount") = true
        /\ truthy (used "tokenTransferProxy") = true
        /\ get b "priceRoute"
           = if truthy (get d "priceRoute") then get d "priceRoute" else d)
  /\ (get (body (fst run)) "ok" = JBool true ->
        exists shown,
          ToString js (used "destAmount") = Ok shown
          /\ get (body (fst run)) "destAmount" = JStr shown).
Proof.
  intros Hq Hd used run. subst run.
  assert (Hused : used = quote_field d) by reflexivity.
  clearbody used. subst used.
  destruct (swap_quote_params _ _ Hq)
    as (rq & s1 & joined & Hp & Hc1 & Hs & Hj & ->).
  split; [ | split; [ | split ] ].
  - intros Hfalsy. apply (no_route_run _ _ _ Hq Hd).
    destruct Hfalsy as [-> | ->]; [ reflexivity | apply orb_true_r ].
  - intros c Hin Hk. rewrite swap_state in Hin.
    destruct (swap_try js cfg w reqbody init) as [r sf] eqn:E. simpl in Hin.
    destruct (trace_allowance_calls _ _ _ _ E Hin Hk)
      as (rq' & s1' & joined' & d' & Hp' & Hj' & Hd' & Hc).
    rewrite Hp in Hp'. inversion Hp'; subst rq' s1'.
    rewrite Hj in Hj'. inversion Hj'; subst joined'.
    rewrite Hd in Hd'. inversion Hd'; subst d'.
    exists (tokenFrom rq), (wallet rq). destruct Hc as [-> | ->]; auto.
  - intros b Hin. rewrite swap_state in Hin.
    destruct (swap_try js cfg w reqbody init) as [r sf] eqn:E. simpl in Hin.
    destruct (trace_build_body _ _ _ _ E Hin)
      as (rq' & s1' & joined' & d' & Hp' & Hj' & Hd' & ->).
    destruct (reached_build _ _ _ _ E Hin eq_refl)
      as (rq2 & s12 & joined2 & d2 & shown & s2 & s3 & A & Hp2 & Hj2 & Hd2
          & Hda & Hpx & _).
    rewrite Hp in Hp', Hp2. inversion Hp'; subst rq' s1'.
    inversion Hp2; subst rq2 s12.
    rewrite Hj in Hj', Hj2. inversion Hj'; subst joined'.
    inversion Hj2; subst joined2.
    rewrite Hd in Hd', Hd2. inversion Hd'; subst d'. inversion Hd2; subst d2.
    repeat split; assumption.
  - intros Hok.
    destruct (swap_try js cfg w reqbody init) as [r sf] eqn:E.
    destruct (success_response _ _ _ E Hok)
      as (rq' & s1' & joined' & d' & shown & txData & Hp' & Hj' & Hd' & Hsh
          & _ & _ & Hresp).
    rewrite Hp in Hp'. inversion Hp'; subst rq' s1'.
    rewrite Hj in Hj'. inversion Hj'; subst joined'.
    rewrite Hd in Hd'. inversion Hd'; subst d'.
    exists shown. split; [ assumption | ].
    destruct Hresp as [(_ & ->) | (_ & tx & rc & _ & ->)]; reflexivity.
Qed.

(** The broadcast of a run: the request is in signed mode, the transaction
    sent is made from the built one, and the run ends with the broadcast
    and its confirmation wait. *)
Lemma sent_run reqbody r sf req :
  swap_try js cfg w reqbody init = (r, sf) ->
  In (SendTransaction req) (calls sf) ->
  exists rq s1 joined d shown txData l,
    parse_request js reqbody init = (Val rq, s1)
    /\ array_join js "," (excludeDexs rq) = Ok joined
    /\ prices_get w (pricesParams js cfg rq joined) = Ok d
    /\ ToString js (quote_field d "destAmount") = Ok shown
    /\ unsignedOnly rq = false
    /\ transactions_post w (txBody js cfg rq d) = Ok txData
    /\ truthy (get txData "to") = true
    /\ truthy (get txData "data") = true
    /\ tx_to req = get txData "to"
    /\ tx_data req = get txData "data"
    /\ BigInt js (or_ (get txData "value") (JStr "0")) = Ok (tx_value req)
    /\ gasLimit_of js txData = Ok (tx_gasLimit req)
    /\ match sendTransaction w req with
       | Throw e =>
           r = Thr e
           /\ calls sf
              = (l ++ [TransactionsPost (txBody js cfg rq d);
                       SendTransaction req])%list
       | Ok tx =>
           calls sf
           = (l ++ [TransactionsPost (txBody js cfg rq d);
                    SendTransaction req; TxWait tx])%list
           /\ match tx_wait w tx with
              | Throw e => r = Thr e
              | Ok rc =>
                  r = Ret {| status := JNum 200;
                             body := signed_response tx rc shown (logs sf) |}
              end
       end.
Proof.
  intros E Hin.
  destruct (reached_build _ _ _ _ E Hin eq_refl)
    as (rq & s1 & joined & d & shown & s2 & s3 & A & Hp & Hj & Hd & _ & _ & Hsh
        & Hc2 & Ha & Hc3 & HA & Hrest).
  assert (Hpre : forall l, In (SendTransaction req) (calls s3 ++ l) ->
                           In (SendTransaction req) l).
  { intros l Hl. rewrite Hc3 in Hl. simpl in Hl.
    destruct Hl as [Hl | Hl]; [ discriminate | ].
    apply in_app_or in Hl as [Hl | Hl]; [ | assumption ].
    apply (forallb_In _ _ _ HA) in Hl. discriminate. }
  destruct Hrest as [(o & Hb & _) | (txData & s4 & Hb & He)].
  { apply build_calls in Hb. rewrite Hb in Hin. apply Hpre in Hin.
    destruct Hin as [Hin | []]. discriminate. }
  apply build_spec in Hb as (Hc4 & Hbr).
  destruct (transactions_post w (txBody js cfg rq d)) as [t | e] eqn:Ht;
    [ | discriminate ].
  destruct (negb (truthy (get t "to")) || negb (truthy (get t "data"))) eqn:Hok;
    [ discriminate | ].
  destruct (ToString js (or_ (get t "value") (JStr "0"))); [ | discriminate ].
  inversion Hbr; subst t.
  apply orb_false_elim in Hok as (Hto & Hdata).
  apply negb_false_iff in Hto, Hdata.
  exists rq, s1, joined, d, shown, txData, (calls s3).
  repeat (split; [ assumption | ]).
  assert (Hin4 : forall l, In (SendTransaction req) (calls s4 ++ l) ->
                           In (SendTransaction req) l).
  { intros l Hl. rewrite Hc4, <- app_assoc in Hl. apply Hpre in Hl.
    destruct Hl as [Hl | Hl]; [ discriminate | assumption ]. }
  apply execute_spec in He. rewrite Hsh in He.
  destruct (unsignedOnly rq).
  { destruct He as (-> & _). rewrite <- (app_nil_r (calls s4)) in Hin.
    apply Hin4 in Hin. destruct Hin. }
  split; [ reflexivity | ].
  repeat (split; [ assumption | ]).
  destruct (BigInt js _) as [v | e];
    [ | destruct He as (_ & He); rewrite He, <- (app_nil_r (calls s4)) in Hin;
        apply Hin4 in Hin; destruct Hin ].
  destruct (gasLimit_of js txData) as [limit | e];
    [ | destruct He as (_ & He); rewrite He, <- (app_nil_r (calls s4)) in Hin;
        apply Hin4 in Hin; destruct Hin ].
  cbv zeta in He.
  destruct (sendTransaction w _) as [tx | e] eqn:Hsend.
  - destruct He as (Hc5 & He). rewrite Hc5 in Hin. apply Hin4 in Hin.
    destruct Hin as [Hin | [Hin | []]]; [ | discriminate ].
    inversion Hin; subst req; simpl. repeat (split; [ reflexivity | ]).
    rewrite Hsend. rewrite Hc5, Hc4, <- app_assoc. split; [ reflexivity | ].
    exact He.
  - destruct He as (He & Hc5). rewrite Hc5 in Hin. apply Hin4 in Hin.
    destruct Hin as [Hin | []].
    inversion Hin; subst req; simpl. repeat (split; [ reflexivity | ]).
    rewrite Hsend. rewrite Hc5, Hc4, <- app_assoc. split; [ assumption | ].
    reflexivity.
Qed.

(** C10 (amended). In a run that sent the swap transaction, the request is
    in signed mode and the confirmation wait is the last call.  When the
    wait returns a receipt the response is the 200 success object, with
    [ok = true], the transaction hash, the receipt's block and status
    copied as they are, the quoted destination amount and the log bag.
    The handler never reads the status, but the wait does: for the receipt
    of a reverted transaction (status 0) it rejects, and the request is
    answered by the [catch] block with status 500 and [ok = false]. *)
Theorem confirmed_swap_reports_success reqbody p d req tx :
  In (PricesGet p) (calls (snd (swap js cfg w reqbody))) ->
  prices_get w p = Ok d ->
  In (SendTransaction req) (calls (snd (swap js cfg w reqbody))) ->
  sendTransaction w req = Ok tx ->
  let quoted := if truthy (get (get d "priceRoute") "destAmount")
                then get (get d "priceRoute") "destAmount"
                else get d "destAmount" in
  let run := swap js cfg w reqbody in
  truthy (get reqbody "unsignedOnly") = false
  /\ (exists l, calls (snd run) = (l ++ [SendTransaction req; TxWait tx])%list)
  /\ match mined w tx with
     | Throw e => fst run = catch_handler e
     | Ok rc =>
         if is_reverted rc
         then fst run
              = {| status := JNum 500;
                   body := JObj [("ok", JBool false);
                                 ("error",
                                  or_ (JStr (revert_message w rc)) (JStr "Erro"));
                                 ("details", JNull)] |}
         else exists shown,
                ToString js quoted = Ok shown
                /\ fst run
                   = {| status := JNum 200;
                        body := JObj [("ok", JBool true);
                                      ("hash", hash tx);
                                      ("block", blockNumber rc);
                                      ("status", rc_status rc);
                                      ("destAmount", JStr shown);
                                      ("logs", logs_value (logs (snd run)))] |}
     end.
Proof.
  intros Hq Hd Hsend Hok quoted run. subst run.
  assert (Hquoted : quoted = quote_field d "destAmount") by reflexivity.
  clearbody quoted. subst quoted.
  destruct (swap_quote_params _ _ Hq)
    as (rq & s1 & joined & Hp & Hc1 & Hs & Hj & ->).
  rewrite swap_state in Hsend.
  destruct (swap_try js cfg w reqbody init) as [r sf] eqn:E.
  rewrite (swap_unfold _ _ _ E). simpl in Hsend |- *.
  destruct (sent_run _ _ _ _ E Hsend)
    as (rq' & s1' & joined' & d' & shown & txData & l & Hp' & Hj' & Hd'
        & Hsh & Hu & _ & _ & _ & _ & _ & _ & _ & Hrun).
  rewrite Hp in Hp'. inversion Hp'; subst rq' s1'.
  rewrite Hj in Hj'. inversion Hj'; subst joined'.
  rewrite Hd in Hd'. inversion Hd'; subst d'.
  pose proof Hp as Hrq. apply parse_request_inv in Hrq as (_ & Hrq).
  destruct (Hrq rq eq_refl) as (_ & _ & _ & Huo & _).
  split; [ congruence | ].
  rewrite Hok in Hrun. destruct Hrun as (Hc5 & Hw).
  split.
  { exists (l ++ [TransactionsPost (txBody js cfg rq d)])%list.
    rewrite Hc5, <- app_assoc. reflexivity. }
  unfold tx_wait in Hw.
  destruct (mined w tx) as [rc | e]; [ | subst r; reflexivity ].
  destruct (is_reverted rc); subst r; [ reflexivity | ].
  exists shown. split; [ exact Hsh | reflexivity ].
Qed.

End Handler.


(** ** The theorems at concrete requests *)

(** An allowance of 5 against 18703660 needed: one approval of
    [MaxUint256], confirmed before [approved = true] is returned. *)
Lemma ensureAllowance_spec_witness :
  let w := Examples.world (Ok Examples.route) 5 (JNum 1) in
  let run := ensureAllowance Fixture.js w Fixture.USDT Fixture.W_ADDR
                             (JStr Fixture.PROXY) "18703660" init in
  exists new,
    calls (snd run) = (calls init ++ new)%list
    /\ (18703660 <= 5 ->
        fst run = Val false
        /\ new = [AllowanceRead Fixture.USDT Fixture.W_ADDR (JStr Fixture.PROXY)]
        /\ filter is_write new = [])
    /\ (5 < 18703660 ->
        filter is_write new
        = [ApproveSend Fixture.USDT (JStr Fixture.PROXY) MaxUint256]
        /\ (fst run = Val true <->
            exists tx rc,
              erc20_approve w Fixture.USDT (JStr Fixture.PROXY) MaxUint256 = Ok tx
              /\ tx_wait w tx = Ok rc)
        /\ (fst run = Val true ->
            exists tx,
              new = [AllowanceRead Fixture.USDT Fixture.W_ADDR (JStr Fixture.PROXY);
                     ApproveSend Fixture.USDT (JStr Fixture.PROXY) MaxUint256;
                     TxWait tx])).
Proof.
  exact (ensureAllowance_spec Fixture.js
           (Examples.world (Ok Examples.route) 5 (JNum 1))
           Fixture.USDT Fixture.W_ADDR (JStr Fixture.PROXY) "18703660"
           init 5 18703660 eq_refl eq_refl).
Defined.

(** A quote response that is an empty object. *)
Lemma no_route_is_400_and_stops_witness :
  let cfg := Examples.cfg_of None in
  let w := Examples.world (Ok (JObj [])) 0 (JNum 1) in
  let reqbody := Examples.request (JNum 120) [] true in
  let p := pricesParams Fixture.js cfg (Examples.coerced 120 [] true) "" in
  fst (swap Fixture.js cfg w reqbody)
  = {| status := JNum 400;
       body := failure no_route_error [("raw", JObj [])]
                       (logs (snd (swap Fixture.js cfg w reqbody))) |}
  /\ calls (snd (swap Fixture.js cfg w reqbody)) = [PricesGet p]
  /\ forallb (fun c => negb (is_allowance c) && negb (is_build c))
             (calls (snd (swap Fixture.js cfg w reqbody))) = true.
Proof.
  apply (no_route_is_400_and_stops Fixture.js (Examples.cfg_of None)
           (Examples.world (Ok (JObj [])) 0 (JNum 1))
           (Examples.request (JNum 120) [] true)
           (pricesParams Fixture.js (Examples.cfg_of None)
                         (Examples.coerced 120 [] true) "")
           (JObj [])).
  - vm_compute. left. reflexivity.
  - reflexivity.
  - left. split; reflexivity.
Defined.

(** The server signs for another address than the request's wallet. *)
Lemma signer_mismatch_stops_early_witness :
  let cfg := Examples.cfg_of (Some Fixture.OTHER_ADDR) in
  let w := Examples.world (Ok Examples.route) 0 (JNum 1) in
  let reqbody := Examples.request (JNum 120) [] false in
  calls (snd (swap Fixture.js cfg w reqbody)) = []
  /\ forall rq s1,
       parse_request Fixture.js reqbody init = (Val rq, s1) ->
       swap Fixture.js cfg w reqbody
       = ({| status := JNum 400;
             body := failure
                       ("wallet (" ++ Fixture.W_ADDR
                        ++ ") não bate com o signer do servidor ("
                        ++ Fixture.OTHER_ADDR ++ ").") [] (logs s1) |}, s1).
Proof.
  apply (signer_mismatch_stops_early Fixture.js
           (Examples.cfg_of (Some Fixture.OTHER_ADDR))
           (Examples.world (Ok Examples.route) 0 (JNum 1))
           (Examples.request (JNum 120) [] false)
           Fixture.W_ADDR Fixture.OTHER_ADDR).
  - reflexivity.
  - reflexivity.
  - reflexivity.
  - vm_compute. discriminate.
Defined.

(** The unsigned request of the API document, 120 basis points. *)
Lemma build_body_slippage_without_destAmount_witness :
  let cfg := Examples.cfg_of None in
  let reqbody := Examples.request (JNum 120) [] true in
  let b := txBody Fixture.js cfg (Examples.coerced 120 [] true) Examples.route in
  exists bps,
    ToNumber Fixture.js (or_ (get reqbody "slippageBps") (JNum 0)) = Ok bps
    /\ has_key b "slippage" = true
    /\ get b "slippage"
       = JNum (StringToNumber Fixture.js
                 (toFixed Fixture.js (PrimFloat.div bps 100) 4))
    /\ has_key b "destAmount" = false.
Proof.
  apply (build_body_slippage_without_destAmount Fixture.js
           (Examples.cfg_of None)
           (Examples.world (Ok Examples.route) 0 (JNum 1))
           (Examples.request (JNum 120) [] true)).
  vm_compute. right. left. reflexivity.
Defined.



(** Two excluded sources. *)
Lemma exclusion_parameter_witness :
  let cfg := Examples.cfg_of None in
  let excl := [JStr "Dexalot"; JStr "UniswapV3"] in
  let p := pricesParams Fixture.js cfg (Examples.coerced 120 excl true)
                        "Dexalot,UniswapV3" in
  exists joined,
    array_join Fixture.js "," excl = Ok joined
    /\ (joined <> "" -> get p "excludeDEXS" = JStr joined)
    /\ (joined = "" -> get p "excludeDEXS" = JUndefined)
    /\ (excl = [] -> get p "excludeDEXS" = JUndefined)
    /\ get p "excludeDEXS" <> JStr "".
Proof.
  apply (exclusion_parameter Fixture.js (Examples.cfg_of None)
           (Examples.world (Ok Examples.route) 0 (JNum 1))
           (Examples.request (JNum 120) [JStr "Dexalot"; JStr "UniswapV3"] true)).
  vm_compute. left. reflexivity.
Defined.

(** C8, as stated, fails: the exclusion list [[""]] is not empty, and the
    quote call leaves the parameter out instead of sending its comma-joined
    form. *)
Lemma nonempty_exclusion_list_omitted :
  map (fun p => get p "excludeDEXS")
      (quote_params_sent
         (calls (snd (swap Fixture.js (Examples.cfg_of None)
                        (Examples.world (Ok Examples.route) 0 (JNum 1))
                        (Examples.request (JNum 120) [JStr ""] true)))))
  = [JUndefined].
Proof. vm_compute. reflexivity. Qed.

(** A signed request whose quote carries both fields twice, with different
    values: the allowance is read and the approval given for the nested
    proxy, and the amount reported is the nested one. *)
Lemma quote_field_precedence_witness :
  let cfg := Examples.cfg_of (Some Fixture.W_ADDR) in
  let w := Examples.world (Ok Examples.two_level_route) 0 (JNum 1) in
  let reqbody := Examples.request (JNum 120) [] false in
  let p := pricesParams Fixture.js cfg (Examples.coerced 120 [] false) "" in
  let d := Examples.two_level_route in
  let run := swap Fixture.js cfg w reqbody in
  (truthy (JStr "27480") = false \/ truthy (JStr Fixture.PROXY) = false ->
   fst run
   = {| status := JNum 400;
        body := JObj [("ok", JBool false);
                      ("error", JStr no_route_error);
                      ("raw", d);
                      ("logs", logs_value (logs (snd run)))] |}
   /\ calls (snd run) = [PricesGet p])
  /\ (forall c, In c (calls (snd run)) -> is_allowance c = true ->
        exists token owner,
          c = AllowanceRead token owner (JStr Fixture.PROXY)
          \/ c = ApproveSend token (JStr Fixture.PROXY) MaxUint256)
  /\ (forall b, In (TransactionsPost b) (calls (snd run)) ->
        truthy (JStr "27480") = true
        /\ truthy (JStr Fixture.PROXY) = true
        /\ get b "priceRoute" = get d "priceRoute")
  /\ (get (body (fst run)) "ok" = JBool true ->
        exists shown,
          ToString Fixture.js (JStr "27480") = Ok shown
          /\ get (body (fst run)) "destAmount" = JStr shown).
Proof.
  apply (quote_field_precedence Fixture.js
           (Examples.cfg_of (Some Fixture.W_ADDR))
           (Examples.world (Ok Examples.two_level_route) 0 (JNum 1))
           (Examples.request (JNum 120) [] false)
           (pricesParams Fixture.js (Examples.cfg_of (Some Fixture.W_ADDR))
                         (Examples.coerced 120 [] false) "")
           Examples.two_level_route).
  - vm_compute. left. reflexivity.
  - reflexivity.
Defined.

(** C9, as stated, fails: the wrapper carries a destination amount, the
    number 0, and the amount reported is the top-level one, while the proxy
    that is approved is the nested one. *)
Lemma nested_zero_amount_loses_to_top_level :
  let run := swap Fixture.js (Examples.cfg_of (Some Fixture.W_ADDR))
               (Examples.world (Ok Examples.skewed_route) 0 (JNum 1))
               (Examples.request (JNum 120) [] false) in
  get (get Examples.skewed_route "priceRoute") "destAmount" = JNum 0
  /\ get Examples.skewed_route "destAmount" = JStr "27480"
  /\ get (body (fst run)) "ok" = JBool true
  /\ get (body (fst run)) "destAmount" = JStr "27480"
  /\ filter is_allowance (calls (snd run))
     = [AllowanceRead Fixture.USDT Fixture.W_ADDR (JStr Fixture.PROXY);
        ApproveSend Fixture.USDT (JStr Fixture.PROXY) MaxUint256].
Proof. vm_compute. repeat split. Qed.

(** A signed swap whose receipt has status 1. *)
Lemma confirmed_swap_reports_success_witness :
  let cfg := Examples.cfg_of (Some Fixture.W_ADDR) in
  let w := Examples.world (Ok Examples.two_level_route) 0 (JNum 1) in
  let reqbody := Examples.request (JNum 120) [] false in
  let run := swap Fixture.js cfg w reqbody in
  truthy (get reqbody "unsignedOnly") = false
  /\ (exists l, calls (snd run)
                = (l ++ [SendTransaction Scenarios.swap_request;
                         TxWait Examples.swap_tx])%list)
  /\ exists shown,
       ToString Fixture.js (JStr "27480") = Ok shown
       /\ fst run
          = {| status := JNum 200;
               body := JObj [("ok", JBool true);
                             ("hash", JStr "0xb2");
                             ("block", JNum 1234);
                             ("status", JNum 1);
                             ("destAmount", JStr shown);
                             ("logs", logs_value (logs (snd run)))] |}.
Proof.
  apply (confirmed_swap_reports_success Fixture.js
           (Examples.cfg_of (Some Fixture.W_ADDR))
           (Examples.world (Ok Examples.two_level_route) 0 (JNum 1))
           (Examples.request (JNum 120) [] false)
           (pricesParams Fixture.js (Examples.cfg_of (Some Fixture.W_ADDR))
                         (Examples.coerced 120 [] false) "")
           Examples.two_level_route
           Scenarios.swap_request
           Examples.swap_tx).
  - vm_compute. left. reflexivity.
  - reflexivity.
  - vm_compute. do 5 right. left. reflexivity.
  - reflexivity.
Defined.

(** C10, as stated, fails: the allowance covers the amount, the swap is
    sent and it reverts.  Its receipt has status 0, the confirmation wait
    rejects, and the request is answered 500 with [ok = false] and no
    destination amount. *)
Lemma reverted_swap_is_answered_500 :
  let w := Examples.world (Ok Examples.route) 18703660 (JNum 0) in
  let run := swap Fixture.js (Examples.cfg_of (Some Fixture.W_ADDR)) w
               (Examples.request (JNum 120) [] false) in
  mined w Examples.swap_tx
  = Ok {| blockNumber := JNum 1234; rc_status := JNum 0 |}
  /\ filter (fun c => is_send c || is_wait c) (calls (snd run))
     = [SendTransaction Scenarios.swap_request; TxWait Examples.swap_tx]
  /\ status (fst run) = JNum 500
  /\ get (body (fst run)) "ok" = JBool false
  /\ has_key (body (fst run)) "destAmount" = false
  /\ get (body (fst run)) "details" = JNull.
Proof. vm_compute. repeat split. Qed.

(** C1, on the code: the pricing call fails with a transport error after
    two log entries were recorded, and the response carries [ok], [error]
    and [details] only. *)
Theorem transport_failure_response_has_no_trace :
  let run := swap Fixture.js (Examples.cfg_of None)
               (Examples.world (Throw Examples.network_error) 0 (JNum 1))
               (Examples.request (JNum 120) [] true) in
  fst run
  = {| status := JNum 500;
       body := JObj [("ok", JBool false);
                     ("error", JStr "connect ECONNREFUSED");
                     ("details", JNull)] |}
  /\ List.length (logs (snd run)) = 2%nat
  /\ has_key (body (fst run)) "logs" = false.
Proof. vm_compute. repeat split. Qed.

(** C7, on the code: a slippage of 1.5 basis points passes validation; the
    quote is requested with a slippage of "0.0150" percent and the request
    succeeds. *)
Theorem fractional_slippage_is_accepted :
  let run := swap Fixture.js (Examples.cfg_of None)
               (Examples.world (Ok Examples.route) 0 (JNum 1))
               (Examples.request (JNum 1.5) [] true) in
  slippage_rejected 1.5 = false
  /\ status (fst run) = JNum 200
  /\ map (fun p => get p "slippage") (quote_params_sent (calls (snd run)))
     = [JStr "0.0150"].
Proof. vm_compute. repeat split. Qed.

(** The slippage check at its bounds, and on every whole number of basis
    points from 1 to 2000. *)
Lemma slippage_bounds :
  slippage_rejected 1 = false
  /\ slippage_rejected 2000 = false
  /\ slippage_rejected 0 = true
  /\ slippage_rejected 2001 = true
  /\ slippage_rejected PrimFloat.nan = true
  /\ forallb (fun n => negb (slippage_rejected
                              (PrimFloat.of_uint63 (Uint63.of_Z (Z.of_nat n)))))
             (seq 1 2000) = true.
Proof. vm_compute. repeat split. Qed.

(** * Further properties *)

(** ** Start-up *)

Section Startup.

Local Open Scope float_scope.

Lemma Prim2SF_zero : Prim2SF 0 = S754_zero false.
Proof. reflexivity. Qed.

(** A number above zero is truthy. *)
Lemma positive_truthy x : PrimFloat.ltb 0 x = true -> truthy (JNum x) = true.
Proof.
  intros H. rewrite FloatAxioms.ltb_spec, Prim2SF_zero in H.
  unfold truthy, PrimFloat.is_nan. rewrite !FloatAxioms.eqb_spec, Prim2SF_zero.
  unfold SFltb, SFeqb in *.
  destruct (Prim2SF x) as [s | s | | s m e]; simpl in *; try discriminate;
    destruct s; try discriminate; try reflexivity.
  rewrite Z.compare_refl. fold (Pos.compare m m). rewrite Pos.compare_refl.
  reflexivity.
Qed.

(** A double that compares equal to a finite non-zero one is that double. *)
Lemma eqb_finite_eq k p s m e :
  Prim2SF k = S754_finite s m e -> PrimFloat.eqb k p = true -> p = k.
Proof.
  intros Hk H. rewrite FloatAxioms.eqb_spec, Hk in H. unfold SFeqb in H.
  rewrite <- (SF2Prim_Prim2SF p), <- (SF2Prim_Prim2SF k), Hk. f_equal.
  destruct (Prim2SF p) as [s' | s' | | s' m' e']; simpl in H;
    try (destruct s; discriminate); try (destruct s, s'; discriminate).
  assert (He : e = e' /\ m = m').
  { destruct s, s'; try discriminate;
      destruct (Z.compare e e') eqn:Hc; try discriminate;
      apply Z.compare_eq in Hc; split; auto;
      fold (Pos.compare m m') in H;
      destruct (Pos.compare m m') eqn:Hm; try discriminate;
      now apply Pos.compare_eq in Hm. }
  destruct He as (-> & ->).
  destruct s, s'; try discriminate; reflexivity.
Qed.

Lemma eqb_8080 p : PrimFloat.eqb 8080 p = true -> p = 8080.
Proof. intros H. eapply eqb_finite_eq; [ reflexivity | exact H ]. Qed.

Lemma eqb_3000 p : PrimFloat.eqb 3000 p = true -> p = 3000.
Proof. intros H. eapply eqb_finite_eq; [ reflexivity | exact H ]. Qed.

Lemma same_value_zero_8080 p :
  same_value_zero 8080 p = PrimFloat.eqb 8080 p.
Proof.
  unfold same_value_zero.
  replace (PrimFloat.is_nan 8080) with false by reflexivity.
  now rewrite andb_false_l, orb_false_r.
Qed.

Lemma same_value_zero_3000 p :
  same_value_zero 3000 p = PrimFloat.eqb 3000 p.
Proof.
  unfold same_value_zero.
  replace (PrimFloat.is_nan 3000) with false by reflexivity.
  now rewrite andb_false_l, orb_false_r.
Qed.

Lemma neq_8080_3000 : 8080 <> 3000.
Proof.
  intros H. apply (f_equal (fun x => PrimFloat.eqb x 3000)) in H.
  discriminate H.
Qed.

(** The preferred port is a truthy number, whatever [PORT] holds. *)
Lemma preferred_truthy js env : truthy (JNum (preferred js env)) = true.
Proof.
  unfold preferred.
  destruct (PrimFloat.is_finite (PORT js env)); simpl; [ | reflexivity ].
  destruct (PrimFloat.ltb 0 (PORT js env)) eqn:H; [ | reflexivity ].
  now apply positive_truthy.
Qed.

(** The three forms the candidate list can take. *)
Lemma candidates_cases js env :
  let p := preferred js env in
  (p = 8080 /\ candidates js env = [8080; 3000])
  \/ (p = 3000 /\ candidates js env = [3000; 8080])
  \/ (p <> 8080 /\ p <> 3000 /\ candidates js env = [p; 8080; 3000]).
Proof.
  unfold candidates, Set_spread. simpl.
  rewrite same_value_zero_8080, same_value_zero_3000.
  replace (same_value_zero 3000 8080) with false by reflexivity.
  destruct (PrimFloat.eqb 8080 (preferred js env)) eqn:H1.
  - apply eqb_8080 in H1. rewrite H1 in *. left. split; reflexivity.
  - destruct (PrimFloat.eqb 3000 (preferred js env)) eqn:H2.
    + apply eqb_3000 in H2. rewrite H2 in *. right; left. split; reflexivity.
    + right; right. repeat split.
      * intros E. rewrite E in H1. discriminate H1.
      * intros E. rewrite E in H2. discriminate H2.
Qed.

Lemma candidates_truthy js env :
  Forall (fun p => truthy (JNum p) = true) (candidates js env).
Proof.
  pose proof (preferred_truthy js env) as Hp.
  destruct (candidates_cases js env)
    as [(_ & ->) | [(_ & ->) | (_ & _ & ->)]];
    repeat constructor; assumption.
Qed.

Lemma candidates_NoDup js env :
  NoDup (candidates js env).
Proof.
  pose proof neq_8080_3000 as Hne.
  destruct (candidates_cases js env)
    as [(_ & ->) | [(_ & ->) | (H8 & H3 & ->)]]; cbv zeta in *;
    repeat constructor; simpl; intuition.
Qed.

(** X1. The candidate ports are the preferred port followed by the fallbacks
    8080 and 3000 in that order, the preferred port left out of the
    fallbacks: 8080 then 3000 when the preferred port is 8080, 3000 then
    8080 when it is 3000, and the preferred port, 8080 and 3000 otherwise.
    No port is listed twice and every port is a non-zero number. *)
Theorem candidates_are_distinct_fallbacks js env :
  candidates js env
  = (if PrimFloat.eqb 8080 (preferred js env) then [8080; 3000]
     else if PrimFloat.eqb 3000 (preferred js env) then [3000; 8080]
     else [preferred js env; 8080; 3000])
  /\ hd_error (candidates js env) = Some (preferred js env)
  /\ NoDup (candidates js env)
  /\ Forall (fun p => truthy (JNum p) = true) (candidates js env).
Proof.
  pose proof (candidates_truthy js env) as Ht.
  pose proof (candidates_NoDup js env) as Hnd.
  refine (conj _ (conj _ (conj Hnd Ht))).
  - destruct (candidates_cases js env)
      as [(Hp & ->) | [(Hp & ->) | (H8 & H3 & ->)]]; cbv zeta in *.
    + rewrite Hp. reflexivity.
    + rewrite Hp. reflexivity.
    + destruct (PrimFloat.eqb 8080 (preferred js env)) eqn:E8.
      { apply eqb_8080 in E8. contradiction. }
      destruct (PrimFloat.eqb 3000 (preferred js env)) eqn:E3.
      { apply eqb_3000 in E3. contradiction. }
      reflexivity.
  - destruct (candidates_cases js env)
      as [(Hp & ->) | [(Hp & ->) | (H8 & H3 & ->)]]; cbv zeta in *;
      simpl; congruence.
Qed.

(** The ports tried are an initial part of the list given. *)
Lemma tryListen_prefix listen l :
  exists rest, l = (fst (tryListen listen l) ++ rest)%list.
Proof.
  induction l as [ | p l IH]; [ exists []; reflexivity | ].
  cbn [tryListen]. destruct (negb (truthy (JNum p))); [ now exists (p :: l) | ].
  destruct (listen p) as [ | err | e]; try (now exists l).
  destruct (is_addr_in_use err); [ | now exists l ].
  destruct IH as (rest & IH). destruct (tryListen listen l) as [tried result].
  exists rest. simpl in *. now f_equal.
Qed.

(** X2. Start-up tries the candidates in their order and never a port twice:
    whatever [listen] does, the ports passed to it are an initial part of
    the candidates. *)
Theorem startup_tries_each_candidate_at_most_once js env listen :
  (exists rest,
     candidates js env
     = (fst (startServerWithFallback js env listen) ++ rest)%list)
  /\ NoDup (fst (startServerWithFallback js env listen)).
Proof.
  unfold startServerWithFallback.
  destruct (tryListen_prefix listen (candidates js env)) as (rest & H).
  split; [ now exists rest | ].
  pose proof (candidates_NoDup js env) as Hnd.
  rewrite H in Hnd. now apply NoDup_app_remove_r in Hnd.
Qed.

(** Candidates whose port is in use are passed over, each tried once. *)
Lemma tryListen_skip listen pre rest :
  Forall (fun p => truthy (JNum p) = true) pre ->
  (forall p, In p pre ->
     exists err, listen p = ListenError err /\ is_addr_in_use err = true) ->
  tryListen listen (pre ++ rest)
  = (pre ++ fst (tryListen listen rest), snd (tryListen listen rest))%list.
Proof.
  induction pre as [ | p pre IH]; intros Ht Hbusy.
  - simpl. now destruct (tryListen listen rest).
  - inversion Ht as [ | ? ? Hp Ht']; subst.
    destruct (Hbusy p (or_introl eq_refl)) as (err & Hl & Hc).
    cbn [app tryListen]. rewrite Hp, Hl, Hc. cbn [negb].
    rewrite IH; [ reflexivity | assumption | ].
    intros q Hq. apply Hbusy. now right.
Qed.

(** X3. Start-up passes over the candidates whose port is in use and settles
    on the first one that is not: it serves on it when [listen] succeeds,
    exits with code 1 on any other error without trying a further port,
    and crashes when [listen] throws. *)
Theorem startup_settles_on_first_port_not_in_use
    js env listen pre q post :
  candidates js env = (pre ++ q :: post)%list ->
  (forall p, In p pre ->
     exists err, listen p = ListenError err /\ is_addr_in_use err = true) ->
  (forall err, listen q = ListenError err -> is_addr_in_use err = false) ->
  startServerWithFallback js env listen
  = ((pre ++ [q])%list,
     match listen q with
     | Listening => Serving q
     | ListenError _ => Exited 1
     | ListenThrows e => Crashed e
     end).
Proof.
  intros Hc Hbusy Hq. unfold startServerWithFallback.
  pose proof (candidates_truthy js env) as Ht. rewrite Hc in *.
  apply Forall_app in Ht as (Hpre & Hrest).
  inversion Hrest as [ | ? ? Hqt _]; subst.
  rewrite tryListen_skip by assumption.
  cbn [tryListen]. rewrite Hqt. cbn [negb].
  destruct (listen q) as [ | err | e] eqn:Hl; try reflexivity.
  rewrite (Hq err eq_refl). reflexivity.
Qed.

(** X4. When every candidate port is in use, start-up tries each candidate
    once, in order, and exits with code 1. *)
Theorem startup_exits_when_all_ports_in_use js env listen :
  (forall p, In p (candidates js env) ->
     exists err, listen p = ListenError err /\ is_addr_in_use err = true) ->
  startServerWithFallback js env listen = (candidates js env, Exited 1).
Proof.
  intros Hbusy. unfold startServerWithFallback.
  rewrite <- (app_nil_r (candidates js env)) at 1.
  rewrite tryListen_skip; [ | apply candidates_truthy | assumption ].
  simpl. now rewrite app_nil_r.
Qed.

End Startup.

(** ** Requests: what a run can and cannot do *)

Section Requests.

Context (js : Builtins) (cfg : Config) (w : World).

(** *** What the trace of a request can hold *)

(** X5. In unsigned mode the request never touches the chain: its only
    external calls are the quote and the build, whether or not a signer is
    configured. *)
Theorem unsigned_mode_never_touches_chain reqbody :
  truthy (get reqbody "unsignedOnly") = true ->
  forallb (fun c => is_quote c || is_build c)
          (calls (snd (swap js cfg w reqbody))) = true.
Proof.
  intros Hu. rewrite swap_state.
  destruct (swap_try js cfg w reqbody init) as [r sf] eqn:E. simpl.
  apply swap_trace_shape in E
    as [-> | (rq & s1 & joined & A & B & Hp & _ & _ & -> & HA & HB)];
    [ reflexivity | ].
  apply parse_request_inv in Hp as (_ & Hrq).
  destruct (Hrq rq eq_refl) as (_ & _ & _ & Huo & _). rewrite Hu in Huo.
  destruct HA as [-> | (d & _ & Hf & _)]; [ | congruence ].
  destruct HB as [-> | (d & E & _ & -> & [-> | (Hf & _)])];
    [ reflexivity | reflexivity | congruence ].
Qed.

(** X6. The calls of a request follow the stages, each stage at most once: the
    quote, the allowance read, the approval, the build, the broadcast.
    (The confirmation waits come right after the approval and after the
    broadcast.) *)
Theorem calls_follow_the_stages reqbody :
  increasing
    (map stage_rank
         (filter (fun c => negb (is_wait c))
                 (calls (snd (swap js cfg w reqbody))))) = true.
Proof.
  rewrite swap_state.
  destruct (swap_try js cfg w reqbody init) as [r sf] eqn:E. simpl.
  apply swap_trace_shape in E
    as [-> | (rq & s1 & joined & A & B & _ & _ & _ & -> & HA & HB)];
    [ reflexivity | ].
  destruct HA as [-> | (d & _ & _ & [-> | [-> | (tx & ->)]])];
    (destruct HB
       as [-> | (d' & E & _ & -> &
                 [-> | (_ & req & [-> | (tx' & ->)])])]);
    reflexivity.
Qed.

(** X7. A call to the chain (allowance read, approval, broadcast or wait) only
    happens in signed mode, with a signer configured whose address is the
    request's wallet up to letter case. *)
Theorem chain_calls_require_matching_signer reqbody c :
  In c (calls (snd (swap js cfg w reqbody))) ->
  is_allowance c || is_send c || is_wait c = true ->
  truthy (get reqbody "unsignedOnly") = false
  /\ exists a wa,
       signer cfg = Some a
       /\ getAddress js (get reqbody "wallet") = Some wa
       /\ toLowerCase a = toLowerCase wa.
Proof.
  rewrite swap_state.
  destruct (swap_try js cfg w reqbody init) as [r sf] eqn:E. simpl.
  apply swap_trace_shape in E
    as [-> | (rq & s1 & joined & A & B & Hp & Hs & _ & -> & HA & HB)];
    [ intros [] | ].
  intros Hin Hk.
  apply check_signer_spec in Hs as (_ & Hs).
  apply parse_request_inv in Hp as (_ & Hrq).
  destruct (Hrq rq eq_refl) as (Hwa & _ & _ & Huo & _).
  assert (Hsigned : unsignedOnly rq = false).
  { destruct Hin as [<- | Hin]; [ discriminate | ].
    apply in_app_or in Hin as [Hin | Hin].
    - destruct HA as [-> | (d & _ & Hf & _)]; [ destruct Hin | assumption ].
    - destruct HB as [-> | (d & E & _ & -> & HE)]; [ destruct Hin | ].
      destruct Hin as [<- | Hin]; [ discriminate | ].
      destruct HE as [-> | (Hf & _)]; [ destruct Hin | assumption ]. }
  split; [ congruence | ].
  destruct Hs as [Hs | (a & Ha & Hl)]; [ congruence | ].
  exists a, (wallet rq). auto.
Qed.

(** X8. The allowance is read, and the approval given, for the request's
    source token and wallet and for the transfer proxy of the quote; an
    approval is always for [MaxUint256]. *)
Theorem allowance_calls_target_quoted_proxy reqbody c :
  In c (calls (snd (swap js cfg w reqbody))) ->
  is_allowance c = true ->
  exists tf wa p d,
    getAddress js (get reqbody "tokenFrom") = Some tf
    /\ getAddress js (get reqbody "wallet") = Some wa
    /\ In (PricesGet p) (calls (snd (swap js cfg w reqbody)))
    /\ prices_get w p = Ok d
    /\ (c = AllowanceRead tf wa (quote_field d "tokenTransferProxy")
        \/ c = ApproveSend tf (quote_field d "tokenTransferProxy") MaxUint256).
Proof.
  rewrite swap_state.
  destruct (swap_try js cfg w reqbody init) as [r sf] eqn:E. simpl.
  intros Hin Hk.
  destruct (trace_allowance_calls js cfg w _ _ _ _ E Hin Hk)
    as (rq & s1 & joined & d & Hp & Hj & Hd & Hc).
  apply swap_trace_shape in E
    as [Hnil | (rq' & s1' & joined' & A & B & Hp' & _ & Hj' & Hcalls & _)].
  { rewrite Hnil in Hin. destruct Hin. }
  rewrite Hp in Hp'. inversion Hp'; subst rq' s1'.
  rewrite Hj in Hj'. inversion Hj'; subst joined'.
  apply parse_request_fields in Hp as (Hwa & Htf & _).
  exists (tokenFrom rq), (wallet rq), (pricesParams js cfg rq joined), d.
  repeat (split; [ assumption | ]).
  split; [ rewrite Hcalls; now left | ]. split; assumption.
Qed.

(** *** Validation and the quote *)

(** X9. A quote is only requested for a request that passed every check: the
    three addresses are valid and sent in checksummed form, the amount is a
    string of digits sent as it is, the slippage passed its range check,
    and in signed mode the configured signer is the wallet. *)
Theorem quote_requires_validated_request reqbody p :
  In (PricesGet p) (calls (snd (swap js cfg w reqbody))) ->
  exists amount bps,
    ToString js (or_ (get reqbody "amountWei") (JStr "")) = Ok amount
    /\ ToNumber js (or_ (get reqbody "slippageBps") (JNum 0)) = Ok bps
    /\ (exists wa tf tt_,
          getAddress js (get reqbody "wallet") = Some wa
          /\ getAddress js (get reqbody "tokenFrom") = Some tf
          /\ getAddress js (get reqbody "tokenTo") = Some tt_
          /\ get p "userAddress" = JStr wa
          /\ get p "srcToken" = JStr tf
          /\ get p "destToken" = JStr tt_
          /\ (truthy (get reqbody "unsignedOnly") = true
              \/ exists a, signer cfg = Some a
                           /\ toLowerCase a = toLowerCase wa))
    /\ test_digits amount = true
    /\ get p "amount" = JStr amount
    /\ (forall s, get reqbody "amountWei" = JStr s -> get p "amount" = JStr s)
    /\ slippage_rejected bps = false
    /\ get p "slippage" = JStr (toFixed js (PrimFloat.div bps 100) 4).
Proof.
  intros Hin.
  apply swap_quote_params in Hin as (rq & s1 & joined & Hp & _ & Hs & _ & ->).
  apply check_signer_spec in Hs as (_ & Hs).
  destruct (parse_request_fields _ _ _ _ _ Hp) as (Hwa & Htf & Htt & Ham & Hdig).
  apply parse_request_inv in Hp as (_ & Hrq).
  destruct (Hrq rq eq_refl) as (_ & Hbps & _ & Huo & _ & Hsl).
  exists (amountWei rq), (slippageBps rq).
  simpl. unfold slippage_percent. rewrite <- Huo.
  repeat split; auto.
  - exists (wallet rq), (tokenFrom rq), (tokenTo rq). auto 10.
  - intros s Hs'. rewrite Hs', ToString_amount in Ham. congruence.
Qed.

(** A run that issued no call ended in validation, at the signer check, or
    when the exclusion list was joined. *)
Lemma swap_try_calls_nil reqbody r sf :
  swap_try js cfg w reqbody init = (r, sf) ->
  calls sf = [] ->
  (exists o, parse_request js reqbody init = (o, sf) /\ stopped o r)
  \/ (exists rq s1 x,
        parse_request js reqbody init = (Val rq, s1)
        /\ check_signer cfg rq s1 = (Ret x, sf) /\ r = Ret x)
  \/ (exists rq s1 e,
        parse_request js reqbody init = (Val rq, s1)
        /\ array_join js "," (excludeDexs rq) = Throw e
        /\ r = Thr e).
Proof.
  intros H Hnil.
  apply swap_try_cases in H
    as [? | (rq & s1 & Hp & Hc1 & [(x & Hs & ->) | (Hs & H)])];
    [ now left | right; left; exists rq, s1, x; auto | ].
  destruct H as [(o & Hq & Hst)
                 | (joined & d & s2 & shown & _ & Hq & _ & _ & _ & _ & Hc2 & H)].
  { apply quote_spec in Hq.
    destruct (array_join js "," (excludeDexs rq)) as [joined | e] eqn:Hj.
    - destruct Hq as (Hq & _). rewrite Hnil, Hc1 in Hq. discriminate.
    - destruct Hq as (-> & _). right; right. exists rq, s1, e.
      destruct Hst as [(x & Hx & _) | (e' & He' & ->)]; [ discriminate | ].
      inversion He'; subst e'. auto. }
  exfalso.
  destruct H as [(e & Ha & _) | (s3 & Ha & H)];
    apply approve_step_trace in Ha as (A & Hc3 & _); rewrite Hc2 in Hc3.
  { rewrite Hnil in Hc3. discriminate. }
  destruct H as [(o & Hb & _) | (txData & s4 & Hb & He)];
    apply build_calls in Hb; rewrite Hc3 in Hb.
  { rewrite Hnil in Hb. discriminate. }
  apply execute_trace in He as (E & Hc5 & _).
  rewrite Hb, Hnil in Hc5. discriminate.
Qed.

(** X10. A request that issues no external call is refused: the answer has
    [ok = false], and its status is 400 (body shape, missing fields,
    invalid address, amount, slippage, missing or mismatching signer)
    unless a field of the body has no primitive value; the conversion of
    that field throws, and the answer is the 500 of the [catch] block with
    the message of the [TypeError]. *)
Theorem request_without_calls_is_refused reqbody :
  calls (snd (swap js cfg w reqbody)) = [] ->
  get (body (fst (swap js cfg w reqbody))) "ok" = JBool false
  /\ (status (fst (swap js cfg w reqbody)) = JNum 400
      \/ fst (swap js cfg w reqbody)
         = {| status := JNum 500;
              body := JObj [("ok", JBool false);
                            ("error",
                             JStr "Cannot convert object to primitive value");
                            ("details", JNull)] |}).
Proof.
  destruct (swap_try js cfg w reqbody init) as [r sf] eqn:E.
  rewrite (swap_unfold _ _ _ _ _ _ E). simpl. intros Hnil.
  apply swap_try_calls_nil in E
    as [(o & Hp & [(x & -> & ->) | (e & -> & ->)])
        | [(rq & s1 & x & Hp & Hs & ->) | (rq & s1 & e & Hp & Hj & ->)]];
    try assumption.
  - apply parse_request_stop in Hp as (? & ? & _). auto.
  - apply parse_request_stop in Hp as (_ & [(m & ->) | ->]).
    + split; [ reflexivity | left; reflexivity ].
    + split; [ reflexivity | right; reflexivity ].
  - apply check_signer_spec in Hs as (_ & _ & ? & ? & _). auto.
  - apply array_join_throws in Hj. subst e.
    split; [ reflexivity | right; reflexivity ].
Qed.

(** X11. A response sent from inside the [try] block carries the whole log bag,
    and it is either a 200 with [ok = true] or a 400 with [ok = false]. *)
Theorem explicit_responses_carry_the_log_bag reqbody x sf :
  swap_try js cfg w reqbody init = (Ret x, sf) ->
  swap js cfg w reqbody = (x, sf)
  /\ get (body x) "logs" = logs_value (logs sf)
  /\ ((status x = JNum 200 /\ get (body x) "ok" = JBool true)
      \/ (status x = JNum 400 /\ get (body x) "ok" = JBool false)).
Proof.
  intros H. split; [ exact (swap_unfold _ _ _ _ _ _ H) | ].
  apply swap_try_cases in H
    as [(o & Hp & Hst) | (rq & s1 & Hp & Hc1 & [(y & Hs & Hy) | (Hs & H)])].
  - destruct Hst as [(y & -> & Hy) | (e & _ & Hy)]; [ | discriminate ].
    inversion Hy; subst y.
    apply parse_request_stop in Hp as (? & ? & ?). auto.
  - inversion Hy; subst y.
    apply check_signer_spec in Hs as (-> & _ & ? & ? & ?). auto.
  - destruct H as [(o & Hq & Hst)
                   | (joined & d & s2 & shown & _ & Hq & Hd & _ & _ & Hsh
                      & Hc2 & H)].
    { destruct Hst as [(y & -> & Hy) | (e & _ & Hy)]; [ | discriminate ].
      inversion Hy; subst y.
      apply quote_spec in Hq.
      destruct (array_join js "," (excludeDexs rq));
        [ | destruct Hq; discriminate ].
      destruct Hq as (_ & Hq).
      destruct (prices_get w _); [ | discriminate ].
      destruct (_ || _); [ | destruct (ToString js _); discriminate ].
      inversion Hq; subst x. simpl. auto. }
    destruct H as [(e & _ & Hy) | (s3 & Ha & H)]; [ discriminate | ].
    destruct H as [(o & Hb & Hst) | (txData & s4 & Hb & He)].
    { destruct Hst as [(y & -> & Hy) | (e & _ & Hy)]; [ | discriminate ].
      inversion Hy; subst y.
      apply build_spec in Hb as (_ & Hb).
      destruct (transactions_post w _); [ | discriminate ].
      destruct (_ || _); [ | destruct (ToString js (or_ _ _)); discriminate ].
      inversion Hb; subst x. simpl. auto. }
    apply execute_spec in He. rewrite Hsh in He.
    destruct (unsignedOnly rq).
    { destruct He as (-> & He). inversion He; subst x. simpl. auto. }
    destruct (BigInt js _); [ | destruct He; discriminate ].
    destruct (gasLimit_of js txData); [ | destruct He; discriminate ].
    cbv zeta in He.
    destruct (sendTransaction w _) as [tx | ]; [ | destruct He; discriminate ].
    destruct He as (_ & He).
    destruct (tx_wait w tx) as [rc | ]; [ | discriminate ].
    inversion He; subst x. simpl. auto.
Qed.

(** *** The build and the broadcast *)

(** X12. In signed mode the build is only requested once the allowance is
    settled: the allowance read and the conversion of the amount succeeded,
    and either the allowance covers the amount or an approval was sent and
    its confirmation wait returned. *)
Theorem build_only_after_allowance_settled reqbody b :
  In (TransactionsPost b) (calls (snd (swap js cfg w reqbody))) ->
  truthy (get reqbody "unsignedOnly") = false ->
  exists tf wa p d a amount n,
    getAddress js (get reqbody "tokenFrom") = Some tf
    /\ getAddress js (get reqbody "wallet") = Some wa
    /\ In (PricesGet p) (calls (snd (swap js cfg w reqbody)))
    /\ prices_get w p = Ok d
    /\ erc20_allowance w tf wa (quote_field d "tokenTransferProxy") = Ok a
    /\ ToString js (or_ (get reqbody "amountWei") (JStr "")) = Ok amount
    /\ BigInt js (JStr amount) = Ok n
    /\ (n <= a
        \/ exists tx rc,
             erc20_approve w tf (quote_field d "tokenTransferProxy") MaxUint256
             = Ok tx
             /\ tx_wait w tx = Ok rc).
Proof.
  rewrite swap_state.
  destruct (swap_try js cfg w reqbody init) as [r sf] eqn:E. simpl.
  intros Hin Hu.
  destruct (reached_build js cfg w _ _ _ _ E Hin eq_refl)
    as (rq & s1 & joined & d & shown & s2 & s3 & A & Hp & Hj & Hd & _ & _ & _
        & Hc2 & Ha & Hc3 & HA & Hrest).
  destruct (parse_request_fields _ _ _ _ _ Hp) as (Hwa & Htf & _ & Ham & _).
  apply parse_request_inv in Hp as (_ & Hrq).
  destruct (Hrq rq eq_refl) as (_ & _ & _ & Huo & _). rewrite Hu in Huo.
  assert (Hpg : In (PricesGet (pricesParams js cfg rq joined)) (calls sf)).
  { destruct Hrest as [(o & Hb & _) | (txData & s4 & Hb & He)];
      apply build_calls in Hb.
    - rewrite Hb, Hc3. now left.
    - apply execute_calls in He as (E' & -> & _). rewrite Hb, Hc3. now left. }
  apply approve_step_spec in Ha. rewrite Huo in Ha.
  destruct Ha as (r0 & He & Hr0). apply ensureAllowance_outcome in He.
  exists (tokenFrom rq), (wallet rq), (pricesParams js cfg rq joined), d.
  destruct (erc20_allowance w _ _ _) as [a | e];
    [ | destruct He as (-> & _); discriminate ].
  destruct (BigInt js (JStr (amountWei rq))) as [n | e] eqn:Hn;
    [ | destruct He as (-> & _); discriminate ].
  exists a, (amountWei rq), n.
  repeat (split; [ first [ assumption | reflexivity ] | ]).
  destruct (n <=? a) eqn:Hle; [ left; now apply Z.leb_le | right ].
  destruct (erc20_approve w _ _ _) as [tx | e];
    [ | destruct He as (-> & _); discriminate ].
  destruct He as (_ & He).
  destruct (tx_wait w tx) as [rc | e] eqn:Hw; [ | subst r0; discriminate ].
  exists tx, rc. split; [ reflexivity | assumption ].
Qed.

(** X13. The transaction sent to the chain is the one the build service
    returned: same destination and call data, [value] converted from the
    returned value (0 when there is none), and the returned gas as limit
    when there is one, no limit otherwise. *)
Theorem sent_transaction_is_the_built_one reqbody req :
  In (SendTransaction req) (calls (snd (swap js cfg w reqbody))) ->
  exists b txData,
    In (TransactionsPost b) (calls (snd (swap js cfg w reqbody)))
    /\ transactions_post w b = Ok txData
    /\ truthy (get txData "to") = true
    /\ truthy (get txData "data") = true
    /\ tx_to req = get txData "to"
    /\ tx_data req = get txData "data"
    /\ BigInt js (or_ (get txData "value") (JStr "0")) = Ok (tx_value req)
    /\ gasLimit_of js txData = Ok (tx_gasLimit req).
Proof.
  rewrite swap_state.
  destruct (swap_try js cfg w reqbody init) as [r sf] eqn:E. simpl.
  intros Hin.
  destruct (sent_run js cfg w _ _ _ _ E Hin)
    as (rq & s1 & joined & d & shown & txData & l & _ & _ & _ & _ & _ & Ht
        & Hto & Hdata & Hrto & Hrdata & Hv & Hg & Hrun).
  exists (txBody js cfg rq d), txData.
  split; [ | auto 10 ].
  destruct (sendTransaction w req) as [tx | e].
  - destruct Hrun as (-> & _). apply in_or_app. right. now left.
  - destruct Hrun as (_ & ->). apply in_or_app. right. now left.
Qed.

Lemma allowance_call_not_send c :
  allowance_call c = true -> negb (is_send c) = true.
Proof. destruct c; simpl; intros H; auto; discriminate. Qed.

(** X14. When the build service returns a transaction without [to] or without
    [data], the response is the 400 incomplete-transaction failure with the
    raw answer and the log bag, the build is the last call of the request
    and nothing is broadcast. *)
Theorem incomplete_transaction_is_400_and_not_sent reqbody b txData :
  In (TransactionsPost b) (calls (snd (swap js cfg w reqbody))) ->
  transactions_post w b = Ok txData ->
  truthy (get txData "to") = false \/ truthy (get txData "data") = false ->
  fst (swap js cfg w reqbody)
  = {| status := JNum 400;
       body := failure "ParaSwap não retornou tx completa." [("raw", txData)]
                       (logs (snd (swap js cfg w reqbody))) |}
  /\ (exists l, calls (snd (swap js cfg w reqbody))
                = (l ++ [TransactionsPost b])%list)
  /\ forallb (fun c => negb (is_send c))
             (calls (snd (swap js cfg w reqbody))) = true.
Proof.
  destruct (swap_try js cfg w reqbody init) as [r sf] eqn:E.
  rewrite (swap_unfold _ _ _ _ _ _ E). simpl. intros Hin Ht Hbad.
  destruct (trace_build_body js cfg w _ _ _ _ E Hin)
    as (rq & s1 & joined & d & Hp & Hj & Hd & ->).
  destruct (reached_build js cfg w _ _ _ _ E Hin eq_refl)
    as (rq' & s1' & joined' & d' & shown & s2 & s3 & A & Hp' & Hj' & Hd' & _ & _
        & _ & Hc2 & Ha & Hc3 & HA & Hrest).
  rewrite Hp in Hp'. inversion Hp'; subst rq' s1'.
  rewrite Hj in Hj'. inversion Hj'; subst joined'.
  rewrite Hd in Hd'. inversion Hd'; subst d'.
  assert (Hinc : negb (truthy (get txData "to"))
                 || negb (truthy (get txData "data")) = true).
  { destruct Hbad as [-> | ->]; [ reflexivity | apply orb_true_r ]. }
  destruct Hrest as [(o & Hb & Hst) | (t & s4 & Hb & _)];
    apply build_spec in Hb as (Hc4 & Hb); rewrite Ht, Hinc in Hb;
    [ | discriminate ].
  destruct Hst as [(x & -> & ->) | (e & -> & _)]; [ | discriminate ].
  inversion Hb; subst x. split; [ reflexivity | ]. split.
  - exists (calls s3). assumption.
  - rewrite Hc4, Hc3. simpl. rewrite forallb_app. simpl.
    rewrite andb_true_r. apply forallb_forall. intros c Hc.
    apply allowance_call_not_send. exact (forallb_In _ _ _ HA Hc).
Qed.

(** X15. In signed mode with no signer configured the request issues no
    external call, and once the body passes validation the response is the
    400 failure that asks for a private key or for unsigned mode. *)
Theorem signed_mode_without_signer_stops_early reqbody :
  truthy (get reqbody "unsignedOnly") = false ->
  signer cfg = None ->
  calls (snd (swap js cfg w reqbody)) = []
  /\ forall rq s1,
       parse_request js reqbody init = (Val rq, s1) ->
       swap js cfg w reqbody
       = ({| status := JNum 400;
             body := failure
                       "PRIVATE_KEY não configurada no servidor. Use unsignedOnly=true ou configure PRIVATE_KEY."
                       [] (logs s1) |}, s1).
Proof.
  intros Hu Hsig. unfold swap, swap_try, bind.
  destruct (parse_request js reqbody init) as [[rq | x | e] s1] eqn:Hp;
    destruct (parse_request_inv _ _ _ _ _ Hp) as (Hc1 & Hrq); simpl in Hc1;
    simpl; try (split; [ assumption | discriminate ]).
  destruct (Hrq rq eq_refl) as (_ & _ & _ & Huo & _). rewrite Hu in Huo.
  unfold check_signer. rewrite Huo, Hsig. simpl. run_step.
  split; [ assumption | ].
  intros rq' s1' H'. inversion H'; subst. reflexivity.
Qed.

(** X16. An unsigned request that passes validation, whose exclusion list
    joins, and that gets a quote with both fields and a complete built
    transaction, the quoted amount and the transaction's value having a
    string form, is answered 200 with that transaction, unchanged, and the
    string of the quoted amount; its only calls are the quote and the
    build.  No signer is needed. *)
Theorem unsigned_request_returns_built_transaction
    reqbody rq s1 joined d shown txData value :
  parse_request js reqbody init = (Val rq, s1) ->
  unsignedOnly rq = true ->
  array_join js "," (excludeDexs rq) = Ok joined ->
  prices_get w (pricesParams js cfg rq joined) = Ok d ->
  truthy (quote_field d "destAmount") = true ->
  truthy (quote_field d "tokenTransferProxy") = true ->
  ToString js (quote_field d "destAmount") = Ok shown ->
  transactions_post w (txBody js cfg rq d) = Ok txData ->
  truthy (get txData "to") = true ->
  truthy (get txData "data") = true ->
  ToString js (or_ (get txData "value") (JStr "0")) = Ok value ->
  fst (swap js cfg w reqbody)
  = {| status := JNum 200;
       body := JObj [("ok", JBool true);
                     ("mode", JStr "unsignedOnly");
                     ("txData", txData);
                     ("destAmount", JStr shown);
                     ("logs",
                      logs_value (logs (snd (swap js cfg w reqbody))))] |}
  /\ calls (snd (swap js cfg w reqbody))
     = [PricesGet (pricesParams js cfg rq joined);
        TransactionsPost (txBody js cfg rq d)].
Proof.
  intros Hp Hu Hj Hd Hda Hpx Hsh Ht Hto Hdata Hv.
  destruct (parse_request_inv _ _ _ _ _ Hp) as (Hc1 & _). simpl in Hc1.
  unfold swap, swap_try, bind. rewrite Hp.
  unfold check_signer. rewrite Hu. simpl. run_step.
  unfold quote. run_step. rewrite Hj. run_step. rewrite Hd. run_step.
  rewrite Hda, Hpx. simpl. rewrite Hsh. run_step.
  unfold approve_step. rewrite Hu. simpl. run_step.
  unfold build. run_step. rewrite Ht. run_step. rewrite Hto, Hdata. simpl.
  rewrite Hv. run_step.
  unfold execute. rewrite Hu. run_step. rewrite Hsh. run_step.
  rewrite Hc1. split; reflexivity.
Qed.

(** *** Failing fast *)

Lemma answered_not_thrown c e : answered w c -> thrown_by w c e -> False.
Proof. destruct c; simpl; intros (x & Hx) He; congruence. Qed.

Lemma thrown_by_functional c e e' :
  thrown_by w c e -> thrown_by w c e' -> e = e'.
Proof. destruct c; simpl; intros H H'; congruence. Qed.

Lemma split_at_last {A} (l : list A) c rest l0 c0 :
  (l ++ c :: rest = l0 ++ [c0])%list ->
  (rest = [] /\ l = l0 /\ c = c0) \/ In c l0.
Proof.
  intros H. destruct (exists_last (l := c :: rest)) as (m & x & Hm);
    [ discriminate | ].
  destruct rest as [ | y rest'].
  - left. apply app_inj_tail in H as (-> & ->). auto.
  - right. rewrite Hm, app_assoc in H. apply app_inj_tail in H as (<- & _).
    destruct m as [ | c' m']; [ discriminate | ].
    inversion Hm; subst c'. apply in_or_app. right. now left.
Qed.

Ltac answered_all :=
  repeat (apply Forall_app; split); try assumption;
  repeat constructor; simpl; eauto.

Lemma quote_fails_fast rq s r s' :
  Forall (answered w) (calls s) ->
  quote js cfg w rq s = (r, s') ->
  Forall (answered w) (calls s') \/ failed_at_last_call w r (calls s').
Proof.
  intros Hs H. apply quote_spec in H.
  destruct (array_join js "," (excludeDexs rq)) as [joined | e0].
  2: { destruct H as (_ & ->). now left. }
  destruct H as (-> & H).
  destruct (prices_get w (pricesParams js cfg rq joined)) as [d | e] eqn:Hd.
  - left. answered_all.
  - right. exists (calls s), (PricesGet (pricesParams js cfg rq joined)), e.
    auto.
Qed.

Lemma approve_step_fails_fast rq proxy s r s' :
  Forall (answered w) (calls s) ->
  approve_step js w rq proxy s = (r, s') ->
  Forall (answered w) (calls s') \/ failed_at_last_call w r (calls s').
Proof.
  intros Hs H. apply approve_step_spec in H.
  destruct (unsignedOnly rq); [ destruct H as (_ & ->); now left | ].
  destruct H as (r0 & He & Hr). apply ensureAllowance_outcome in He.
  destruct (erc20_allowance w _ _ _) as [a | e] eqn:Hal.
  2: { destruct He as (-> & ->). right.
       exists (calls s), (AllowanceRead (tokenFrom rq) (wallet rq) proxy), e.
       auto. }
  destruct (BigInt js _) as [n | e].
  2: { destruct He as (_ & ->). left. answered_all. }
  destruct (n <=? a).
  { destruct He as (_ & ->). left. answered_all. }
  destruct (erc20_approve w _ _ _) as [tx | e] eqn:Hap.
  2: { destruct He as (-> & ->). right.
       exists (calls s ++ [AllowanceRead (tokenFrom rq) (wallet rq) proxy])%list,
              (ApproveSend (tokenFrom rq) proxy MaxUint256), e.
       rewrite <- app_assoc. repeat split; auto. answered_all. }
  destruct He as (-> & He).
  destruct (tx_wait w tx) as [rc | e] eqn:Hw.
  - left. answered_all.
  - subst r0. right.
    exists (calls s ++ [AllowanceRead (tokenFrom rq) (wallet rq) proxy;
                        ApproveSend (tokenFrom rq) proxy MaxUint256])%list,
           (TxWait tx), e.
    rewrite <- app_assoc. repeat split; auto. answered_all.
Qed.

Lemma build_fails_fast rq d s r s' :
  Forall (answered w) (calls s) ->
  build js cfg w rq d s = (r, s') ->
  Forall (answered w) (calls s') \/ failed_at_last_call w r (calls s').
Proof.
  intros Hs H. apply build_spec in H as (-> & H).
  destruct (transactions_post w (txBody js cfg rq d)) as [t | e] eqn:Ht.
  - left. answered_all.
  - right. exists (calls s), (TransactionsPost (txBody js cfg rq d)), e. auto.
Qed.

Lemma execute_fails_fast rq txData destAmount s r s' :
  Forall (answered w) (calls s) ->
  execute js w rq txData destAmount s = (r, s') ->
  Forall (answered w) (calls s') \/ failed_at_last_call w r (calls s').
Proof.
  intros Hs H. apply execute_spec in H.
  destruct (unsignedOnly rq); [ destruct H as (-> & _); now left | ].
  destruct (BigInt js _) as [v | e]; [ | destruct H as (_ & ->); now left ].
  destruct (gasLimit_of js txData) as [limit | e];
    [ | destruct H as (_ & ->); now left ].
  cbv zeta in H.
  destruct (sendTransaction w _) as [tx | e] eqn:Hsend.
  2: { destruct H as (-> & ->). right. eexists (calls s), _, e. auto. }
  destruct H as (-> & H).
  destruct (tx_wait w tx) as [rc | e] eqn:Hw.
  - left. answered_all.
  - right. eexists (calls s ++ [_])%list, (TxWait tx), e.
    rewrite <- app_assoc. repeat split; auto. answered_all.
Qed.

(** Whatever a request does, its calls were all answered, or they were all
    answered but the last, whose failure ended the run. *)
Lemma swap_try_fails_fast reqbody r sf :
  swap_try js cfg w reqbody init = (r, sf) ->
  Forall (answered w) (calls sf) \/ failed_at_last_call w r (calls sf).
Proof.
  intros H.
  apply swap_try_cases in H
    as [(o & Hp & _) | (rq & s1 & Hp & Hc1 & [(x & Hs & _) | (Hs & H)])].
  - left. apply parse_request_inv in Hp as (-> & _). constructor.
  - left. apply check_signer_spec in Hs as (-> & _). rewrite Hc1. constructor.
  - assert (H1 : Forall (answered w) (calls s1)) by (rewrite Hc1; constructor).
    destruct H as [(o & Hq & Hst)
                   | (joined & d & s2 & shown & _ & Hq & Hd & _ & _ & _ & Hc2
                      & H)].
    { destruct (quote_fails_fast _ _ _ _ H1 Hq)
        as [? | (l0 & c & e & ? & ? & ? & ->)]; [ now left | right ].
      destruct Hst as [(x & Hx & _) | (e' & He' & ->)]; [ discriminate | ].
      inversion He'; subst e'. exists l0, c, e. auto. }
    assert (H2 : Forall (answered w) (calls s2)).
    { destruct (quote_fails_fast _ _ _ _ H1 Hq)
        as [? | (l0 & c & e & _ & _ & _ & ?)]; [ assumption | discriminate ]. }
    destruct H as [(e & Ha & ->) | (s3 & Ha & H)].
    { destruct (approve_step_fails_fast _ _ _ _ _ H2 Ha)
        as [? | (l0 & c & e' & ? & ? & ? & He')]; [ now left | right ].
      inversion He'; subst e'. exists l0, c, e. auto. }
    assert (H3 : Forall (answered w) (calls s3)).
    { destruct (approve_step_fails_fast _ _ _ _ _ H2 Ha)
        as [? | (l0 & c & e & _ & _ & _ & ?)]; [ assumption | discriminate ]. }
    destruct H as [(o & Hb & Hst) | (txData & s4 & Hb & He)].
    { destruct (build_fails_fast _ _ _ _ _ H3 Hb)
        as [? | (l0 & c & e & ? & ? & ? & ->)]; [ now left | right ].
      destruct Hst as [(x & Hx & _) | (e' & He' & ->)]; [ discriminate | ].
      inversion He'; subst e'. exists l0, c, e. auto. }
    assert (H4 : Forall (answered w) (calls s4)).
    { destruct (build_fails_fast _ _ _ _ _ H3 Hb)
        as [? | (l0 & c & e & _ & _ & _ & ?)]; [ assumption | discriminate ]. }
    exact (execute_fails_fast _ _ _ _ _ _ H4 He).
Qed.

(** X17. A failed external call ends the request: when the world answers a call
    of the trace by throwing, that call is the last one (nothing is retried
    and no later step runs), every call before it was answered, and the
    response is the one the [catch] block builds from the thrown value. *)
Theorem failed_call_ends_the_request reqbody l c rest e :
  calls (snd (swap js cfg w reqbody)) = (l ++ c :: rest)%list ->
  thrown_by w c e ->
  rest = []
  /\ Forall (answered w) l
  /\ fst (swap js cfg w reqbody) = catch_handler e.
Proof.
  destruct (swap_try js cfg w reqbody init) as [r sf] eqn:E.
  rewrite (swap_unfold _ _ _ _ _ _ E). simpl. intros Hc Ht.
  apply swap_try_fails_fast in E
    as [Hall | (l0 & c0 & e0 & Hl & Hl0 & Ht0 & ->)].
  - exfalso. rewrite Hc in Hall. apply Forall_app in Hall as (_ & Hall).
    inversion Hall; subst. eapply answered_not_thrown; eassumption.
  - rewrite Hc in Hl. apply split_at_last in Hl as [(-> & -> & ->) | Hin].
    + rewrite (thrown_by_functional _ _ _ Ht Ht0). auto.
    + exfalso. rewrite Forall_forall in Hl0.
      eapply answered_not_thrown; [ apply Hl0 | ]; eassumption.
Qed.

(** *** Malformed requests *)

(** X18. A JSON object that lacks required fields (absent, [null] or the empty
    string) is answered 400 with a message that lists every missing field,
    in the order wallet, tokenFrom, tokenTo, amountWei, slippageBps; the
    answer comes from the [catch] block and nothing was logged or called. *)
Theorem missing_fields_are_listed props :
  let reqbody := JObj props in
  let missing := filter (fun k => is_missing (get reqbody k)) requiredFields in
  missing <> [] ->
  swap js cfg w reqbody
  = ({| status := JNum 400;
        body := JObj [("ok", JBool false);
                      ("error",
                       JStr ("Campos obrigatórios ausentes: "
                             ++ join ", " missing));
                      ("details", JNull)] |}, init).
Proof.
  intros reqbody missing Hm. unfold swap, swap_try, bind, parse_request.
  fold reqbody. fold missing.
  change (negb (truthy reqbody) || negb (typeof_object reqbody)
          || isArray reqbody) with false. cbv iota.
  destruct missing as [ | k rest]; [ now elim Hm | ].
  reflexivity.
Qed.

(** X19. With all required fields present, the first of wallet, tokenFrom and
    tokenTo that is not a valid address decides the answer, and nothing is
    logged or called: when the value received has a string form, the
    answer is the 400 that names the field and shows that string; when it
    has none (an object with a [toString] key of its own, or an array
    that holds one), the message itself cannot be built and the answer is
    the 500 of the [catch] block for the [TypeError]. *)
Theorem invalid_address_names_the_field props name :
  let reqbody := JObj props in
  filter (fun k => is_missing (get reqbody k)) requiredFields = [] ->
  find (fun k => match getAddress js (get reqbody k) with
                 | None => true
                 | Some _ => false
                 end) ["wallet"; "tokenFrom"; "tokenTo"] = Some name ->
  swap js cfg w reqbody
  = (match ToString js (get reqbody name) with
     | Ok shown =>
         {| status := JNum 400;
            body := JObj [("ok", JBool false);
                          ("error",
                           JStr ("Endereço inválido em " ++ name ++ ": "
                                 ++ shown));
                          ("details", JNull)] |}
     | Throw _ =>
         {| status := JNum 500;
            body := JObj [("ok", JBool false);
                          ("error",
                           JStr "Cannot convert object to primitive value");
                          ("details", JNull)] |}
     end, init).
Proof.
  intros reqbody Hm Hfind. unfold swap, swap_try, bind, parse_request.
  fold reqbody. rewrite Hm.
  change (negb (truthy reqbody) || negb (typeof_object reqbody)
          || isArray reqbody) with false. cbv iota.
  change (0 <? List.length (@nil string))%nat with false. cbv iota.
  assert (Hend : forall k,
    catch_handler
      match ToString js (get reqbody k) with
      | Ok shown => badRequest ("Endereço inválido em " ++ k ++ ": " ++ shown)
      | Throw _ => cannot_convert
      end
    = match ToString js (get reqbody k) with
      | Ok shown =>
          {| status := JNum 400;
             body := JObj [("ok", JBool false);
                           ("error",
                            JStr ("Endereço inválido em " ++ k ++ ": "
                                  ++ shown));
                           ("details", JNull)] |}
      | Throw _ =>
          {| status := JNum 500;
             body := JObj [("ok", JBool false);
                           ("error",
                            JStr "Cannot convert object to primitive value");
                           ("details", JNull)] |}
      end).
  { intros k. destruct (ToString js (get reqbody k)); reflexivity. }
  cbn [find] in Hfind. unfold bind.
  destruct (getAddress js (get reqbody "wallet")) as [a1 | ] eqn:H1.
  2: { inversion Hfind; subst name.
       rewrite (assertAddr_refused js _ _ _ H1), <- Hend. reflexivity. }
  rewrite (assertAddr_accepted js _ _ _ _ H1).
  destruct (getAddress js (get reqbody "tokenFrom")) as [a2 | ] eqn:H2.
  2: { inversion Hfind; subst name.
       rewrite (assertAddr_refused js _ _ _ H2), <- Hend. reflexivity. }
  rewrite (assertAddr_accepted js _ _ _ _ H2).
  destruct (getAddress js (get reqbody "tokenTo")) as [a3 | ] eqn:H3;
    [ discriminate | ].
  inversion Hfind; subst name.
  rewrite (assertAddr_refused js _ _ _ H3), <- Hend. reflexivity.
Qed.

End Requests.

(** ** The slippage percentage *)

(** X20. For a whole number of basis points from 1 to 2000, the percentage
    string sent to the pricing service is the exact decimal value of
    [slippageBps / 100] with four decimals: the division and [toFixed(4)]
    lose nothing. *)
Theorem slippage_percent_is_exact js n :
  1 <= n <= 2000 ->
  toFixed js (PrimFloat.div (Fixture.float_of_Z n) 100) 4
  = fixed_digits (Z.to_N (100 * n)) 4.
Proof.
  intros Hn.
  assert (Hall :
    forallb (fun k =>
               (toFixed js (PrimFloat.div (Fixture.float_of_Z (Z.of_nat k)) 100) 4
                =? fixed_digits (Z.to_N (100 * Z.of_nat k)) 4)%string)
            (seq 1 2000) = true).
  { vm_compute. reflexivity. }
  rewrite forallb_forall in Hall.
  specialize (Hall (Z.to_nat n)).
  rewrite Z2Nat.id in Hall by lia.
  apply String.eqb_eq, Hall, in_seq. lia.
Qed.

(** ** The further properties at concrete inputs *)

(** [PORT=8080] with port 8080 taken: the server ends on 3000. *)
Lemma startup_settles_on_first_port_not_in_use_witness :
  startServerWithFallback Fixture.js (Some "8080") Scenarios.only_8080_taken
  = ([8080%float; 3000%float], Serving 3000).
Proof.
  apply (startup_settles_on_first_port_not_in_use Fixture.js (Some "8080")
           Scenarios.only_8080_taken [8080%float] 3000%float []).
  - reflexivity.
  - intros p [<- | []]. exists Scenarios.in_use. split; reflexivity.
  - intros err H. vm_compute in H. discriminate H.
Defined.

(** [PORT] unset with every port taken. *)
Lemma startup_exits_when_all_ports_in_use_witness :
  startServerWithFallback Fixture.js None Scenarios.all_taken
  = (candidates Fixture.js None, Exited 1).
Proof.
  apply (startup_exits_when_all_ports_in_use Fixture.js None Scenarios.all_taken).
  intros p _. exists Scenarios.in_use. split; reflexivity.
Defined.

(** The unsigned request of the API document on a server with a signer. *)
Lemma unsigned_mode_never_touches_chain_witness :
  forallb (fun c => is_quote c || is_build c)
          (calls (snd (swap Fixture.js (Examples.cfg_of (Some Fixture.W_ADDR))
                         (Examples.world (Ok Examples.route) 0 (JNum 1))
                         (Examples.request (JNum 120) [] true)))) = true.
Proof.
  apply (unsigned_mode_never_touches_chain Fixture.js
           (Examples.cfg_of (Some Fixture.W_ADDR))
           (Examples.world (Ok Examples.route) 0 (JNum 1))
           (Examples.request (JNum 120) [] true)).
  reflexivity.
Defined.

(** The allowance read of a signed request. *)
Lemma chain_calls_require_matching_signer_witness :
  let reqbody := Examples.request (JNum 120) [] false in
  truthy (get reqbody "unsignedOnly") = false
  /\ exists a wa,
       signer (Examples.cfg_of (Some Fixture.W_ADDR)) = Some a
       /\ getAddress Fixture.js (get reqbody "wallet") = Some wa
       /\ toLowerCase a = toLowerCase wa.
Proof.
  apply (chain_calls_require_matching_signer Fixture.js
           (Examples.cfg_of (Some Fixture.W_ADDR))
           (Examples.world (Ok Examples.route) 0 (JNum 1))
           (Examples.request (JNum 120) [] false)
           (AllowanceRead Fixture.USDT Fixture.W_ADDR (JStr Fixture.PROXY))).
  - vm_compute. right. left. reflexivity.
  - reflexivity.
Defined.

(** The approval of a signed request with no allowance yet. *)
Lemma allowance_calls_target_quoted_proxy_witness :
  let cfg := Examples.cfg_of (Some Fixture.W_ADDR) in
  let w := Examples.world (Ok Examples.route) 0 (JNum 1) in
  let reqbody := Examples.request (JNum 120) [] false in
  let c := ApproveSend Fixture.USDT (JStr Fixture.PROXY) MaxUint256 in
  exists tf wa p d,
    getAddress Fixture.js (get reqbody "tokenFrom") = Some tf
    /\ getAddress Fixture.js (get reqbody "wallet") = Some wa
    /\ In (PricesGet p) (calls (snd (swap Fixture.js cfg w reqbody)))
    /\ prices_get w p = Ok d
    /\ (c = AllowanceRead tf wa (quote_field d "tokenTransferProxy")
        \/ c = ApproveSend tf (quote_field d "tokenTransferProxy") MaxUint256).
Proof.
  apply (allowance_calls_target_quoted_proxy Fixture.js
           (Examples.cfg_of (Some Fixture.W_ADDR))
           (Examples.world (Ok Examples.route) 0 (JNum 1))
           (Examples.request (JNum 120) [] false)
           (ApproveSend Fixture.USDT (JStr Fixture.PROXY) MaxUint256)).
  - vm_compute. do 2 right. left. reflexivity.
  - reflexivity.
Defined.

(** The quote call of the unsigned request of the API document. *)
Lemma quote_requires_validated_request_witness :
  let cfg := Examples.cfg_of None in
  let reqbody := Examples.request (JNum 120) [] true in
  let p := pricesParams Fixture.js cfg (Examples.coerced 120 [] true) "" in
  exists amount bps,
    ToString Fixture.js (or_ (get reqbody "amountWei") (JStr "")) = Ok amount
    /\ ToNumber Fixture.js (or_ (get reqbody "slippageBps") (JNum 0)) = Ok bps
    /\ (exists wa tf tt_,
          getAddress Fixture.js (get reqbody "wallet") = Some wa
          /\ getAddress Fixture.js (get reqbody "tokenFrom") = Some tf
          /\ getAddress Fixture.js (get reqbody "tokenTo") = Some tt_
          /\ get p "userAddress" = JStr wa
          /\ get p "srcToken" = JStr tf
          /\ get p "destToken" = JStr tt_
          /\ (truthy (get reqbody "unsignedOnly") = true
              \/ exists a, signer cfg = Some a
                           /\ toLowerCase a = toLowerCase wa))
    /\ test_digits amount = true
    /\ get p "amount" = JStr amount
    /\ (forall s, get reqbody "amountWei" = JStr s -> get p "amount" = JStr s)
    /\ slippage_rejected bps = false
    /\ get p "slippage" = JStr (toFixed Fixture.js (PrimFloat.div bps 100) 4).
Proof.
  apply (quote_requires_validated_request Fixture.js (Examples.cfg_of None)
           (Examples.world (Ok Examples.route) 0 (JNum 1))
           (Examples.request (JNum 120) [] true)
           (pricesParams Fixture.js (Examples.cfg_of None)
                         (Examples.coerced 120 [] true) "")).
  vm_compute. left. reflexivity.
Defined.

(** A body that is a JSON array. *)
Lemma request_without_calls_is_refused_witness :
  let run := swap Fixture.js (Examples.cfg_of None)
               (Examples.world (Ok Examples.route) 0 (JNum 1)) (JArr []) in
  get (body (fst run)) "ok" = JBool false
  /\ (status (fst run) = JNum 400
      \/ fst run
         = {| status := JNum 500;
              body := JObj [("ok", JBool false);
                            ("error",
                             JStr "Cannot convert object to primitive value");
                            ("details", JNull)] |}).
Proof.
  apply (request_without_calls_is_refused Fixture.js
           (Examples.cfg_of None)
           (Examples.world (Ok Examples.route) 0 (JNum 1)) (JArr [])).
  reflexivity.
Defined.

(** The no-route answer to a quote that is an empty object. *)
Lemma explicit_responses_carry_the_log_bag_witness :
  let cfg := Examples.cfg_of None in
  let w := Examples.world (Ok (JObj [])) 0 (JNum 1) in
  let reqbody := Examples.request (JNum 120) [] true in
  let x := fst (swap Fixture.js cfg w reqbody) in
  let sf := snd (swap Fixture.js cfg w reqbody) in
  swap Fixture.js cfg w reqbody = (x, sf)
  /\ get (body x) "logs" = logs_value (logs sf)
  /\ ((status x = JNum 200 /\ get (body x) "ok" = JBool true)
      \/ (status x = JNum 400 /\ get (body x) "ok" = JBool false)).
Proof.
  apply (explicit_responses_carry_the_log_bag Fixture.js (Examples.cfg_of None)
           (Examples.world (Ok (JObj [])) 0 (JNum 1))
           (Examples.request (JNum 120) [] true)).
  vm_compute. reflexivity.
Defined.

(** A signed request with no allowance yet: the approval is confirmed
    before the build. *)
Lemma build_only_after_allowance_settled_witness :
  let cfg := Examples.cfg_of (Some Fixture.W_ADDR) in
  let w := Examples.world (Ok Examples.route) 0 (JNum 1) in
  let reqbody := Examples.request (JNum 120) [] false in
  exists tf wa p d a amount n,
    getAddress Fixture.js (get reqbody "tokenFrom") = Some tf
    /\ getAddress Fixture.js (get reqbody "wallet") = Some wa
    /\ In (PricesGet p) (calls (snd (swap Fixture.js cfg w reqbody)))
    /\ prices_get w p = Ok d
    /\ erc20_allowance w tf wa (quote_field d "tokenTransferProxy") = Ok a
    /\ ToString Fixture.js (or_ (get reqbody "amountWei") (JStr "")) = Ok amount
    /\ BigInt Fixture.js (JStr amount) = Ok n
    /\ (n <= a
        \/ exists tx rc,
             erc20_approve w tf (quote_field d "tokenTransferProxy") MaxUint256
             = Ok tx
             /\ tx_wait w tx = Ok rc).
Proof.
  apply (build_only_after_allowance_settled Fixture.js
           (Examples.cfg_of (Some Fixture.W_ADDR))
           (Examples.world (Ok Examples.route) 0 (JNum 1))
           (Examples.request (JNum 120) [] false)
           (txBody Fixture.js (Examples.cfg_of (Some Fixture.W_ADDR))
                   (Examples.coerced 120 [] false) Examples.route)).
  - vm_compute. do 4 right. left. reflexivity.
  - reflexivity.
Defined.

(** The broadcast of a signed request. *)
Lemma sent_transaction_is_the_built_one_witness :
  let cfg := Examples.cfg_of (Some Fixture.W_ADDR) in
  let w := Examples.world (Ok Examples.route) 0 (JNum 1) in
  let reqbody := Examples.request (JNum 120) [] false in
  let req := Scenarios.swap_request in
  exists b txData,
    In (TransactionsPost b) (calls (snd (swap Fixture.js cfg w reqbody)))
    /\ transactions_post w b = Ok txData
    /\ truthy (get txData "to") = true
    /\ truthy (get txData "data") = true
    /\ tx_to req = get txData "to"
    /\ tx_data req = get txData "data"
    /\ BigInt Fixture.js (or_ (get txData "value") (JStr "0")) = Ok (tx_value req)
    /\ gasLimit_of Fixture.js txData = Ok (tx_gasLimit req).
Proof.
  apply (sent_transaction_is_the_built_one Fixture.js
           (Examples.cfg_of (Some Fixture.W_ADDR))
           (Examples.world (Ok Examples.route) 0 (JNum 1))
           (Examples.request (JNum 120) [] false)
           Scenarios.swap_request).
  vm_compute. do 5 right. left. reflexivity.
Defined.

(** The build service answers with a destination and no call data. *)
Lemma incomplete_transaction_is_400_and_not_sent_witness :
  let cfg := Examples.cfg_of (Some Fixture.W_ADDR) in
  let w := Scenarios.build_incomplete in
  let reqbody := Examples.request (JNum 120) [] false in
  let b := txBody Fixture.js cfg (Examples.coerced 120 [] false) Examples.route in
  let txData := JObj [("to", JStr Examples.AUGUSTUS)] in
  fst (swap Fixture.js cfg w reqbody)
  = {| status := JNum 400;
       body := failure "ParaSwap não retornou tx completa." [("raw", txData)]
                       (logs (snd (swap Fixture.js cfg w reqbody))) |}
  /\ (exists l, calls (snd (swap Fixture.js cfg w reqbody))
                = (l ++ [TransactionsPost b])%list)
  /\ forallb (fun c => negb (is_send c))
             (calls (snd (swap Fixture.js cfg w reqbody))) = true.
Proof.
  apply (incomplete_transaction_is_400_and_not_sent Fixture.js
           (Examples.cfg_of (Some Fixture.W_ADDR)) Scenarios.build_incomplete
           (Examples.request (JNum 120) [] false)
           (txBody Fixture.js (Examples.cfg_of (Some Fixture.W_ADDR))
                   (Examples.coerced 120 [] false) Examples.route)
           (JObj [("to", JStr Examples.AUGUSTUS)])).
  - vm_compute. do 4 right. left. reflexivity.
  - reflexivity.
  - right. reflexivity.
Defined.

(** A signed request on a server without a private key. *)
Lemma signed_mode_without_signer_stops_early_witness :
  let cfg := Examples.cfg_of None in
  let w := Examples.world (Ok Examples.route) 0 (JNum 1) in
  let reqbody := Examples.request (JNum 120) [] false in
  calls (snd (swap Fixture.js cfg w reqbody)) = []
  /\ forall rq s1,
       parse_request Fixture.js reqbody init = (Val rq, s1) ->
       swap Fixture.js cfg w reqbody
       = ({| status := JNum 400;
             body := failure
                       "PRIVATE_KEY não configurada no servidor. Use unsignedOnly=true ou configure PRIVATE_KEY."
                       [] (logs s1) |}, s1).
Proof.
  apply (signed_mode_without_signer_stops_early Fixture.js
           (Examples.cfg_of None)
           (Examples.world (Ok Examples.route) 0 (JNum 1))
           (Examples.request (JNum 120) [] false)).
  - reflexivity.
  - reflexivity.
Defined.

(** The unsigned request of the API document on a server without a private
    key. *)
Lemma unsigned_request_returns_built_transaction_witness :
  let cfg := Examples.cfg_of None in
  let w := Examples.world (Ok Examples.two_level_route) 0 (JNum 1) in
  let reqbody := Examples.request (JNum 120) [] true in
  let rq := Examples.coerced 120 [] true in
  fst (swap Fixture.js cfg w reqbody)
  = {| status := JNum 200;
       body := JObj [("ok", JBool true);
                     ("mode", JStr "unsignedOnly");
                     ("txData", Examples.built_tx);
                     ("destAmount", JStr "27480");
                     ("logs",
                      logs_value (logs (snd (swap Fixture.js cfg w reqbody))))] |}
  /\ calls (snd (swap Fixture.js cfg w reqbody))
     = [PricesGet (pricesParams Fixture.js cfg rq "");
        TransactionsPost (txBody Fixture.js cfg rq Examples.two_level_route)].
Proof.
  apply (unsigned_request_returns_built_transaction Fixture.js
           (Examples.cfg_of None)
           (Examples.world (Ok Examples.two_level_route) 0 (JNum 1))
           (Examples.request (JNum 120) [] true)
           (Examples.coerced 120 [] true)
           (snd (parse_request Fixture.js
                   (Examples.request (JNum 120) [] true) init))
           "" Examples.two_level_route "27480" Examples.built_tx "0").
  - vm_compute. reflexivity.
  - reflexivity.
  - reflexivity.
  - reflexivity.
  - reflexivity.
  - reflexivity.
  - reflexivity.
  - reflexivity.
  - reflexivity.
  - reflexivity.
  - reflexivity.
Defined.

(** The approval is confirmed, then the broadcast is refused: the refused
    broadcast is the last call, and the approval stays in the trace. *)
Lemma failed_call_ends_the_request_witness :
  let cfg := Examples.cfg_of (Some Fixture.W_ADDR) in
  let w := Scenarios.broadcast_refused in
  let run := swap Fixture.js cfg w (Examples.request (JNum 120) [] false) in
  @nil Call = []
  /\ Forall (answered w) (removelast (calls (snd run)))
  /\ fst run = catch_handler (JObj [("message", JStr "insufficient funds")]).
Proof.
  apply (failed_call_ends_the_request Fixture.js
           (Examples.cfg_of (Some Fixture.W_ADDR)) Scenarios.broadcast_refused
           (Examples.request (JNum 120) [] false)
           (removelast
              (calls (snd (swap Fixture.js
                             (Examples.cfg_of (Some Fixture.W_ADDR))
                             Scenarios.broadcast_refused
                             (Examples.request (JNum 120) [] false)))))
           (SendTransaction Scenarios.swap_request) []).
  - vm_compute. reflexivity.
  - reflexivity.
Defined.

(** A body with a wallet only. *)
Lemma missing_fields_are_listed_witness :
  let props := [("wallet", JStr Fixture.W_ADDR)] in
  swap Fixture.js (Examples.cfg_of None)
       (Examples.world (Ok Examples.route) 0 (JNum 1)) (JObj props)
  = ({| status := JNum 400;
        body := JObj [("ok", JBool false);
                      ("error",
                       JStr ("Campos obrigatórios ausentes: "
                             ++ join ", " ["tokenFrom"; "tokenTo";
                                           "amountWei"; "slippageBps"]));
                      ("details", JNull)] |}, init).
Proof.
  apply (missing_fields_are_listed Fixture.js (Examples.cfg_of None)
           (Examples.world (Ok Examples.route) 0 (JNum 1))
           [("wallet", JStr Fixture.W_ADDR)]).
  vm_compute. discriminate.
Defined.

(** A source token that is not an address. *)
Lemma invalid_address_names_the_field_witness :
  let props := [("wallet", JStr Fixture.W_ADDR);
                ("tokenFrom", JStr "0x123");
                ("tokenTo", JStr Fixture.WBTC);
                ("amountWei", JStr "18703660");
                ("slippageBps", JNum 120)] in
  swap Fixture.js (Examples.cfg_of None)
       (Examples.world (Ok Examples.route) 0 (JNum 1)) (JObj props)
  = ({| status := JNum 400;
        body := JObj [("ok", JBool false);
                      ("error",
                       JStr ("Endereço inválido em " ++ "tokenFrom" ++ ": "
                             ++ "0x123"));
                      ("details", JNull)] |}, init).
Proof.
  apply (invalid_address_names_the_field Fixture.js (Examples.cfg_of None)
           (Examples.world (Ok Examples.route) 0 (JNum 1))
           [("wallet", JStr Fixture.W_ADDR);
            ("tokenFrom", JStr "0x123");
            ("tokenTo", JStr Fixture.WBTC);
            ("amountWei", JStr "18703660");
            ("slippageBps", JNum 120)] "tokenFrom").
  - reflexivity.
  - reflexivity.
Defined.

(** Values with no primitive form, in the three places where the handler
    converts what it received: a wallet that is such an object, an
    excluded source that is one, and a quoted amount that is one.  Each
    request ends in the [catch] block with status 500; the first two issue
    no call, the third one stops right after the quote. *)
Lemma values_without_primitive_form_are_answered_500 :
  let refused :=
    {| status := JNum 500;
       body := JObj [("ok", JBool false);
                     ("error", JStr "Cannot convert object to primitive value");
                     ("details", JNull)] |} in
  let cfg := Examples.cfg_of None in
  let w := Examples.world (Ok Examples.route) 0 (JNum 1) in
  let amountless :=
    Examples.world
      (Ok (JObj [("destAmount", Scenarios.no_primitive);
                 ("tokenTransferProxy", JStr Fixture.PROXY)])) 0 (JNum 1) in
  swap Fixture.js cfg w
       (JObj [("wallet", Scenarios.no_primitive);
              ("tokenFrom", JStr Fixture.USDT);
              ("tokenTo", JStr Fixture.WBTC);
              ("amountWei", JStr "18703660");
              ("slippageBps", JNum 120)])
  = (refused, init)
  /\ fst (swap Fixture.js cfg w
            (Examples.request (JNum 120) [Scenarios.no_primitive] true))
     = refused
  /\ calls (snd (swap Fixture.js cfg w
                   (Examples.request (JNum 120) [Scenarios.no_primitive] true)))
     = []
  /\ fst (swap Fixture.js cfg amountless (Examples.request (JNum 120) [] true))
     = refused
  /\ calls (snd (swap Fixture.js cfg amountless
                   (Examples.request (JNum 120) [] true)))
     = [PricesGet (pricesParams Fixture.js cfg
                     (Examples.coerced 120 [] true) "")].
Proof. vm_compute. repeat split. Qed.

(** 120 basis points are sent as 1.2000 percent. *)
Lemma slippage_percent_is_exact_witness :
  toFixed Fixture.js (PrimFloat.div (Fixture.float_of_Z 120) 100) 4
  = fixed_digits (Z.to_N (100 * 120)) 4.
Proof. apply (slippage_percent_is_exact Fixture.js 120). lia. Defined.
